(** * todo-app: a shallow embedding of the Go backend

    The development follows the backend's files:
    - [Go]         : the few functions of Go's [strings], [strconv] and [fmt]
                     the backend calls;
    - [Database]   : database.go, the four statements over the [tasks] table
                     and [formatQueryWithArgs];
    - [Telemetry]  : telemetry.go, the shutdown closure of [InitTelemetry];
    - [Http]       : what the backend uses of net/http and of the span and
                     metric API: readers, requests, the server's writer;
    - [Middleware] : middleware.go, [responseWriter] and
                     [BodyTracingMiddleware];
    - [Server]     : handlers.go and main.go, the four handlers, their
                     metrics, the two routers and the default mux;
    - [Client]     : http_client.go, [DoWithBodyCapture], and the outbound
                     notification of handlers.go;
    - [Frontend]   : frontend/app.js, the task list the page keeps.

    A Go [string] and a [[]byte] are both a Rocq [string] (a list of bytes);
    a Go [int] is a [Z]. *)

From Stdlib Require Import ZArith List String Ascii Bool Lia.
From Stdlib Require Import Permutation Sorted.
From Stdlib Require Import DecimalString.
From Stdlib Require DecimalPos.
Import ListNotations.

Open Scope string_scope.
Open Scope Z_scope.

(* ===================================================================== *)
(** ** Go's strings, strconv and fmt, as far as the backend uses them     *)
(* ===================================================================== *)

Module Go.

(** [len(s)] *)
Definition len (s : string) : Z := Z.of_nat (String.length s).

(** [s[n:]] for [0 <= n <= len(s)], on naturals. *)
Fixpoint drop (n : nat) (s : string) : string :=
  match n, s with
  | O, _ => s
  | S _, EmptyString => EmptyString
  | S n', String _ s' => drop n' s'
  end.

(** The slice expression [s[i:]]. Go panics at run time ("slice bounds out
    of range") when [i] is negative or exceeds [len(s)]: [None]. *)
Definition slice_from (s : string) (i : Z) : option string :=
  if (i <? 0) || (len s <? i) then None
  else Some (drop (Z.to_nat i) s).

(** [strings.HasPrefix(s, p)] is [String.prefix p s]. *)

(** [strings.Contains(s, sub)] *)
Fixpoint Contains (s sub : string) : bool :=
  if String.prefix sub s then true
  else match s with
       | EmptyString => false
       | String _ s' => Contains s' sub
       end.

(** [strings.Replace(s, old, new, 1)]: the first occurrence of [old], if
    there is one, is replaced by [new]. *)
Fixpoint ReplaceFirst (s old new : string) : string :=
  if String.prefix old s then new ++ drop (String.length old) s
  else match s with
       | EmptyString => EmptyString
       | String c s' => String c (ReplaceFirst s' old new)
       end.

(** [strings.TrimPrefix(s, p)] *)
Definition TrimPrefix (s p : string) : string :=
  if String.prefix p s then drop (String.length p) s else s.

(** [strings.HasSuffix(s, suf)] *)
Definition HasSuffix (s suf : string) : bool :=
  (String.length suf <=? String.length s)%nat &&
  String.eqb (drop (String.length s - String.length suf) s) suf.

(** [strings.TrimSuffix(s, suf)] *)
Definition TrimSuffix (s suf : string) : string :=
  if HasSuffix s suf
  then String.substring 0 (String.length s - String.length suf) s
  else s.

(** [fmt.Sprintf("%d", n)] *)
Definition Itoa (n : Z) : string := NilZero.string_of_int (Z.to_int n).

Definition digit_of (c : ascii) : option Z :=
  let n := Z.of_nat (nat_of_ascii c) in
  if (48 <=? n) && (n <=? 57) then Some (n - 48) else None.

Fixpoint digits (acc : Z) (s : string) : option Z :=
  match s with
  | EmptyString => Some acc
  | String c s' =>
      match digit_of c with
      | Some d => digits (10 * acc + d) s'
      | None => None
      end
  end.

Definition MaxInt : Z := 2 ^ 63 - 1.
Definition MinInt : Z := - 2 ^ 63.

(** [strconv.Atoi]: an optional sign and at least one decimal digit, the
    value in the range of a 64-bit [int]; [None] is any [*NumError]. *)
Definition Atoi (s : string) : option Z :=
  let '(neg, body) :=
    match s with
    | String "-" s' => (true, s')
    | String "+" s' => (false, s')
    | _ => (false, s)
    end in
  match body with
  | EmptyString => None
  | _ =>
      match digits 0 body with
      | Some n =>
          let v := if neg then - n else n in
          if (MinInt <=? v) && (v <=? MaxInt) then Some v else None
      | None => None
      end
  end.

(** [strings.Split(s, "/")] *)
Fixpoint split_slash (s : string) : list string :=
  match s with
  | EmptyString => [EmptyString]
  | String c s' =>
      if Ascii.eqb c "/"%char then EmptyString :: split_slash s'
      else match split_slash s' with
           | element :: rest => String c element :: rest
           | [] => [String c EmptyString]
           end
  end.

(** The elements [path.Clean] keeps of a rooted path: empty elements and
    [.] are dropped, and [..] drops the element kept before it, if there is
    one. [kept] holds the elements kept so far, the last one first. *)
Fixpoint clean_elements (elements kept : list string) : list string :=
  match elements with
  | [] => rev kept
  | element :: rest =>
      if String.eqb element "" || String.eqb element "."
      then clean_elements rest kept
      else if String.eqb element ".." then clean_elements rest (tl kept)
      else clean_elements rest (element :: kept)
  end.

(** [path.Clean(p)] for a path [p] that begins with a slash: the elements
    kept, each after a slash, and the root when none is kept. *)
Definition Clean (p : string) : string :=
  match clean_elements (split_slash p) [] with
  | [] => "/"
  | kept => fold_left (fun out element => out ++ "/" ++ element) kept ""
  end.

(** A Go slice is either [nil] or a (possibly empty) backing list; the two
    differ under [== nil] and under [encoding/json]. *)
Inductive slice (A : Type) : Type :=
| Nil
| Slice (l : list A).
Arguments Nil {A}.
Arguments Slice {A} l.

Definition elems {A} (s : slice A) : list A :=
  match s with
  | Nil => []
  | Slice l => l
  end.

(** [append(s, x)] *)
Definition append {A} (s : slice A) (x : A) : slice A :=
  Slice (elems s ++ [x]).

Definition is_nil {A} (s : slice A) : bool :=
  match s with
  | Nil => true
  | Slice _ => false
  end.

(** Go's [error] values of the backend: the sentinel [sql.ErrNoRows] and
    errors made by [fmt.Errorf] or by a driver. *)
Inductive error : Type :=
| ErrNoRows
| Errorf (msg : string).

Definition is_ErrNoRows (e : error) : bool :=
  match e with
  | ErrNoRows => true
  | Errorf _ => false
  end.

(** [err.Error()] *)
Definition error_text (e : error) : string :=
  match e with
  | ErrNoRows => "sql: no rows in result set"
  | Errorf msg => msg
  end.

(** [fmt.Errorf(msg + ": %w", err)] *)
Definition wrap (msg : string) (e : error) : error :=
  Errorf (msg ++ ": " ++ error_text e).

End Go.



(* ===================================================================== *)
(** ** database.go                                                         *)
(* ===================================================================== *)

Module Database.
Import Go.

(** Modelled from the spec: the declaration of [Task] is in a file that is
    not among the sources; its four fields are those [rows.Scan] fills in
    database.go, with the spec's types (integer identifier, text title,
    boolean completion flag, creation timestamp, here in seconds). *)
Record Task : Type := mkTask {
  ID : Z;
  Title : string;
  Completed : bool;
  CreatedAt : Z
}.

Definition Task_eq_dec (a b : Task) : {a = b} + {a <> b}.
Proof.
  decide equality; auto using Z.eq_dec, string_dec, bool_dec.
Defined.

(** [b] is not newer than [a]: the order of a list sorted newest first. *)
Definition not_newer (a b : Task) : Prop := CreatedAt b <= CreatedAt a.

(** A [driver.Value] bound to a placeholder. A [float64] and a value of any
    other kind ([time.Time], ...) are carried by the text [fmt] prints for
    them under [%f] and [%v]. *)
Inductive Value : Type :=
| VNil
| VString (s : string)
| VBytes (b : string)
| VInt (n : Z)
| VFloat (printed : string)
| VBool (b : bool)
| VOther (printed : string).

(** The [value] computed by the type switch of [formatQueryWithArgs]. *)
Definition render (arg : Value) : string :=
  match arg with
  | VNil => "NULL"
  | VString v => "'" ++ v ++ "'"
  | VBytes v => "'" ++ v ++ "'"
  | VInt v => Itoa v
  | VFloat printed => printed
  | VBool true => "TRUE"
  | VBool false => "FALSE"
  | VOther printed => printed
  end.

(** [placeholder] for the argument of index [i]. *)
Definition placeholder (query : string) (i : nat) : string :=
  if Contains query "$" then "$" ++ Itoa (Z.of_nat i + 1) else "?".

(** The loop [for i, arg := range args] of [formatQueryWithArgs]. *)
Fixpoint format_loop (query : string) (i : nat) (args : list Value)
    (formattedQuery : string) : string :=
  match args with
  | [] => formattedQuery
  | arg :: rest =>
      format_loop query (S i) rest
        (ReplaceFirst formattedQuery (placeholder query i) (render arg))
  end.

Definition formatQueryWithArgs (query : string) (args : list Value) : string :=
  match args with
  | [] => query
  | _ => format_loop query 0 args query
  end.

(** A statement as the instrumented driver saw it: the text and the bound
    arguments sent to SQLite, and the [db.statement.formatted] attribute
    the attributes getter of [NewDB] computed for the span. *)
Record Stmt : Type := mkStmt {
  stmt_text : string;
  stmt_args : list Value;
  stmt_formatted : string
}.

(** The connection: the [tasks] table in insertion order, the AUTOINCREMENT
    counter of [sqlite_sequence], SQLite's clock, a driver fault (an
    unreachable or broken store fails every statement with it) and the
    statements executed so far. *)
Record conn : Type := mkConn {
  rows : list Task;
  autoinc : Z;
  clock : Z;
  fault : option string;
  executed : list Stmt
}.

Definition set_rows (c : conn) (rs : list Task) : conn :=
  mkConn rs (autoinc c) (clock c) (fault c) (executed c).

Definition set_autoinc (c : conn) (n : Z) : conn :=
  mkConn (rows c) n (clock c) (fault c) (executed c).

(** Sending one statement to the driver. *)
Definition send (query : string) (args : list Value) (c : conn) : conn :=
  mkConn (rows c) (autoinc c) (clock c) (fault c)
    (executed c ++ [mkStmt query args (formatQueryWithArgs query args)]).

(** Time passing between two statements. *)
Definition tick (seconds : Z) (c : conn) : conn :=
  mkConn (rows c) (autoinc c) (clock c + seconds) (fault c) (executed c).

Definition has_id (id : Z) (t : Task) : bool := ID t =? id.

(** [ORDER BY created_at DESC], as an insertion sort that keeps rows of
    equal [created_at] in table order (SQL leaves their order open). *)
Fixpoint insert_desc (t : Task) (l : list Task) : list Task :=
  match l with
  | [] => [t]
  | u :: l' =>
      if CreatedAt u <=? CreatedAt t then t :: u :: l'
      else u :: insert_desc t l'
  end.

Fixpoint order_by_created_at_desc (l : list Task) : list Task :=
  match l with
  | [] => []
  | t :: l' => insert_desc t (order_by_created_at_desc l')
  end.

Definition max_id (l : list Task) : Z :=
  fold_right (fun t m => Z.max (ID t) m) 0 l.

(** The rowid an AUTOINCREMENT insert takes: one more than the largest
    rowid the table has ever held. *)
Definition next_id (c : conn) : Z := Z.max (autoinc c) (max_id (rows c)) + 1.

(** A rowid is a signed 64-bit integer. Once the table has held the largest
    one, AUTOINCREMENT refuses every insert with SQLITE_FULL, which the
    driver reports with this text. *)
Definition full_error : error := Errorf "database or disk is full".

Definition complete (id : Z) (t : Task) : Task :=
  if has_id id t then mkTask (ID t) (Title t) true (CreatedAt t) else t.

Definition select_query : string :=
  "SELECT id, title, completed, created_at FROM tasks ORDER BY created_at DESC".
Definition insert_query : string :=
  "INSERT INTO tasks (title) VALUES (?) RETURNING id, title, completed, created_at".
Definition delete_query : string :=
  "DELETE FROM tasks WHERE id = ?".
Definition update_query : string :=
  "UPDATE tasks SET completed = 1 WHERE id = ? RETURNING id, title, completed, created_at".

(** [(db *DB) GetAllTasks]: the pair [(tasks, err)] it returns. *)
Definition GetAllTasks (c : conn) : (slice Task * option error) * conn :=
  let c1 := send select_query [] c in
  match fault c with
  | Some e => ((Nil, Some (Errorf e)), c1)
  | None =>
      (* var tasks []Task; for rows.Next() { tasks = append(tasks, task) } *)
      ((fold_left append (order_by_created_at_desc (rows c)) Nil, None), c1)
  end.

Definition simulated_error : error :=
  Errorf "simulated database error: cannot create task with title 'errorTest'".

(** [(db *DB) CreateTask] *)
Definition CreateTask (title : string) (c : conn) : (Task + error) * conn :=
  if String.eqb title "errorTest" then (inr simulated_error, c)
  else
    let c1 := send insert_query [VString title] c in
    match fault c with
    | Some e => (inr (Errorf e), c1)
    | None =>
        if MaxInt <? next_id c then (inr full_error, c1)
        else
          let task := mkTask (next_id c) title false (clock c) in
          (inl task, set_autoinc (set_rows c1 (rows c ++ [task])) (ID task))
    end.

(** [(db *DB) DeleteTask]: the [error] it returns, [None] for [nil]. *)
Definition DeleteTask (id : Z) (c : conn) : option error * conn :=
  let c1 := send delete_query [VInt id] c in
  match fault c with
  | Some e => (Some (Errorf e), c1)
  | None =>
      let rowsAffected := Z.of_nat (List.length (filter (has_id id) (rows c))) in
      let c2 := set_rows c1 (filter (fun t => negb (has_id id t)) (rows c)) in
      if rowsAffected =? 0 then (Some ErrNoRows, c2) else (None, c2)
  end.

(** [(db *DB) CompleteTask]: [QueryRowContext(...).Scan] takes the first
    returned row and fails with [sql.ErrNoRows] when there is none. *)
Definition CompleteTask (id : Z) (c : conn) : (Task + error) * conn :=
  let c1 := send update_query [VInt id] c in
  match fault c with
  | Some e => (inr (Errorf e), c1)
  | None =>
      let updated := map (complete id) (rows c) in
      let c2 := set_rows c1 updated in
      match filter (has_id id) updated with
      | [] => (inr ErrNoRows, c2)
      | task :: _ => (inl task, c2)
      end
  end.

End Database.

(* ===================================================================== *)
(** ** telemetry.go                                                        *)
(* ===================================================================== *)

Module Telemetry.
Import Go.

(** The three providers whose [Shutdown] methods [InitTelemetry] collects. *)
Inductive Pipeline : Type :=
| TracerProvider
| MeterProvider
| LoggerProvider.

(** What the SDK does at shutdown is outside the backend: the state of the
    providers is the list of the [Shutdown] calls made so far, and
    [outcome before p] is the error, if any, that the [Shutdown] of [p]
    returns after the calls [before]. A provider may answer a repeated
    [Shutdown] differently from the first. *)
Record Providers : Type := mkProviders {
  outcome : list Pipeline -> Pipeline -> option error;
  shut : list Pipeline
}.

(** A [func(context.Context) error] *)
Definition ShutdownFunc : Type := Providers -> option error * Providers.

(** [tracerProvider.Shutdown], [meterProvider.Shutdown],
    [loggerProvider.Shutdown] *)
Definition Shutdown (p : Pipeline) : ShutdownFunc :=
  fun st => (outcome st (shut st) p, mkProviders (outcome st) (shut st ++ [p])).

(** [for _, fn := range shutdownFuncs { err = fn(ctx) }; return err] *)
Fixpoint shutdown_loop (fns : list ShutdownFunc) (err : option error)
    (st : Providers) : option error * Providers :=
  match fns with
  | [] => (err, st)
  | fn :: rest =>
      let '(err', st') := fn st in
      shutdown_loop rest err' st'
  end.

(** The closure [shutdown] of [InitTelemetry], over the slice
    [shutdownFuncs] it captures. *)
Definition shutdown (shutdownFuncs : list ShutdownFunc) : ShutdownFunc :=
  fun st => shutdown_loop shutdownFuncs None st.

(** The constructors [InitTelemetry] calls and that can fail:
    [resource.New] and the three exporters (OTLP or stdout, by
    [OTEL_EXPORTER_OTLP_ENDPOINT]; the error texts name the kind, which is
    left out here). *)
Record Setup : Type := mkSetup {
  resource_err : option error;
  trace_exporter_err : option error;
  metric_exporter_err : option error;
  log_exporter_err : option error
}.

(** [InitTelemetry]: the slice [shutdownFuncs] as it stands when the
    function returns (the closure reads it when it is called, after that),
    and the error returned. *)
Definition InitTelemetry (env : Setup) : list ShutdownFunc * option error :=
  let shutdownFuncs : list ShutdownFunc := [] in
  match resource_err env with
  | Some e => (shutdownFuncs, Some (wrap "failed to create resource" e))
  | None =>
  match trace_exporter_err env with
  | Some e => (shutdownFuncs, Some (wrap "failed to create trace exporter" e))
  | None =>
  let shutdownFuncs := (shutdownFuncs ++ [Shutdown TracerProvider])%list in
  match metric_exporter_err env with
  | Some e => (shutdownFuncs, Some (wrap "failed to create metric exporter" e))
  | None =>
  let shutdownFuncs := (shutdownFuncs ++ [Shutdown MeterProvider])%list in
  match log_exporter_err env with
  | Some e => (shutdownFuncs, Some (wrap "failed to create log exporter" e))
  | None =>
  let shutdownFuncs := (shutdownFuncs ++ [Shutdown LoggerProvider])%list in
  (shutdownFuncs, None)
  end end end end.

End Telemetry.

(* ===================================================================== *)
(** ** net/http and the OpenTelemetry API, as the backend sees them        *)
(* ===================================================================== *)

Module Http.
Import Go.

(** An [io.Reader] is the sequence of results its [Read] calls still have
    to give: data, or an error other than [io.EOF]. Once the sequence is
    used up every [Read] returns [io.EOF]. What a reader gives after an
    error is up to the reader: nothing, or more data. *)
Inductive ReadResult : Type :=
| Data (b : string)
| Failure (e : string).

Definition Reader : Type := list ReadResult.

(** [io.ReadAll]: the bytes read, the error ([None] at [io.EOF]) and the
    reader as the call leaves it. *)
Fixpoint ReadAll (r : Reader) : (string * option error) * Reader :=
  match r with
  | [] => (("", None), [])
  | Data b :: r' =>
      let '((bs, err), rest) := ReadAll r' in
      ((b ++ bs, err), rest)
  | Failure e :: r' => (("", Some (Errorf e)), r')
  end.

(** [io.NopCloser(bytes.NewReader(b))] *)
Definition NewReader (b : string) : Reader := [Data b].

(** The part of [*http.Request] the backend reads; [Body] is [None] for a
    nil body. *)
Record Request : Type := mkRequest {
  Method : string;
  Path : string;
  Body : option Reader
}.

Definition with_body (r : Request) (b : Reader) : Request :=
  mkRequest (Method r) (Path r) (Some b).

(** [cleanPath] of net/http, the canonical form of a path for the mux:
    [path.Clean] of the rooted path, with the trailing slash it removes put
    back. *)
Definition cleanPath (p : string) : string :=
  if String.eqb p "" then "/"
  else
    let p := if String.prefix "/" p then p else "/" ++ p in
    let np := Clean p in
    if HasSuffix p "/" && negb (String.eqb np "/") then np ++ "/" else np.

(** [attribute.KeyValue] *)
Inductive Attr : Type :=
| AString (s : string)
| AInt (n : Z)
| ABool (b : bool).

Definition KeyValue : Type := (string * Attr)%type.

(** Calls on the request's span, in order. *)
Inductive SpanCall : Type :=
| SetAttributes (kvs : list KeyValue)
| AddEvent (name : string) (kvs : list KeyValue)
| RecordError (e : error).

(** Calls on the two instruments of [Handlers]; the duration observed is
    wall-clock time and is left out. *)
Inductive Measurement : Type :=
| CounterAdd (incr : Z) (attrs : list KeyValue)
| HistogramRecord (attrs : list KeyValue).

(** What a request can change besides its response: the store, the span of
    its context and the instruments. *)
Record World : Type := mkWorld {
  db : Database.conn;
  span : list SpanCall;
  metrics : list Measurement
}.

Definition set_db (st : World) (c : Database.conn) : World :=
  mkWorld c (span st) (metrics st).

Definition on_span (call : SpanCall) (st : World) : World :=
  mkWorld (db st) (span st ++ [call]) (metrics st).

Definition measure (ms : list Measurement) (st : World) : World :=
  mkWorld (db st) (span st) (metrics st ++ ms).

(** The interface [http.ResponseWriter]. The [(int, error)] a [Write]
    returns is not used by any handler and is left out. *)
Class ResponseWriter (W : Type) : Type := {
  HeaderSet : string -> string -> W -> W;
  WriteHeader : Z -> W -> W;
  Write : string -> W -> W
}.

(** One call of a handler on its [http.ResponseWriter]. *)
Inductive WriterCall : Type :=
| CallHeaderSet (key value : string)
| CallWriteHeader (statusCode : Z)
| CallWrite (b : string).

Definition call {W} `{ResponseWriter W} (w : W) (c : WriterCall) : W :=
  match c with
  | CallHeaderSet k v => HeaderSet k v w
  | CallWriteHeader code => WriteHeader code w
  | CallWrite b => Write b w
  end.

Definition calls {W} `{ResponseWriter W} (cs : list WriterCall) (w : W) : W :=
  fold_left call cs w.

(** A run of a handler: its calls on the writer it was given, the world it
    leaves, and whether it ended in a run-time panic instead of returning. *)
Record Run : Type := mkRun {
  written : list WriterCall;
  world : World;
  panicked : bool
}.

Definition Handler : Type := Request -> World -> Run.

Definition returns (cs : list WriterCall) (st : World) : Run := mkRun cs st false.
Definition panics (cs : list WriterCall) (st : World) : Run := mkRun cs st true.

(** [http.Error(w, msg, code)] *)
Definition Error (msg : string) (code : Z) : list WriterCall :=
  [ CallHeaderSet "Content-Type" "text/plain; charset=utf-8";
    CallHeaderSet "X-Content-Type-Options" "nosniff";
    CallWriteHeader code;
    CallWrite (msg ++ String "010"%char "") ].

(** The server's own [http.ResponseWriter], as the client sees it: whether
    the request it answers is a HEAD request, the status line and header
    once written, and the body bytes sent. *)
Record Response : Type := mkResponse {
  head : bool;
  header : list (string * string);
  status : option Z;
  sent_header : list (string * string);
  sent : string
}.

(** The writer a handler is given for a request other than HEAD, and the
    one it is given for a HEAD request. *)
Definition no_response : Response := mkResponse false [] None [] "".
Definition no_response_to_HEAD : Response := mkResponse true [] None [] "".

Definition response_to (r : Request) : Response :=
  if String.eqb (Method r) "HEAD" then no_response_to_HEAD else no_response.

Definition header_set (k v : string) (h : list (string * string)) :=
  (filter (fun kv => negb (String.eqb (fst kv) k)) h ++ [(k, v)])%list.

Definition response_WriteHeader (code : Z) (r : Response) : Response :=
  match status r with
  | Some _ => r
  | None => mkResponse (head r) (header r) (Some code) (header r) (sent r)
  end.

(** No body goes out under 1xx, 204 and 304. *)
Definition bodyAllowedForStatus (code : Z) : bool :=
  negb (((100 <=? code) && (code <=? 199)) || (code =? 204) || (code =? 304)).

(** [Write] sends the header with 200 if none was sent; the bytes go out
    when the status allows a body and the request is not a HEAD request,
    whose writes are accepted and dropped. *)
Definition response_Write (b : string) (r : Response) : Response :=
  let r := response_WriteHeader 200 r in
  match status r with
  | Some code =>
      if bodyAllowedForStatus code && negb (head r)
      then mkResponse (head r) (header r) (status r) (sent_header r) (sent r ++ b)
      else r
  | None => r
  end.

#[export] Instance Response_writer : ResponseWriter Response := {
  HeaderSet k v r := mkResponse (head r) (header_set k v (header r)) (status r)
                       (sent_header r) (sent r);
  WriteHeader := response_WriteHeader;
  Write := response_Write
}.

(** The response a run leaves on a fresh connection, to a request other
    than HEAD; [respond_to r] is the response to the request [r], whatever
    its method. The two have the same status line and header. *)
Definition respond (run : Run) : Response := calls (written run) no_response.

Definition respond_to (r : Request) (run : Run) : Response :=
  calls (written run) (response_to r).

(** The status code and the body the client gets from a run. *)
Definition status_and_body (run : Run) : option Z * string :=
  (status (respond run), sent (respond run)).

End Http.

(* ===================================================================== *)
(** ** middleware.go                                                       *)
(* ===================================================================== *)

Module Middleware.
Import Go Http.

Section Wrapper.
Context {W : Type} `{ResponseWriter W}.

(** [responseWriter]: the embedded [http.ResponseWriter], the buffer and
    the status code. *)
Record responseWriter : Type := mkResponseWriter {
  inner : W;
  body : string;
  statusCode : Z
}.

(** [(rw *responseWriter) Write] *)
Definition rw_Write (b : string) (rw : responseWriter) : responseWriter :=
  let buffered := body rw ++ b in
  mkResponseWriter (Write b (inner rw)) buffered (statusCode rw).

(** [(rw *responseWriter) WriteHeader] *)
Definition rw_WriteHeader (code : Z) (rw : responseWriter) : responseWriter :=
  mkResponseWriter (WriteHeader code (inner rw)) (body rw) code.

(** [Header] is promoted from the embedded writer. *)
Definition rw_HeaderSet (k v : string) (rw : responseWriter) : responseWriter :=
  mkResponseWriter (HeaderSet k v (inner rw)) (body rw) (statusCode rw).

#[export] Instance responseWriter_writer : ResponseWriter responseWriter := {
  HeaderSet := rw_HeaderSet;
  WriteHeader := rw_WriteHeader;
  Write := rw_Write
}.

(** The first half of [BodyTracingMiddleware]: the request handed to
    [next] and the world after the request body was looked at. *)
Definition capture_request (r : Request) (st : World) : Request * World :=
  match Body r with
  | Some rbody =>
      if negb (String.eqb (Method r) "GET") && negb (String.eqb (Method r) "DELETE")
      then
        let '((bodyBytes, err), rest) := ReadAll rbody in
        match err with
        | None =>
            (with_body r (NewReader bodyBytes),
             on_span (AddEvent "http.request.body"
                        [("body", AString bodyBytes);
                         ("size", AInt (len bodyBytes))]) st)
        | Some _ =>
            (* r.Body is still the reader ReadAll has read from *)
            (with_body r rest, st)
        end
      else (r, st)
  | None => (r, st)
  end.

(** [BodyTracingMiddleware(next)] serving [r] on the writer [w]: the
    writer and the world it leaves, and whether [next] panicked (the
    middleware does not recover). *)
Definition BodyTracingMiddleware (next : Handler) (w : W) (r : Request)
    (st : World) : (W * World) * bool :=
  let '(r1, st1) := capture_request r st in
  let rw := mkResponseWriter w "" 200 in
  let run := next r1 st1 in
  let rw := calls (written run) rw in
  if panicked run then ((inner rw, world run), true)
  else if 0 <? len (body rw) then
    ((inner rw,
      on_span (AddEvent "http.response.body"
                 [("body", AString (body rw));
                  ("size", AInt (len (body rw)));
                  ("status_code", AInt (statusCode rw))]) (world run)),
     false)
  else ((inner rw, world run), false).

End Wrapper.

Arguments responseWriter W : clear implicits.

End Middleware.

(* ===================================================================== *)
(** ** handlers.go and main.go                                             *)
(* ===================================================================== *)

Module Server.
Import Go Http.

Section Handlers.

(** [encoding/json] is outside the backend: [encodeTask] is the JSON text
    of one [Task], and [decodeTitle] is
    [json.NewDecoder(r.Body).Decode(&req)] followed by [req.Title]
    ([None] when [Decode] returns an error). *)
Variable encodeTask : Database.Task -> string.
Variable decodeTitle : Reader -> option string.

Definition newline : string := String "010"%char "".

Fixpoint join (sep : string) (l : list string) : string :=
  match l with
  | [] => ""
  | [x] => x
  | x :: l' => x ++ sep ++ join sep l'
  end.

(** [json.NewEncoder(w).Encode(tasks)] for a [[]Task]: a nil slice is
    encoded as [null]. *)
Definition encodeTasks (tasks : slice Database.Task) : string :=
  match tasks with
  | Nil => "null"
  | Slice l => "[" ++ join "," (map encodeTask l) ++ "]"
  end ++ newline.

(** [(h *Handlers) enableCORS] *)
Definition enableCORS : list WriterCall :=
  [ CallHeaderSet "Access-Control-Allow-Origin" "*";
    CallHeaderSet "Access-Control-Allow-Methods" "GET, POST, DELETE, OPTIONS";
    CallHeaderSet "Access-Control-Allow-Headers" "Content-Type" ].

(** [(h *Handlers) recordRequestMetrics] *)
Definition recordRequestMetrics (method endpoint : string) (statusCode : Z)
    (st : World) : World :=
  let attrs := [ ("method", AString method);
                 ("endpoint", AString endpoint);
                 ("status_code", AInt statusCode) ] in
  measure [CounterAdd 1 attrs; HistogramRecord attrs] st.

(** [(h *Handlers) notifyExternalAPI]: the outbound call writes to a span
    of its own and to the log, and gives nothing back to [CreateTask]. *)
Definition notifyExternalAPI (task : Database.Task) (st : World) : World := st.

(** [(h *Handlers) GetTasks] *)
Definition GetTasks (r : Request) (st : World) : Run :=
  if String.eqb (Method r) "OPTIONS" then
    returns (enableCORS ++ [CallWriteHeader 200]) st
  else if negb (String.eqb (Method r) "GET") then
    returns (enableCORS ++ Error "Method not allowed" 405) st
  else
    let st := measure [CounterAdd 1 [ ("method", AString "GET");
                                      ("endpoint", AString "/tasks") ]] st in
    let st := on_span (SetAttributes [("operation", AString "get_all_tasks")]) st in
    let '((tasks, err), c) := Database.GetAllTasks (db st) in
    let st := set_db st c in
    match err with
    | Some e =>
        let st := on_span (RecordError e) st in
        returns (enableCORS ++ Error "Internal server error" 500)
                (recordRequestMetrics "GET" "/tasks" 500 st)
    | None =>
        let tasks := if is_nil tasks then Slice [] else tasks in
        returns (enableCORS ++
                 [ CallHeaderSet "Content-Type" "application/json";
                   CallWrite (encodeTasks tasks) ])
                (recordRequestMetrics "GET" "/tasks" 200 st)
    end.

(** [(h *Handlers) CreateTask] *)
Definition CreateTask (r : Request) (st : World) : Run :=
  if String.eqb (Method r) "OPTIONS" then
    returns (enableCORS ++ [CallWriteHeader 200]) st
  else if negb (String.eqb (Method r) "POST") then
    returns (enableCORS ++ Error "Method not allowed" 405) st
  else
    match Body r with
    | None => panics enableCORS st   (* Decode reads from a nil reader *)
    | Some rbody =>
    match decodeTitle rbody with
    | None => returns (enableCORS ++ Error "Invalid request body" 400) st
    | Some title =>
    if String.eqb title "" then
      returns (enableCORS ++ Error "Title is required" 400) st
    else
      let st := on_span (SetAttributes [ ("operation", AString "create_task");
                                         ("task.title", AString title) ]) st in
      let '(res, c) := Database.CreateTask title (db st) in
      let st := set_db st c in
      match res with
      | inr e =>
          let st := on_span (RecordError e) st in
          returns (enableCORS ++ Error "Internal server error" 500)
                  (recordRequestMetrics "POST" "/tasks" 500 st)
      | inl task =>
          let st := notifyExternalAPI task st in
          returns (enableCORS ++
                   [ CallHeaderSet "Content-Type" "application/json";
                     CallWriteHeader 201;
                     CallWrite (encodeTask task ++ newline) ])
                  (recordRequestMetrics "POST" "/tasks" 201 st)
      end
    end end.

(** [(h *Handlers) DeleteTask] *)
Definition DeleteTask (r : Request) (st : World) : Run :=
  if String.eqb (Method r) "OPTIONS" then
    returns (enableCORS ++ [CallWriteHeader 200]) st
  else if negb (String.eqb (Method r) "DELETE") then
    returns (enableCORS ++ Error "Method not allowed" 405) st
  else
    let path := TrimPrefix (Path r) "/tasks/" in
    match Atoi path with
    | None => returns (enableCORS ++ Error "Invalid task ID" 400) st
    | Some id =>
        let st := on_span (SetAttributes [ ("operation", AString "delete_task");
                                           ("task.id", AInt id) ]) st in
        let '(err, c) := Database.DeleteTask id (db st) in
        let st := set_db st c in
        match err with
        | Some e =>
            if is_ErrNoRows e then
              returns (enableCORS ++ Error "Task not found" 404)
                      (recordRequestMetrics "DELETE" "/tasks/:id" 404 st)
            else
              let st := on_span (RecordError e) st in
              returns (enableCORS ++ Error "Internal server error" 500)
                      (recordRequestMetrics "DELETE" "/tasks/:id" 500 st)
        | None =>
            returns (enableCORS ++ [CallWriteHeader 204])
                    (recordRequestMetrics "DELETE" "/tasks/:id" 204 st)
        end
    end.

(** [(h *Handlers) CompleteTask] *)
Definition CompleteTask (r : Request) (st : World) : Run :=
  if String.eqb (Method r) "OPTIONS" then
    returns (enableCORS ++ [CallWriteHeader 200]) st
  else if negb (String.eqb (Method r) "POST") then
    returns (enableCORS ++ Error "Method not allowed" 405) st
  else
    let path := TrimPrefix (Path r) "/tasks/" in
    let path := TrimSuffix path "/complete" in
    match Atoi path with
    | None => returns (enableCORS ++ Error "Invalid task ID" 400) st
    | Some id =>
        let st := on_span (SetAttributes [ ("operation", AString "complete_task");
                                           ("task.id", AInt id) ]) st in
        let '(res, c) := Database.CompleteTask id (db st) in
        let st := set_db st c in
        match res with
        | inr e =>
            if is_ErrNoRows e then
              returns (enableCORS ++ Error "Task not found" 404)
                      (recordRequestMetrics "POST" "/tasks/:id/complete" 404 st)
            else
              let st := on_span (RecordError e) st in
              returns (enableCORS ++ Error "Internal server error" 500)
                      (recordRequestMetrics "POST" "/tasks/:id/complete" 500 st)
        | inl task =>
            returns (enableCORS ++
                     [ CallHeaderSet "Content-Type" "application/json";
                       CallWrite (encodeTask task ++ newline) ])
                    (recordRequestMetrics "POST" "/tasks/:id/complete" 200 st)
        end
    end.

(** The handler function registered in [main] under ["/tasks"]. *)
Definition tasks_route : Handler := fun r st =>
  if String.eqb (Method r) "GET" || String.eqb (Method r) "OPTIONS" then
    GetTasks r st
  else if String.eqb (Method r) "POST" then
    CreateTask r st
  else
    returns (Error "Method not allowed" 405) st.

(** The handler function registered in [main] under ["/tasks/"]. *)
Definition task_route : Handler := fun r st =>
  if String.eqb (Method r) "DELETE" || String.eqb (Method r) "OPTIONS" then
    DeleteTask r st
  else if String.eqb (Method r) "POST" && (len "/tasks/" <? len (Path r)) then
    match slice_from (Path r) (len "/tasks/") with
    | None => panics [] st
    | Some pathSuffix =>
        if 0 <? len pathSuffix then
          match slice_from pathSuffix (len pathSuffix - 9) with
          | None => panics [] st
          | Some tail =>
              if String.eqb tail "/complete" then CompleteTask r st
              else returns (Error "Not found" 404) st
          end
        else returns (Error "Not found" 404) st
    end
  else
    returns (Error "Method not allowed" 405) st.

(** What the default mux of [main] does with a request: it answers 301
    with the canonical path in the [Location] header (followed by the query
    of the request) and runs no route; or it runs one of the two
    instrumented routes, on the server's writer for that request; or it
    leaves the request to the file server registered under ["/"]. *)
Inductive Dispatch : Type :=
| MovedPermanently (location : string)
| Routed (out : (Response * World) * bool)
| FileServer.

(** The server of [main]: [http.DefaultServeMux] with the patterns ["/"],
    ["/tasks"] (that path only) and ["/tasks/"] (every path under it).
    Unless the method is CONNECT, the mux redirects a request whose path is
    not in canonical form; it canonicalises [r.URL.EscapedPath()] (from Go
    1.22 on; [r.URL.Path] before), given here as [escapedPath], while the
    routes read [r.URL.Path]. The two are the same string when the path of
    the request line needs and has no percent-encoding, and a request line
    in origin form has a path that begins with a slash: [None] is any other
    request, which is not modelled. *)
Definition serve (escapedPath : string) (r : Request) (st : World)
    : option Dispatch :=
  if negb (String.eqb escapedPath (Path r)) || negb (String.prefix "/" (Path r))
  then None
  else if negb (String.eqb (Method r) "CONNECT") &&
          negb (String.eqb (cleanPath escapedPath) escapedPath)
  then Some (MovedPermanently (cleanPath escapedPath))
  else if String.eqb (Path r) "/tasks" then
    Some (Routed (Middleware.BodyTracingMiddleware tasks_route (response_to r) r st))
  else if String.prefix "/tasks/" (Path r) then
    Some (Routed (Middleware.BodyTracingMiddleware task_route (response_to r) r st))
  else Some FileServer.

End Handlers.

End Server.

(* ===================================================================== *)
(** ** http_client.go, and the outbound call of handlers.go                *)
(* ===================================================================== *)

Module Client.
Import Go Http.

(** The part of an outbound [*http.Request] the client reads or sets; the
    header holds the names as they are given to [Header.Set]. *)
Record OutRequest : Type := mkOutRequest {
  out_method : string;
  out_url : string;
  out_host : string;
  out_header : list (string * string);
  out_body : option Reader
}.

(** The part of an [*http.Response] the client reads or sets. *)
Record OutResponse : Type := mkOutResponse {
  StatusCode : Z;
  resp_body : Reader
}.

Definition with_out_body (req : OutRequest) (b : Reader) : OutRequest :=
  mkOutRequest (out_method req) (out_url req) (out_host req) (out_header req) (Some b).

(** What a call of [DoWithBodyCapture] leaves: the pair it returns, the
    span of its context, and the request it handed to [c.client.Do], if it
    got that far. *)
Record Exchange : Type := mkExchange {
  returned : OutResponse + error;
  span_after : list SpanCall;
  handed_to_Do : option OutRequest
}.

Section Transport.

(** [c.client.Do], the instrumented transport and the network behind it, and
    the table [http.StatusText]. *)
Variable Do : OutRequest -> OutResponse + error.
Variable StatusText : Z -> string.

(** [(c *HTTPClient) DoWithBodyCapture] *)
Definition DoWithBodyCapture (req : OutRequest) (span : list SpanCall) : Exchange :=
  let captured :=
    match out_body req with
    | Some rbody =>
        let '((requestBody, err), _) := ReadAll rbody in
        match err with
        | Some e => inr (wrap "failed to read request body" e)
        | None =>
            inl (with_out_body req (NewReader requestBody),
                 (span ++ [AddEvent "http.request.body"
                             [("body", AString requestBody);
                              ("size", AInt (len requestBody))]])%list)
        end
    | None => inl (req, span)
    end in
  match captured with
  | inr e => mkExchange (inr e) span None
  | inl (req, span) =>
      let span := (span ++ [SetAttributes
                              [("http.method", AString (out_method req));
                               ("http.url", AString (out_url req));
                               ("http.host", AString (out_host req))]])%list in
      match Do req with
      | inr e => mkExchange (inr e) (span ++ [RecordError e]) (Some req)
      | inl resp =>
          let '((responseBody, err), _) := ReadAll (resp_body resp) in
          match err with
          | Some e =>
              mkExchange (inr (wrap "failed to read response body" e))
                         (span ++ [RecordError e]) (Some req)
          | None =>
              let span :=
                (span ++ [AddEvent "http.response.body"
                            [("body", AString responseBody);
                             ("size", AInt (len responseBody));
                             ("status_code", AInt (StatusCode resp))]])%list in
              let resp := mkOutResponse (StatusCode resp) (NewReader responseBody) in
              let span :=
                (span ++ [SetAttributes
                            [("http.status_code", AInt (StatusCode resp));
                             ("http.status_text",
                              AString (StatusText (StatusCode resp)))]])%list in
              mkExchange (inl resp) span (Some req)
          end
      end
  end.

(** [url.Values.Encode] of the two parameters, another table of the
    standard library. *)
Variable Encode : list (string * string) -> string.

(** [(h *Handlers) notifyExternalAPI], seen from the span
    ["external.api.notification"] it starts and ends: the attributes the
    span starts with, and the exchange made in its context. The URL is
    well-formed, so [http.NewRequestWithContext] does not fail; the log
    lines are left out. *)
Definition notifyExternalAPI (task : Database.Task) : list KeyValue * Exchange :=
  let attrs := [ ("api.service", AString "httpbin.org");
                 ("task.id", AInt (Database.ID task));
                 ("task.title", AString (Database.Title task)) ] in
  let params := [ ("task_id", Itoa (Database.ID task));
                  ("task_title", Database.Title task) ] in
  let apiURL := "https://httpbin.org/get?" ++ Encode params in
  let req := mkOutRequest "GET" apiURL "httpbin.org"
               [ ("X-Task-ID", Itoa (Database.ID task));
                 ("X-Task-Title", Database.Title task);
                 ("User-Agent", "todo-app/1.0") ] None in
  let ex := DoWithBodyCapture req [] in
  match returned ex with
  | inr err =>
      (attrs, mkExchange (returned ex) (span_after ex ++ [RecordError err])
                (handed_to_Do ex))
  | inl _ => (attrs, ex)
  end.

End Transport.

End Client.

(* ===================================================================== *)
(** ** frontend/app.js                                                     *)
(* ===================================================================== *)

Module Frontend.
Import Go.

(** [response.ok] *)
Definition ok (status : Z) : bool := (200 <=? status) && (status <=? 299).

(** The global [tasks] of the page is a list of task objects; the JSON of an
    answer is taken as parsed. Each function gives the new value of [tasks]
    after the answer with [status] arrived; an answer that is not [ok]
    throws, and the [catch] leaves [tasks] alone. *)

(** [fetchTasks]: [tasks = await response.json()] *)
Definition fetchTasks (status : Z) (json : list Database.Task)
    (tasks : list Database.Task) : list Database.Task :=
  if ok status then json else tasks.

(** [createTask]: [tasks.unshift(newTask)] *)
Definition createTask (status : Z) (newTask : Database.Task)
    (tasks : list Database.Task) : list Database.Task :=
  if ok status then newTask :: tasks else tasks.

(** [deleteTask]: [tasks = tasks.filter(task => task.id !== id)] *)
Definition deleteTask (id : Z) (status : Z)
    (tasks : list Database.Task) : list Database.Task :=
  if ok status
  then filter (fun task => negb (Database.ID task =? id)) tasks
  else tasks.

(** [tasks.findIndex(pred)], [None] for -1 *)
Fixpoint findIndex (pred : Database.Task -> bool) (tasks : list Database.Task)
    : option nat :=
  match tasks with
  | [] => None
  | task :: rest =>
      if pred task then Some O
      else option_map S (findIndex pred rest)
  end.

(** [tasks[i] = x] for an index in range *)
Fixpoint assign (i : nat) (x : Database.Task) (tasks : list Database.Task)
    : list Database.Task :=
  match tasks, i with
  | [], _ => []
  | _ :: rest, O => x :: rest
  | task :: rest, S i' => task :: assign i' x rest
  end.

(** [completeTask] *)
Definition completeTask (id : Z) (status : Z) (updatedTask : Database.Task)
    (tasks : list Database.Task) : list Database.Task :=
  if ok status then
    match findIndex (fun task => Database.ID task =? id) tasks with
    | Some taskIndex => assign taskIndex updatedTask tasks
    | None => tasks
    end
  else tasks.

End Frontend.

(* ===================================================================== *)
(** ** Concrete stores, worlds and codecs for the examples                 *)
(* ===================================================================== *)

Import Go Http.

Definition empty_conn : Database.conn := Database.mkConn [] 0 0 None [].

(** A store with one open and one completed task. *)
Definition two_tasks : Database.conn :=
  Database.mkConn
    [ Database.mkTask 1 "Buy milk" true 100; Database.mkTask 2 "Walk dog" false 160 ]
    2 200 None [].
Definition empty_world : World := mkWorld empty_conn [] [].
Definition two_tasks_world : World := mkWorld two_tasks [] [].

(** A stand-in for [encoding/json] at concrete inputs: the title is the whole
    body, and a task is printed as its title. *)
Definition title_of_body (r : Reader) : option string :=
  match ReadAll r with
  | ((b, None), _) => Some b
  | ((_, Some _), _) => None
  end.

(** Shutdown outcomes in which the trace and the metric pipelines fail and
    the log pipeline does not, and in which all three fail, at every call. *)
Definition two_fail (before : list Telemetry.Pipeline) (p : Telemetry.Pipeline)
    : option error :=
  match p with
  | Telemetry.TracerProvider => Some (Errorf "trace shutdown failed")
  | Telemetry.MeterProvider => Some (Errorf "metric shutdown failed")
  | Telemetry.LoggerProvider => None
  end.

Definition all_fail (before : list Telemetry.Pipeline) (p : Telemetry.Pipeline)
    : option error :=
  match p with
  | Telemetry.TracerProvider => Some (Errorf "trace shutdown failed")
  | Telemetry.MeterProvider => Some (Errorf "metric shutdown failed")
  | Telemetry.LoggerProvider => Some (Errorf "log shutdown failed")
  end.

Definition is_meter (p : Telemetry.Pipeline) : bool :=
  match p with
  | Telemetry.MeterProvider => true
  | _ => false
  end.

(** Providers that shut down without error, except that the meter provider
    refuses to be shut down a second time. *)
Definition meter_refuses_second (before : list Telemetry.Pipeline)
    (p : Telemetry.Pipeline) : option error :=
  if is_meter p && existsb is_meter before
  then Some (Errorf "reader is shutdown")
  else None.

Definition setup_ok : Telemetry.Setup := Telemetry.mkSetup None None None None.

(** A handler that sends back the request body it can read. *)
Definition echo : Handler := fun r st =>
  match Body r with
  | Some rbody => returns [CallWrite (fst (fst (ReadAll rbody)))] st
  | None => returns [] st
  end.

(** The server of [main] with the stand-in codec: the status, the body sent
    and the world a request leaves; [None] when the handler panicked or no
    instrumented route ran. *)
Definition exchange (method path body : string) (st : World)
    : option ((option Z * string) * World) :=
  match Server.serve Database.Title title_of_body path
          (mkRequest method path (Some [Data body])) st with
  | Some (Server.Routed ((resp, st'), false)) => Some ((status resp, sent resp), st')
  | _ => None
  end.

Definition then_exchange (method path body : string)
    (prev : option ((option Z * string) * World)) :=
  match prev with
  | Some (_, st) => exchange method path body st
  | None => None
  end.

(* ===================================================================== *)
(** ** Histories of the store                                              *)
(* ===================================================================== *)

(** The PRIMARY KEY AUTOINCREMENT discipline of [createTables]: no two rows
    share an identifier, and no identifier exceeds the sequence counter. *)
Definition well_keyed (c : Database.conn) : Prop :=
  NoDup (map Database.ID (Database.rows c)) /\
  Forall (fun t => Database.ID t <= Database.autoinc c) (Database.rows c).

(** One thing that happens to the store: a call of one of the four
    operations, time passing, or the driver starting or ceasing to fail. *)
Inductive Event : Type :=
| DoList
| DoCreate (title : string)
| DoDelete (id : Z)
| DoComplete (id : Z)
| Wait (seconds : Z)
| Break (fault : option string).

Definition happen (c : Database.conn) (ev : Event) : Database.conn :=
  match ev with
  | DoList => snd (Database.GetAllTasks c)
  | DoCreate title => snd (Database.CreateTask title c)
  | DoDelete id => snd (Database.DeleteTask id c)
  | DoComplete id => snd (Database.CompleteTask id c)
  | Wait seconds => Database.tick seconds c
  | Break f =>
      Database.mkConn (Database.rows c) (Database.autoinc c) (Database.clock c) f
        (Database.executed c)
  end.

Definition history (evs : list Event) (c : Database.conn) : Database.conn :=
  fold_left happen evs c.

(** What [GetAllTasks] lists on a store that works. *)
Definition listing (c : Database.conn) : list Database.Task :=
  elems (fst (fst (Database.GetAllTasks c))).

(* ===================================================================== *)
(** ** Statements with placeholders                                        *)
(* ===================================================================== *)

(** The text [? p1 ? p2 ...] that follows the first piece of a statement
    whose placeholders are separated by the pieces [p1], [p2], ... *)
Fixpoint placeholders (pieces : list string) : string :=
  match pieces with
  | [] => ""
  | p :: ps => "?" ++ p ++ placeholders ps
  end.

(** The same text with the values of [args] put in place of the
    placeholders, one after the other: arguments beyond the last placeholder
    are dropped, placeholders beyond the last argument stay. *)
Fixpoint filled (args : list Database.Value) (pieces : list string) : string :=
  match args, pieces with
  | _, [] => ""
  | [], _ => placeholders pieces
  | arg :: args', p :: ps => Database.render arg ++ p ++ filled args' ps
  end.

Definition no_question_mark (s : string) : Prop := Contains s "?" = false.

(* ===================================================================== *)
(** ** What a handler wrote, read off its calls                            *)
(* ===================================================================== *)

(** The bytes of the [Write] calls, in order. *)
Definition written_bytes (cs : list WriterCall) : string :=
  fold_left (fun buf c => match c with CallWrite b => buf ++ b | _ => buf end) cs "".

(** The code of the last [WriteHeader] call, [default] when there is none. *)
Definition last_WriteHeader (cs : list WriterCall) (default : Z) : Z :=
  fold_left (fun code c => match c with CallWriteHeader n => n | _ => code end)
            cs default.

(** The [http.response.body] event for a buffer and a status code. *)
Definition response_body_event (buffered : string) (code : Z) : SpanCall :=
  AddEvent "http.response.body"
    [("body", AString buffered); ("size", AInt (len buffered));
     ("status_code", AInt code)].

(** The [http.request.body] event for the bytes of a body. *)
Definition request_body_event (bodyBytes : string) : SpanCall :=
  AddEvent "http.request.body"
    [("body", AString bodyBytes); ("size", AInt (len bodyBytes))].

(** The attributes [recordRequestMetrics] builds. *)
Definition request_attrs (method endpoint : string) (code : Z) : list KeyValue :=
  [("method", AString method); ("endpoint", AString endpoint);
   ("status_code", AInt code)].

(** A run answered with [code] and recorded exactly one increment and one
    duration, both tagged with the method, the endpoint and that code. *)
Definition recorded_once (method endpoint : string) (st : World) (run : Run) : Prop :=
  exists code,
    status (respond run) = Some code /\
    metrics (world run) =
      (metrics st ++ [CounterAdd 1 (request_attrs method endpoint code);
                      HistogramRecord (request_attrs method endpoint code)])%list.

(** The three headers of [enableCORS], as the client receives them. *)
Definition has_CORS (resp : Response) : Prop :=
  In ("Access-Control-Allow-Origin", "*") (sent_header resp) /\
  In ("Access-Control-Allow-Methods", "GET, POST, DELETE, OPTIONS") (sent_header resp) /\
  In ("Access-Control-Allow-Headers", "Content-Type") (sent_header resp).

(** The shapes of the answers of the backend: a preflight answer, a refusal
    by [http.Error] (after [enableCORS] in a handler, without it in a
    router), a JSON document (with [WriteHeader(201)] on creation), and the
    empty 204. *)
Inductive Reply : Type :=
| Preflight
| Refusal (cors : bool) (msg : string) (code : Z)
| Document (created : bool) (text : string)
| NoContent.

Definition reply_calls (a : Reply) : list WriterCall :=
  match a with
  | Preflight => Server.enableCORS ++ [CallWriteHeader 200]
  | Refusal cors msg code =>
      (if cors then Server.enableCORS else []) ++ Http.Error msg code
  | Document created text =>
      Server.enableCORS ++
      CallHeaderSet "Content-Type" "application/json" ::
      (if created then [CallWriteHeader 201] else []) ++ [CallWrite text]
  | NoContent => Server.enableCORS ++ [CallWriteHeader 204]
  end%list.

Definition reply_status (a : Reply) : Z :=
  match a with
  | Preflight => 200
  | Refusal _ _ code => code
  | Document created _ => if created then 201 else 200
  | NoContent => 204
  end.

Definition reply_body (a : Reply) : string :=
  match a with
  | Refusal _ msg _ => msg ++ Server.newline
  | Document _ text => text
  | _ => ""
  end.

Definition reply_cors (a : Reply) : bool :=
  match a with
  | Refusal cors _ _ => cors
  | _ => true
  end.

Definition reply_ok (a : Reply) : Prop :=
  match a with
  | Refusal _ _ code => In code [400; 404; 405; 500]
  | _ => True
  end.

(** A run that wrote one of these answers, with the CORS headers. *)
Definition replies (run : Run) : Prop :=
  exists a, written run = reply_calls a /\ reply_cors a = true /\ reply_ok a.

(** The number of [RecordError] calls among the calls on a span. *)
Definition recorded_errors (calls_on_span : list SpanCall) : nat :=
  List.length (filter (fun c => match c with RecordError _ => true | _ => false end)
                      calls_on_span).

(* ===================================================================== *)
(** ** Concrete transports for the examples                                *)
(* ===================================================================== *)

(** A remote end that answers 200 with the method and the URL it was asked,
    one that cannot be reached, and a short [http.StatusText]. *)
Definition remote_up (req : Client.OutRequest) : Client.OutResponse + error :=
  inl (Client.mkOutResponse 200
         [Data (Client.out_method req); Data " "; Data (Client.out_url req)]).

Definition remote_down (req : Client.OutRequest) : Client.OutResponse + error :=
  inr (Errorf "dial tcp: connection refused").

Definition status_text (code : Z) : string :=
  if code =? 200 then "OK" else "".

Definition encode_params (params : list (string * string)) : string :=
  Server.join "&" (map (fun kv => fst kv ++ "=" ++ snd kv) params).

(* ===================================================================== *)
(** * Properties                                                           *)
(* ===================================================================== *)

(** ** Strings *)

Example Atoi_12 : Atoi "12" = Some 12.
Proof. reflexivity. Qed.

Example Atoi_complete : Atoi "1/complete" = None.
Proof. reflexivity. Qed.

Example Itoa_neg : Itoa (-40) = "-40".
Proof. reflexivity. Qed.

Example ReplaceFirst_once :
  ReplaceFirst "a = ? AND b = ?" "?" "1" = "a = 1 AND b = ?".
Proof. reflexivity. Qed.

Example TrimSuffix_complete : TrimSuffix "12/complete" "/complete" = "12".
Proof. reflexivity. Qed.

Lemma len_nonneg (s : string) : 0 <= len s.
Proof. unfold len. lia. Qed.

Lemma length_app (s t : string) :
  String.length (s ++ t) = (String.length s + String.length t)%nat.
Proof. induction s as [|c s IH]; cbn; [reflexivity | now rewrite IH]. Qed.

Lemma len_app (s t : string) : len (s ++ t) = len s + len t.
Proof. unfold len. rewrite length_app. lia. Qed.

Lemma slice_from_negative (s : string) (i : Z) : i < 0 -> slice_from s i = None.
Proof.
  intros Hi. unfold slice_from.
  destruct (Z.ltb_spec i 0) as [_ | Hge]; [reflexivity | lia].
Qed.

Lemma slice_from_tasks (suffix : string) :
  slice_from ("/tasks/" ++ suffix) (len "/tasks/") = Some suffix.
Proof.
  unfold slice_from.
  replace (len ("/tasks/" ++ suffix) <? len "/tasks/") with false.
  - reflexivity.
  - symmetry. apply Z.ltb_ge. rewrite len_app. pose proof (len_nonneg suffix). lia.
Qed.

(** ** The routers of main.go *)

Example cleanPath_canonical :
  map cleanPath ["/tasks"; "/tasks/"; "/tasks/12"; "/tasks/12/complete"; "/tasks/12/"; "/"]
  = ["/tasks"; "/tasks/"; "/tasks/12"; "/tasks/12/complete"; "/tasks/12/"; "/"].
Proof. reflexivity. Qed.

Example cleanPath_not_canonical :
  map cleanPath [""; "/tasks//a"; "/tasks/."; "/tasks/.."; "/tasks/../x/"; "//tasks";
                 "/tasks/a/../b"; "/../.."]
  = ["/"; "/tasks/a"; "/tasks"; "/"; "/x/"; "/tasks"; "/tasks/b"; "/"].
Proof. reflexivity. Qed.

Section Routes.
Variable encodeTask : Database.Task -> string.
Variable decodeTitle : Reader -> option string.

Let task_route := Server.task_route encodeTask.
Let serve := Server.serve encodeTask decodeTitle.

(** The route under ["/tasks/"] on a POST whose suffix is too short for
    [pathSuffix[len(pathSuffix)-9:]]. *)
Lemma task_route_short_suffix (suffix : string) (rbody : option Reader) (st : World) :
  0 < len suffix < 9 ->
  task_route (mkRequest "POST" ("/tasks/" ++ suffix) rbody) st = panics [] st.
Proof.
  intros [Hpos Hshort].
  unfold task_route, Server.task_route.
  cbn [Method Path].
  change (String.eqb "POST" "DELETE") with false.
  change (String.eqb "POST" "OPTIONS") with false.
  change (String.eqb "POST" "POST") with true.
  cbn [orb andb].
  replace (len "/tasks/" <? len ("/tasks/" ++ suffix)) with true
    by (symmetry; apply Z.ltb_lt; rewrite len_app; lia).
  rewrite slice_from_tasks.
  replace (0 <? len suffix) with true by (symmetry; apply Z.ltb_lt; lia).
  rewrite slice_from_negative by lia.
  reflexivity.
Qed.

(** The mux on a POST under ["/tasks/"]: a redirect when the path is not
    in canonical form, the route behind the middleware otherwise. *)
Lemma serve_POST_under_tasks (suffix : string) (rbody : option Reader) (st : World) :
  let path := "/tasks/" ++ suffix in
  let r := mkRequest "POST" path rbody in
  (cleanPath path = path ->
   serve path r st =
     Some (Server.Routed (Middleware.BodyTracingMiddleware task_route no_response r st))) /\
  (cleanPath path <> path ->
   serve path r st = Some (Server.MovedPermanently (cleanPath path))).
Proof.
  intros path r. subst r. unfold serve, Server.serve, response_to.
  cbn [Path Method].
  rewrite String.eqb_refl. cbn [negb orb].
  replace (String.prefix "/" path) with true by (subst path; cbn; now destruct suffix).
  change (String.eqb "POST" "CONNECT") with false.
  change (String.eqb "POST" "HEAD") with false. cbn [negb orb andb].
  split.
  - intros Hclean. rewrite Hclean, String.eqb_refl. cbn [negb].
    replace (String.eqb path "/tasks") with false
      by (subst path; cbn; destruct suffix; reflexivity).
    replace (String.prefix "/tasks/" path) with true
      by (subst path; cbn; now destruct suffix).
    reflexivity.
  - intros Hmoved. apply String.eqb_neq in Hmoved. now rewrite Hmoved.
Qed.

Lemma capture_request_POST (path : string) (rbody : option Reader) (st : World) :
  exists b st1,
    Middleware.capture_request (mkRequest "POST" path rbody) st =
      (mkRequest "POST" path b, st1).
Proof.
  unfold Middleware.capture_request. cbn [Body Method].
  destruct rbody as [rb|]; [|now eexists; eexists].
  change (negb (String.eqb "POST" "GET") && negb (String.eqb "POST" "DELETE"))
    with true. cbn iota.
  destruct (ReadAll rb) as [[bs err] rest].
  destruct err; eexists; eexists; reflexivity.
Qed.

(** C6: for a POST to [/tasks/<suffix>] with a non-empty suffix of fewer
    than 9 bytes, the slice expression [pathSuffix[len(pathSuffix)-9:]] is
    out of bounds, and the route panics before it writes anything. When the
    path is in canonical form the mux hands the request to the route, and
    the served request ends in that panic with no status line and no byte
    sent; when it is not (the suffix has an empty element, [.] or [..]) the
    mux answers 301 and the route does not run. In neither case is 400, 404
    or 405 produced. *)
Theorem C6_short_complete_suffix_panics
    (suffix : string) (rbody : option Reader) (st : World) :
  0 < len suffix < 9 ->
  let path := "/tasks/" ++ suffix in
  let r := mkRequest "POST" path rbody in
  slice_from suffix (len suffix - 9) = None /\
  panicked (task_route r st) = true /\
  written (task_route r st) = [] /\
  (cleanPath path = path ->
   exists st', serve path r st = Some (Server.Routed ((no_response, st'), true))) /\
  (cleanPath path <> path ->
   serve path r st = Some (Server.MovedPermanently (cleanPath path))).
Proof.
  intros Hlen path r. subst r.
  split; [apply slice_from_negative; lia|].
  subst path. rewrite (task_route_short_suffix suffix rbody st Hlen).
  split; [reflexivity|]. split; [reflexivity|].
  destruct (serve_POST_under_tasks suffix rbody st) as [Hrouted Hmoved].
  split; [|exact Hmoved].
  intros Hclean. rewrite (Hrouted Hclean).
  unfold Middleware.BodyTracingMiddleware.
  destruct (capture_request_POST ("/tasks/" ++ suffix) rbody st) as (b & st1 & ->).
  fold task_route.
  rewrite (task_route_short_suffix suffix b st1 Hlen).
  cbn. eexists. reflexivity.
Qed.

End Routes.

Lemma C6_witness :
  0 < len "12" < 9 /\
  panicked (Server.task_route Database.Title
              (mkRequest "POST" "/tasks/12" (Some [])) empty_world) = true /\
  cleanPath "/tasks/12" = "/tasks/12" /\
  exists st',
    Server.serve Database.Title title_of_body "/tasks/12"
      (mkRequest "POST" "/tasks/12" (Some [])) empty_world =
    Some (Server.Routed ((no_response, st'), true)).
Proof.
  assert (H : 0 < len "12" < 9) by (vm_compute; split; reflexivity).
  assert (Hclean : cleanPath "/tasks/12" = "/tasks/12") by reflexivity.
  split; [exact H|].
  destruct (C6_short_complete_suffix_panics Database.Title title_of_body
              "12" (Some []) empty_world H) as (_ & Hpanic & _ & Hserved & _).
  split; [exact Hpanic|]. split; [exact Hclean|]. exact (Hserved Hclean).
Defined.

(** ** telemetry.go: the shutdown closure *)

Section Shutdown.
Import Telemetry.

Lemma InitTelemetry_ok (env : Setup) (fns : list ShutdownFunc) :
  InitTelemetry env = (fns, None) ->
  fns = [Shutdown TracerProvider; Shutdown MeterProvider; Shutdown LoggerProvider].
Proof.
  unfold InitTelemetry.
  destruct (resource_err env); [discriminate|].
  destruct (trace_exporter_err env); [discriminate|].
  destruct (metric_exporter_err env); [discriminate|].
  destruct (log_exporter_err env); [discriminate|].
  now inversion 1.
Qed.

(** After a successful initialization the closure calls the three
    [Shutdown] methods in the order trace, metric, log, and returns what
    the last of them returned. *)
Lemma shutdown_after_init (env : Setup) (fns : list ShutdownFunc) (st : Providers) :
  InitTelemetry env = (fns, None) ->
  shutdown fns st =
    (outcome st (shut st ++ [TracerProvider; MeterProvider]) LoggerProvider,
     mkProviders (outcome st)
       (shut st ++ [TracerProvider; MeterProvider; LoggerProvider])).
Proof.
  intros Hinit. rewrite (InitTelemetry_ok env fns Hinit).
  unfold shutdown. cbn. rewrite <- !app_assoc. reflexivity.
Qed.

(** C4, on the code: with the trace and the metric shutdown failing and the
    log shutdown succeeding, all three pipelines are shut down in sequence
    and the closure returns no error at all, not the first one; with all
    three failing it returns the error of the log pipeline, the last. *)
Theorem C4_shutdown_keeps_last_result_only :
  let fns := fst (InitTelemetry setup_ok) in
  shutdown fns (mkProviders two_fail []) =
    (None, mkProviders two_fail [TracerProvider; MeterProvider; LoggerProvider]) /\
  shutdown fns (mkProviders all_fail []) =
    (Some (Errorf "log shutdown failed"),
     mkProviders all_fail [TracerProvider; MeterProvider; LoggerProvider]).
Proof. split; reflexivity. Qed.

End Shutdown.

(** ** database.go: the diagnostic formatter *)

Section Formatter.
Import Database.

Example format_insert :
  formatQueryWithArgs "INSERT INTO tasks (title) VALUES (?)" [VString "Buy milk"]
  = "INSERT INTO tasks (title) VALUES ('Buy milk')".
Proof. reflexivity. Qed.

Example format_two :
  formatQueryWithArgs "a = ? AND b = ? AND c = ?" [VInt 7; VBool true; VNil]
  = "a = 7 AND b = TRUE AND c = NULL".
Proof. reflexivity. Qed.

Example format_postgres :
  formatQueryWithArgs "a = $1 AND b = $2" [VInt 7; VBool false]
  = "a = 7 AND b = FALSE".
Proof. reflexivity. Qed.

Lemma format_loop_question (query : string) (args : list Value) :
  Contains query "$" = false ->
  forall (i : nat) (formatted : string),
    format_loop query i args formatted = fold_left (fun f arg => ReplaceFirst f "?" (render arg)) args formatted.
Proof.
  intros Hq. induction args as [|arg rest IH]; intros i formatted.
  - reflexivity.
  - cbn [format_loop fold_left]. rewrite IH.
    unfold placeholder. rewrite Hq. reflexivity.
Qed.

Lemma format_loop_dollar (query : string) (args : list Value) :
  Contains query "$" = true ->
  forall (i : nat) (formatted : string),
    format_loop query i args formatted =
    fold_left (fun f '(k, arg) =>
                 ReplaceFirst f ("$" ++ Itoa (Z.of_nat k + 1)) (render arg))
              (combine (seq i (List.length args)) args) formatted.
Proof.
  intros Hq. induction args as [|arg rest IH]; intros i formatted.
  - reflexivity.
  - cbn [format_loop List.length seq combine fold_left]. rewrite IH.
    unfold placeholder. rewrite Hq. reflexivity.
Qed.

(** C10, against the claim as stated: on a statement that contains a ["$"]
    the formatter looks for ["$1"] and leaves the ["?"] alone. *)
Lemma C10_dollar_counterexample :
  formatQueryWithArgs "SELECT '$' FROM tasks WHERE id = ?" [VInt 1]
    = "SELECT '$' FROM tasks WHERE id = ?" /\
  formatQueryWithArgs "SELECT '$' FROM tasks WHERE id = ?" [VInt 1]
    <> ReplaceFirst "SELECT '$' FROM tasks WHERE id = ?" "?" (render (VInt 1)).
Proof. split; [reflexivity | discriminate]. Qed.

(** C10, amended: on a statement without ["$"] the formatter substitutes
    the arguments in positional order, each for the first ["?"] of the text
    formatted so far; on a statement with a ["$"] the argument of index [i]
    is substituted for the first ["$i+1"] instead. A string is quoted, a
    boolean is [TRUE] or [FALSE], nil is [NULL]. The result is a function of
    the statement and its arguments, and sending a statement stores the
    text and the arguments unformatted and leaves the table, the sequence,
    the clock and the fault as they were. *)
Theorem C10_formatQueryWithArgs (query : string) (args : list Value) :
  (Contains query "$" = false ->
     formatQueryWithArgs query args = fold_left (fun f arg => ReplaceFirst f "?" (render arg)) args query) /\
  (Contains query "$" = true ->
     formatQueryWithArgs query args =
     fold_left (fun f '(k, arg) =>
                  ReplaceFirst f ("$" ++ Itoa (Z.of_nat k + 1)) (render arg))
               (combine (seq 0 (List.length args)) args) query) /\
  (forall s, render (VString s) = "'" ++ s ++ "'") /\
  render (VBool true) = "TRUE" /\ render (VBool false) = "FALSE" /\
  render VNil = "NULL" /\
  (forall c,
     let c' := send query args c in
     rows c' = rows c /\ autoinc c' = autoinc c /\
     clock c' = clock c /\ fault c' = fault c /\
     executed c' = (executed c ++ [mkStmt query args (formatQueryWithArgs query args)])%list).
Proof.
  split; [|split].
  - intros Hq. destruct args as [|arg rest]; [reflexivity|].
    unfold formatQueryWithArgs. now apply format_loop_question.
  - intros Hq. destruct args as [|arg rest]; [reflexivity|].
    unfold formatQueryWithArgs. now apply format_loop_dollar.
  - repeat split; reflexivity.
Qed.

End Formatter.

Lemma C10_witness :
  Contains Database.delete_query "$" = false /\
  Database.formatQueryWithArgs Database.delete_query [Database.VInt 12]
    = "DELETE FROM tasks WHERE id = 12".
Proof.
  split; [reflexivity|].
  rewrite (proj1 (C10_formatQueryWithArgs Database.delete_query [Database.VInt 12]))
    by reflexivity.
  reflexivity.
Defined.

(** ** database.go: the four statements *)

Section Store.
Import Database.

Lemma elems_fold_append {A} (l : list A) (s : slice A) :
  elems (fold_left append l s) = (elems s ++ l)%list.
Proof.
  revert s. induction l as [|x l IH]; intros s; cbn [fold_left].
  - now rewrite app_nil_r.
  - rewrite IH. unfold append. cbn [elems]. now rewrite <- app_assoc.
Qed.

Lemma fold_append_Slice {A} (l p : list A) :
  fold_left append l (Slice p) = Slice (p ++ l).
Proof.
  revert p. induction l as [|x l IH]; intros p; cbn [fold_left].
  - now rewrite app_nil_r.
  - change (append (Slice p) x) with (Slice (p ++ [x])).
    rewrite IH. now rewrite <- app_assoc.
Qed.

(** The guard [if tasks == nil { tasks = []Task{} }] of the handler, on
    what the loop of [GetAllTasks] built. *)
Lemma nil_to_empty {A} (l : list A) :
  (if is_nil (fold_left append l Nil) then Slice [] else fold_left append l Nil)
  = Slice l.
Proof.
  destruct l as [|x l]; [reflexivity|].
  cbn [fold_left]. change (append Nil x) with (Slice [x]).
  now rewrite fold_append_Slice.
Qed.

Lemma insert_desc_perm (t : Task) (l : list Task) :
  Permutation (t :: l) (insert_desc t l).
Proof.
  induction l as [|u l IH]; cbn [insert_desc]; [reflexivity|].
  destruct (CreatedAt u <=? CreatedAt t); [reflexivity|].
  rewrite perm_swap. now apply perm_skip.
Qed.

Lemma order_by_perm (l : list Task) :
  Permutation (order_by_created_at_desc l) l.
Proof.
  induction l as [|t l IH]; cbn [order_by_created_at_desc]; [reflexivity|].
  rewrite <- insert_desc_perm. now apply perm_skip.
Qed.

Lemma insert_desc_sorted (t : Task) (l : list Task) :
  StronglySorted not_newer l -> StronglySorted not_newer (insert_desc t l).
Proof.
  induction l as [|u l IH]; intros Hs; cbn [insert_desc].
  - repeat constructor.
  - inversion Hs as [|? ? Hl Hu]; subst.
    destruct (Z.leb_spec (CreatedAt u) (CreatedAt t)) as [Hle | Hlt].
    + constructor; [exact Hs|].
      constructor; [exact Hle|].
      eapply Forall_impl; [|exact Hu].
      unfold not_newer. intros x Hx. lia.
    + constructor; [now apply IH|].
      rewrite <- insert_desc_perm.
      constructor; [unfold not_newer; lia | exact Hu].
Qed.

Lemma order_by_sorted (l : list Task) :
  StronglySorted not_newer (order_by_created_at_desc l).
Proof.
  induction l as [|t l IH]; cbn [order_by_created_at_desc].
  - constructor.
  - now apply insert_desc_sorted.
Qed.

Lemma filter_perm {A} (f : A -> bool) (l l' : list A) :
  Permutation l l' -> Permutation (filter f l) (filter f l').
Proof.
  induction 1 as [|x l l' _ IH|x y l|l l' l'' _ IH1 _ IH2]; cbn [filter].
  - reflexivity.
  - destruct (f x); [now apply perm_skip | exact IH].
  - destruct (f x), (f y); try reflexivity. apply perm_swap.
  - now rewrite IH1.
Qed.

Lemma max_id_bound (l : list Task) (t : Task) : In t l -> ID t <= max_id l.
Proof.
  induction l as [|u l IH]; intros Hin; [contradiction|].
  cbn [max_id fold_right]. fold (max_id l).
  destruct Hin as [-> | Hin]; [lia|].
  specialize (IH Hin). lia.
Qed.

Lemma max_id_nonneg (l : list Task) : 0 <= max_id l.
Proof.
  induction l as [|u l IH]; cbn [max_id fold_right]; [lia|].
  fold (max_id l). lia.
Qed.

Lemma next_id_fresh (c : conn) (t : Task) : In t (rows c) -> ID t < next_id c.
Proof. intros Hin. apply max_id_bound in Hin. unfold next_id. lia. Qed.

Lemma next_id_positive (c : conn) : 0 < next_id c.
Proof. unfold next_id. pose proof (max_id_nonneg (rows c)). lia. Qed.

Lemma filter_none {A} (f : A -> bool) (l : list A) :
  (forall x, In x l -> f x = false) -> filter f l = [].
Proof.
  induction l as [|x l IH]; intros Hf; [reflexivity|].
  cbn [filter]. rewrite (Hf x (or_introl eq_refl)).
  apply IH. intros y Hy. apply Hf. now right.
Qed.

Lemma filter_all {A} (f : A -> bool) (l : list A) :
  (forall x, In x l -> f x = true) -> filter f l = l.
Proof.
  induction l as [|x l IH]; intros Hf; [reflexivity|].
  cbn [filter]. rewrite (Hf x (or_introl eq_refl)).
  f_equal. apply IH. intros y Hy. apply Hf. now right.
Qed.

Lemma has_id_true (id : Z) (t : Task) : has_id id t = true <-> ID t = id.
Proof. unfold has_id. apply Z.eqb_eq. Qed.

Lemma has_id_false (id : Z) (t : Task) : has_id id t = false <-> ID t <> id.
Proof. unfold has_id. apply Z.eqb_neq. Qed.

Lemma GetAllTasks_ok (c : conn) :
  fault c = None ->
  GetAllTasks c =
    ((fold_left append (order_by_created_at_desc (rows c)) Nil, None),
     send select_query [] c).
Proof. intros Hf. unfold GetAllTasks. now rewrite Hf. Qed.

Lemma CreateTask_ok (title : string) (c : conn) :
  title <> "errorTest" -> fault c = None -> next_id c <= MaxInt ->
  CreateTask title c =
    (inl (mkTask (next_id c) title false (clock c)),
     set_autoinc
       (set_rows (send insert_query [VString title] c)
                 (rows c ++ [mkTask (next_id c) title false (clock c)]))
       (next_id c)).
Proof.
  intros Ht Hf Hroom. unfold CreateTask.
  destruct (String.eqb_spec title "errorTest") as [-> | _]; [congruence|].
  rewrite Hf. now rewrite (proj2 (Z.ltb_ge MaxInt (next_id c)) Hroom).
Qed.

Lemma CreateTask_full (title : string) (c : conn) :
  title <> "errorTest" -> fault c = None -> MaxInt < next_id c ->
  CreateTask title c = (inr full_error, send insert_query [VString title] c).
Proof.
  intros Ht Hf Hfull. unfold CreateTask.
  destruct (String.eqb_spec title "errorTest") as [-> | _]; [congruence|].
  rewrite Hf. now rewrite (proj2 (Z.ltb_lt MaxInt (next_id c)) Hfull).
Qed.

Lemma append_assoc (a b d : string) : ((a ++ b) ++ d)%string = (a ++ b ++ d)%string.
Proof. induction a as [|x a IH]; cbn; [reflexivity | now rewrite IH]. Qed.

Lemma format_insert_title (title : string) :
  formatQueryWithArgs insert_query [VString title] =
  "INSERT INTO tasks (title) VALUES ('" ++ title ++
  "') RETURNING id, title, completed, created_at".
Proof. cbn. now rewrite append_assoc. Qed.

(** C5, against the claim as stated: the non-empty title ["errorTest"] is
    refused by [CreateTask] with its simulated error, and nothing is
    inserted. *)
Lemma C5_errorTest_counterexample :
  "errorTest" <> "" /\
  CreateTask "errorTest" empty_conn = (inr simulated_error, empty_conn).
Proof. split; [discriminate | reflexivity]. Qed.

(** Creating on a store that works, then listing. *)
Lemma create_then_list (title : string) (c : conn) :
  title <> "errorTest" -> fault c = None -> next_id c <= MaxInt ->
  exists task c',
    CreateTask title c = (inl task, c') /\
    Title task = title /\ Completed task = false /\
    0 < ID task <= MaxInt /\ (forall t, In t (rows c) -> ID t <> ID task) /\
    CreatedAt task = clock c /\
    executed c' =
      (executed c ++
       [mkStmt insert_query [VString title]
          ("INSERT INTO tasks (title) VALUES ('" ++ title ++
           "') RETURNING id, title, completed, created_at")])%list /\
    exists tasks c'',
      GetAllTasks c' = ((tasks, None), c'') /\
      count_occ Task_eq_dec (elems tasks) task = 1%nat /\
      filter (has_id (ID task)) (elems tasks) = [task].
Proof.
  intros Hne Hf Hroom.
  set (task := mkTask (next_id c) title false (clock c)).
  assert (Hfresh : forall t, In t (rows c) -> ID t <> ID task).
  { intros t Hin. apply next_id_fresh in Hin. cbn [ID task]. lia. }
  exists task. eexists. split; [now apply CreateTask_ok|].
  split; [reflexivity|]. split; [reflexivity|].
  split; [split; [apply next_id_positive | exact Hroom]|]. split; [exact Hfresh|].
  split; [reflexivity|].
  split.
  { cbn [set_autoinc set_rows send executed]. now rewrite format_insert_title. }
  do 2 eexists. split; [apply GetAllTasks_ok; exact Hf|].
  rewrite elems_fold_append. cbn [elems app set_autoinc set_rows rows].
  fold task.
  split.
  - rewrite (proj1 (Permutation_count_occ Task_eq_dec _ _)
               (order_by_perm (rows c ++ [task])) task).
    rewrite count_occ_app. cbn [count_occ].
    destruct (Task_eq_dec task task) as [_ | Hn]; [|congruence].
    replace (count_occ Task_eq_dec (rows c) task) with 0%nat; [reflexivity|].
    symmetry. apply count_occ_not_In. intros Hin.
    now apply (Hfresh task Hin).
  - apply Permutation_length_1_inv. symmetry.
    rewrite (filter_perm (has_id (ID task)) _ _ (order_by_perm (rows c ++ [task]))).
    rewrite filter_app. rewrite filter_none.
    + cbn [filter app]. replace (has_id (ID task) task) with true; [reflexivity|].
      symmetry. now apply has_id_true.
    + intros t Hin. apply has_id_false. now apply Hfresh.
Qed.

Example create_on_a_full_table :
  let c := mkConn [mkTask MaxInt "last" false 0] MaxInt 10 None [] in
  fst (CreateTask "one more" c) = inr full_error /\
  rows (snd (CreateTask "one more" c)) = rows c.
Proof. split; reflexivity. Qed.

Example create_twice_then_list :
  let c1 := snd (CreateTask "Buy milk" empty_conn) in
  let c2 := snd (CreateTask "Walk dog" (tick 60 c1)) in
  fst (GetAllTasks c2) =
    (Slice [mkTask 2 "Walk dog" false 60; mkTask 1 "Buy milk" false 0], None).
Proof. reflexivity. Qed.

Example delete_then_create_takes_new_id :
  let c1 := snd (CreateTask "Buy milk" empty_conn) in
  let c2 := snd (DeleteTask 1 c1) in
  fst (CreateTask "Walk dog" c2) = inl (mkTask 2 "Walk dog" false 0).
Proof. reflexivity. Qed.

(** Each operation sends its one statement with the placeholder in the text
    and the value beside it, whatever the formatter makes of them. *)
Lemma operations_send_their_statement (id : Z) (title : string) (c : conn) :
  executed (snd (GetAllTasks c)) =
    (executed c ++ [mkStmt select_query [] select_query])%list /\
  executed (snd (DeleteTask id c)) =
    (executed c ++ [mkStmt delete_query [VInt id]
                     (formatQueryWithArgs delete_query [VInt id])])%list /\
  executed (snd (CompleteTask id c)) =
    (executed c ++ [mkStmt update_query [VInt id]
                     (formatQueryWithArgs update_query [VInt id])])%list /\
  (title <> "errorTest" ->
   executed (snd (CreateTask title c)) =
     (executed c ++ [mkStmt insert_query [VString title]
                      (formatQueryWithArgs insert_query [VString title])])%list).
Proof.
  unfold GetAllTasks, DeleteTask, CompleteTask, CreateTask.
  repeat split.
  - now destruct (fault c).
  - destruct (fault c); [reflexivity|]. now destruct (_ =? 0).
  - destruct (fault c); [reflexivity|]. now destruct (filter _ _).
  - intros Hne. destruct (String.eqb_spec title "errorTest"); [congruence|].
    destruct (fault c); [reflexivity|]. now destruct (MaxInt <? next_id c).
Qed.

(** *** DELETE *)

Lemma DeleteTask_missing (id : Z) (c : conn) :
  fault c = None ->
  (forall t, In t (rows c) -> ID t <> id) ->
  DeleteTask id c = (Some ErrNoRows, send delete_query [VInt id] c).
Proof.
  intros Hf Hno. unfold DeleteTask. rewrite Hf.
  rewrite filter_none by (intros t Hin; apply has_id_false; auto).
  cbn [List.length Z.of_nat Z.eqb].
  rewrite filter_all.
  - now destruct c.
  - intros t Hin. apply negb_true_iff, has_id_false; auto.
Qed.

Lemma DeleteTask_present (id : Z) (c : conn) :
  fault c = None ->
  (exists t, In t (rows c) /\ ID t = id) ->
  DeleteTask id c =
    (None, set_rows (send delete_query [VInt id] c)
             (filter (fun t => negb (has_id id t)) (rows c))).
Proof.
  intros Hf (t & Hin & Hid). unfold DeleteTask. rewrite Hf.
  destruct (filter (has_id id) (rows c)) as [|u l] eqn:Hfil.
  - exfalso.
    assert (Hin' : In t (filter (has_id id) (rows c))).
    { apply filter_In. split; [exact Hin | now apply has_id_true]. }
    rewrite Hfil in Hin'. contradiction.
  - replace (Z.of_nat (List.length (u :: l)) =? 0) with false; [reflexivity|].
    symmetry. apply Z.eqb_neq. cbn [List.length]. lia.
Qed.

Lemma deleted_is_gone (id : Z) (l : list Task) (t : Task) :
  In t (filter (fun t => negb (has_id id t)) l) -> ID t <> id.
Proof.
  intros Hin. apply filter_In in Hin. destruct Hin as [_ Hn].
  now apply has_id_false, negb_true_iff.
Qed.

(** *** UPDATE *)

Lemma complete_done (id : Z) (t : Task) :
  Completed t = true -> complete id t = t.
Proof.
  intros Hc. unfold complete. destruct (has_id id t); [|reflexivity].
  destruct t as [i ti co cr]. cbn in *. now subst.
Qed.

Lemma complete_has_id (id : Z) (t : Task) :
  has_id id (complete id t) = has_id id t.
Proof.
  unfold complete. destruct (has_id id t) eqn:Hid; [|exact Hid].
  exact Hid.
Qed.

Lemma complete_idem (id : Z) (t : Task) :
  complete id (complete id t) = complete id t.
Proof.
  unfold complete at 1. rewrite complete_has_id.
  destruct (has_id id t) eqn:Hid; [|reflexivity].
  unfold complete. now rewrite Hid.
Qed.

Lemma complete_flag (id : Z) (t : Task) :
  has_id id t = true -> Completed (complete id t) = true.
Proof. intros Hid. unfold complete. now rewrite Hid. Qed.

Lemma filter_head_find {A} (f : A -> bool) (l : list A) :
  find f l = hd_error (filter f l).
Proof.
  induction l as [|x l IH]; [reflexivity|].
  cbn [find filter]. destruct (f x); [reflexivity | exact IH].
Qed.

Lemma map_complete_done (id : Z) (l : list Task) :
  (forall u, In u l -> ID u = id -> Completed u = true) ->
  map (complete id) l = l.
Proof.
  induction l as [|x l IH]; intros Hdone; [reflexivity|].
  cbn [map]. rewrite IH by (intros u Hu; apply Hdone; now right).
  f_equal. destruct (has_id id x) eqn:Hid.
  - apply complete_done. apply Hdone; [now left | now apply has_id_true].
  - unfold complete. now rewrite Hid.
Qed.

Lemma map_complete_done_or_absent (id : Z) (l : list Task) :
  (forall u, In u l -> ID u = id -> False) -> map (complete id) l = l.
Proof.
  intros Hno. apply map_complete_done. intros u Hu Hid. destruct (Hno u Hu Hid).
Qed.

Lemma map_complete_idem (id : Z) (l : list Task) :
  map (complete id) (map (complete id) l) = map (complete id) l.
Proof.
  rewrite map_map. apply map_ext. intros t. apply complete_idem.
Qed.

Lemma CompleteTask_missing (id : Z) (c : conn) :
  fault c = None ->
  (forall t, In t (rows c) -> ID t <> id) ->
  CompleteTask id c = (inr ErrNoRows, send update_query [VInt id] c).
Proof.
  intros Hf Hno. unfold CompleteTask. rewrite Hf.
  assert (Hmap : map (complete id) (rows c) = rows c).
  { apply map_complete_done. intros u Hu Hid. now destruct (Hno u Hu). }
  rewrite Hmap.
  rewrite filter_none by (intros t Hin; apply has_id_false; auto).
  now destruct c.
Qed.

(** What [CompleteTask] returns is read back from the table it leaves. *)
Lemma CompleteTask_result (id : Z) (c c' : conn) (task : Task) :
  CompleteTask id c = (inl task, c') ->
  fault c = None /\
  rows c' = map (complete id) (rows c) /\
  find (has_id id) (rows c') = Some task /\
  ID task = id /\ Completed task = true.
Proof.
  unfold CompleteTask. destruct (fault c) eqn:Hf; [discriminate|].
  destruct (filter (has_id id) (map (complete id) (rows c))) as [|u l] eqn:Hfil;
    [discriminate|].
  intros Heq. inversion Heq; subst. clear Heq.
  split; [reflexivity|]. split; [reflexivity|].
  cbn [set_rows rows]. rewrite filter_head_find, Hfil.
  split; [reflexivity|].
  assert (Hin : In task (filter (has_id id) (map (complete id) (rows c))))
    by (rewrite Hfil; now left).
  apply filter_In in Hin. destruct Hin as [Hin Hid].
  split; [now apply has_id_true|].
  apply in_map_iff in Hin. destruct Hin as (t0 & <- & _).
  rewrite complete_has_id in Hid. now apply complete_flag.
Qed.

(** C8: completing an identifier that matches no row yields
    [sql.ErrNoRows], the not-found condition. Completing a task that is
    already completed returns it with no error, the flag true, and leaves
    the table as it was. In general whatever a successful completion
    returns is the stored record, with the flag true, and completing again
    returns the same record and leaves the same table. *)
Theorem C8_complete_idempotent (id : Z) (c : conn) :
  fault c = None ->
  ((forall t, In t (rows c) -> ID t <> id) ->
     fst (CompleteTask id c) = inr ErrNoRows) /\
  (forall task,
     find (has_id id) (rows c) = Some task ->
     (forall u, In u (rows c) -> ID u = id -> Completed u = true) ->
     fst (CompleteTask id c) = inl task /\
     Completed task = true /\
     rows (snd (CompleteTask id c)) = rows c /\
     find (has_id id) (rows (snd (CompleteTask id c))) = Some task) /\
  (forall task c',
     CompleteTask id c = (inl task, c') ->
     Completed task = true /\
     find (has_id id) (rows c') = Some task /\
     fst (CompleteTask id c') = inl task /\
     rows (snd (CompleteTask id c')) = rows c').
Proof.
  intros Hf. split; [|split].
  - intros Hno. now rewrite CompleteTask_missing.
  - intros task Hfind Hdone.
    assert (Hmap : map (complete id) (rows c) = rows c)
      by now apply map_complete_done.
    assert (Hrun : CompleteTask id c =
                     (inl task, set_rows (send update_query [VInt id] c) (rows c))).
    { unfold CompleteTask. rewrite Hf, Hmap.
      rewrite filter_head_find in Hfind.
      destruct (filter (has_id id) (rows c)) as [|u l]; [discriminate|].
      cbn in Hfind. now inversion Hfind. }
    rewrite Hrun. cbn [fst snd set_rows rows].
    split; [reflexivity|]. split; [|split; [reflexivity | exact Hfind]].
    apply find_some in Hfind. destruct Hfind as [Hin Hid].
    apply (Hdone task Hin). now apply has_id_true.
  - intros task c' Hrun.
    destruct (CompleteTask_result id c c' task Hrun)
      as (_ & Hrows & Hfind & Hid & Hflag).
    split; [exact Hflag|]. split; [exact Hfind|].
    assert (Hf' : fault c' = None).
    { unfold CompleteTask in Hrun. rewrite Hf in Hrun.
      destruct (filter (has_id id) (map (complete id) (rows c)));
        inversion Hrun; subst; exact Hf. }
    assert (Hmap : map (complete id) (rows c') = rows c')
      by (rewrite Hrows; apply map_complete_idem).
    unfold CompleteTask. rewrite Hf', Hmap.
    rewrite filter_head_find in Hfind.
    destruct (filter (has_id id) (rows c')) as [|u l]; [discriminate|].
    cbn in Hfind. inversion Hfind; subst. split; reflexivity.
Qed.

End Store.

Lemma C8_witness :
  Database.fault two_tasks = None /\
  Database.CompleteTask 7 two_tasks
    = (inr ErrNoRows,
       Database.send Database.update_query [Database.VInt 7] two_tasks) /\
  fst (Database.CompleteTask 1 two_tasks) = inl (Database.mkTask 1 "Buy milk" true 100) /\
  Database.rows (snd (Database.CompleteTask 1 two_tasks)) = Database.rows two_tasks.
Proof.
  assert (Hf : Database.fault two_tasks = None) by reflexivity.
  split; [exact Hf|].
  destruct (C8_complete_idempotent 1 two_tasks Hf) as (_ & Hdone & _).
  split; [reflexivity|].
  destruct (Hdone (Database.mkTask 1 "Buy milk" true 100) eq_refl) as (H1 & _ & H2 & _).
  - intros u [<- | [<- | []]]; [reflexivity | discriminate].
  - split; assumption.
Defined.

(** ** handlers.go *)

Section HandlerProperties.
Import Database.
Variable encodeTask : Task -> string.
Variable decodeTitle : Reader -> option string.

Let GetTasks := Server.GetTasks encodeTask.
Let CreateTask := Server.CreateTask encodeTask decodeTitle.

Lemma respond_Error (msg : string) (code : Z) (st : World) :
  status_and_body (returns (Server.enableCORS ++ Http.Error msg code) st)
  = (Some code, if bodyAllowedForStatus code then msg ++ Server.newline else "").
Proof.
  unfold status_and_body, respond. cbn.
  unfold response_Write, response_WriteHeader. cbn.
  destruct (bodyAllowedForStatus code); reflexivity.
Qed.

Lemma respond_JSON (code : Z) (text : string) (st : World) :
  bodyAllowedForStatus code = true ->
  status_and_body
    (returns (Server.enableCORS ++
              [ CallHeaderSet "Content-Type" "application/json";
                CallWriteHeader code; CallWrite text ]) st)
  = (Some code, text).
Proof.
  intros Hb. unfold status_and_body, respond. cbn.
  unfold response_Write, response_WriteHeader. cbn. now rewrite Hb.
Qed.

(** *** GET /tasks *)

Lemma GetTasks_ok (rbody : option Reader) (st : World) :
  fault (db st) = None ->
  GetTasks (mkRequest "GET" "/tasks" rbody) st =
    returns
      (Server.enableCORS ++
       [ CallHeaderSet "Content-Type" "application/json";
         CallWrite (Server.encodeTasks encodeTask
                      (Slice (order_by_created_at_desc (rows (db st))))) ])
      (Server.recordRequestMetrics "GET" "/tasks" 200
         (set_db
            (on_span (SetAttributes [("operation", AString "get_all_tasks")])
               (measure [CounterAdd 1 [ ("method", AString "GET");
                                        ("endpoint", AString "/tasks") ]] st))
            (send select_query [] (db st)))).
Proof.
  intros Hf. unfold GetTasks, Server.GetTasks. cbn [Method].
  change (String.eqb "GET" "OPTIONS") with false.
  change (String.eqb "GET" "GET") with true. cbn [negb].
  cbn [db on_span measure]. rewrite (GetAllTasks_ok (db st) Hf).
  now rewrite nil_to_empty.
Qed.

(** C9, against the claim as stated: with no rows, what [GetAllTasks]
    returns is the nil slice, which [encoding/json] prints as [null]. *)
Lemma C9_nil_counterexample :
  rows empty_conn = [] /\
  fst (GetAllTasks empty_conn) = (Nil, None) /\
  is_nil (fst (fst (GetAllTasks empty_conn))) = true /\
  Server.encodeTasks Title (fst (fst (GetAllTasks empty_conn))) = "null" ++ Server.newline.
Proof. repeat split; reflexivity. Qed.

(** C9, amended: on a store whose driver does not fail, [GetAllTasks]
    returns all the rows of the table, newest first, and leaves the table
    alone; with no rows it returns the nil slice, which the handler
    replaces by an empty one: GET /tasks answers 200 with the JSON array of
    the rows, newest first, which on an empty store is [[]]. *)
Theorem C9_list_newest_first (c : conn) :
  fault c = None ->
  exists tasks c',
    GetAllTasks c = ((tasks, None), c') /\
    Permutation (elems tasks) (rows c) /\
    StronglySorted not_newer (elems tasks) /\
    rows c' = rows c /\
    (rows c = [] -> tasks = Nil) /\
    forall rbody st,
      db st = c ->
      status_and_body (GetTasks (mkRequest "GET" "/tasks" rbody) st)
        = (Some 200, Server.encodeTasks encodeTask (Slice (elems tasks))) /\
      (rows c = [] ->
       status_and_body (GetTasks (mkRequest "GET" "/tasks" rbody) st)
         = (Some 200, "[]" ++ Server.newline)).
Proof.
  intros Hf. do 2 eexists. split; [now apply GetAllTasks_ok|].
  rewrite elems_fold_append. cbn [elems app].
  split; [apply order_by_perm|]. split; [apply order_by_sorted|].
  split; [reflexivity|]. split; [intros ->; reflexivity|].
  intros rbody st <-. rewrite (GetTasks_ok rbody st Hf).
  split.
  - unfold status_and_body, respond. cbn.
    unfold response_Write, response_WriteHeader. now cbn.
  - intros ->. unfold status_and_body, respond. cbn.
    unfold response_Write, response_WriteHeader. now cbn.
Qed.

(** *** POST /tasks *)

Lemma CreateTask_invalid (rbody : Reader) (st : World) :
  decodeTitle rbody = None \/ decodeTitle rbody = Some "" ->
  exists msg,
    CreateTask (mkRequest "POST" "/tasks" (Some rbody)) st =
      returns (Server.enableCORS ++ Http.Error msg 400) st.
Proof.
  intros Hdec. unfold CreateTask, Server.CreateTask. cbn [Method Body].
  change (String.eqb "POST" "OPTIONS") with false.
  change (String.eqb "POST" "POST") with true. cbn [negb].
  destruct Hdec as [-> | ->]; eexists; reflexivity.
Qed.

(** C1, on the code: a POST /tasks whose body does not decode, or whose
    title is empty, is answered 400 and records nothing, neither an
    increment nor a duration; a successful GET /tasks increments the
    request counter twice, once without a status code, and records one
    duration. *)
Theorem C1_metrics_not_once_per_request (rbody : Reader) (st : World) :
  (decodeTitle rbody = None \/ decodeTitle rbody = Some "" ->
   let run := CreateTask (mkRequest "POST" "/tasks" (Some rbody)) st in
   status (respond run) = Some 400 /\ metrics (world run) = metrics st) /\
  (fault (db st) = None ->
   let run := GetTasks (mkRequest "GET" "/tasks" (Some rbody)) st in
   status (respond run) = Some 200 /\
   metrics (world run) =
     (metrics st ++
      [ CounterAdd 1 [ ("method", AString "GET"); ("endpoint", AString "/tasks") ];
        CounterAdd 1 [ ("method", AString "GET"); ("endpoint", AString "/tasks");
                       ("status_code", AInt 200) ];
        HistogramRecord [ ("method", AString "GET"); ("endpoint", AString "/tasks");
                          ("status_code", AInt 200) ] ])%list).
Proof.
  split.
  - intros Hdec run. subst run.
    destruct (CreateTask_invalid rbody st Hdec) as [msg ->].
    split; [|reflexivity].
    pose proof (respond_Error msg 400 st) as Hr.
    unfold status_and_body in Hr. now inversion Hr.
  - intros Hf run. subst run. rewrite (GetTasks_ok (Some rbody) st Hf).
    split.
    + unfold respond. cbn. unfold response_Write, response_WriteHeader. now cbn.
    + cbn. now rewrite <- app_assoc.
Qed.

Lemma CreateTask_valid (title : string) (rbody : Reader) (st : World) :
  decodeTitle rbody = Some title -> title <> "" ->
  CreateTask (mkRequest "POST" "/tasks" (Some rbody)) st =
    let st1 := on_span (SetAttributes [ ("operation", AString "create_task");
                                        ("task.title", AString title) ]) st in
    match Database.CreateTask title (db st) with
    | (inr e, c) =>
        returns (Server.enableCORS ++ Http.Error "Internal server error" 500)
          (Server.recordRequestMetrics "POST" "/tasks" 500
             (on_span (RecordError e) (set_db st1 c)))
    | (inl task, c) =>
        returns (Server.enableCORS ++
                 [ CallHeaderSet "Content-Type" "application/json";
                   CallWriteHeader 201;
                   CallWrite (encodeTask task ++ Server.newline) ])
          (Server.recordRequestMetrics "POST" "/tasks" 201 (set_db st1 c))
    end.
Proof.
  intros Hdec Hne. unfold CreateTask, Server.CreateTask. cbn [Method Body].
  change (String.eqb "POST" "OPTIONS") with false.
  change (String.eqb "POST" "POST") with true. cbn [negb].
  rewrite Hdec.
  destruct (String.eqb_spec title "") as [-> | _]; [congruence|].
  cbn [db on_span]. destruct (Database.CreateTask title (db st)) as [[task | e] c];
    reflexivity.
Qed.

(** C5, amended: for every non-empty title other than ["errorTest"], on a
    store whose driver does not fail and whose identifiers are not used up
    (the next rowid is still a 64-bit integer), [CreateTask] succeeds with
    one statement sent (the INSERT ... RETURNING) and returns the stored
    record: the title given, [completed] false, a fresh positive identifier
    and the store's timestamp; a list that follows contains that record
    exactly once, and it is the only one with its identifier. POST /tasks
    with such a title answers 201 with that record and leaves the store so.
    On every store, the title ["errorTest"] is refused with the simulated
    error before any statement is sent: POST /tasks answers 500 and the
    store is as it was. *)
Theorem C5_create_then_list (title : string) (c : conn) :
  (title <> "" -> title <> "errorTest" -> fault c = None -> next_id c <= MaxInt ->
   exists task c',
     Database.CreateTask title c = (inl task, c') /\
     Title task = title /\ Completed task = false /\
     0 < ID task <= MaxInt /\ (forall t, In t (rows c) -> ID t <> ID task) /\
     CreatedAt task = clock c /\
     executed c' =
       (executed c ++
        [mkStmt insert_query [VString title]
           ("INSERT INTO tasks (title) VALUES ('" ++ title ++
            "') RETURNING id, title, completed, created_at")])%list /\
     (exists tasks c'',
        GetAllTasks c' = ((tasks, None), c'') /\
        count_occ Task_eq_dec (elems tasks) task = 1%nat /\
        filter (has_id (ID task)) (elems tasks) = [task]) /\
     forall rbody st,
       db st = c -> decodeTitle rbody = Some title ->
       let run := CreateTask (mkRequest "POST" "/tasks" (Some rbody)) st in
       status_and_body run = (Some 201, encodeTask task ++ Server.newline) /\
       db (world run) = c') /\
  (Database.CreateTask "errorTest" c = (inr simulated_error, c) /\
   forall rbody st,
     db st = c -> decodeTitle rbody = Some "errorTest" ->
     let run := CreateTask (mkRequest "POST" "/tasks" (Some rbody)) st in
     status_and_body run = (Some 500, "Internal server error" ++ Server.newline) /\
     db (world run) = c).
Proof.
  split.
  - intros Hne Hnt Hf Hroom.
    destruct (create_then_list title c Hnt Hf Hroom)
      as (task & c' & Hcreate & Ht & Hc & Hid & Hfresh & Hts & Hex & Hlist).
    exists task, c'. repeat (split; [assumption|]).
    intros rbody st <- Hdec run. subst run.
    rewrite (CreateTask_valid title rbody st Hdec Hne). cbn zeta.
    rewrite Hcreate. split; [now apply respond_JSON | reflexivity].
  - split; [reflexivity|].
    intros rbody st <- Hdec run. subst run.
    rewrite (CreateTask_valid "errorTest" rbody st Hdec) by discriminate.
    cbn zeta.
    change (Database.CreateTask "errorTest" (db st))
      with (@inr Task _ simulated_error, db st).
    cbn iota. split; [apply respond_Error | reflexivity].
Qed.

(** *** DELETE /tasks/{id} *)

Lemma DeleteTask_handler (id : Z) (path : string) (rbody : option Reader) (st : World) :
  Atoi (TrimPrefix path "/tasks/") = Some id ->
  status_and_body (Server.DeleteTask (mkRequest "DELETE" path rbody) st) =
    match fst (Database.DeleteTask id (db st)) with
    | None => (Some 204, "")
    | Some ErrNoRows => (Some 404, "Task not found" ++ Server.newline)
    | Some (Errorf _) => (Some 500, "Internal server error" ++ Server.newline)
    end /\
  db (world (Server.DeleteTask (mkRequest "DELETE" path rbody) st)) =
    snd (Database.DeleteTask id (db st)).
Proof.
  intros Hid. unfold Server.DeleteTask. cbn [Method Path].
  change (String.eqb "DELETE" "OPTIONS") with false.
  change (String.eqb "DELETE" "DELETE") with true. cbn [negb].
  rewrite Hid. cbn [db on_span].
  destruct (Database.DeleteTask id (db st)) as [[[|msg]|] c]; cbn [fst snd is_ErrNoRows].
  - split; [apply respond_Error | reflexivity].
  - split; [apply respond_Error | reflexivity].
  - split; [reflexivity | reflexivity].
Qed.

(** C7: on a store whose driver does not fail, deleting an identifier that
    matches no row returns [sql.ErrNoRows], not another error, and DELETE
    /tasks/{id} answers 404; deleting an identifier that matches a row
    returns no error and answers 204, and the same request again returns
    [sql.ErrNoRows] and answers 404. *)
Theorem C7_delete_not_found (id : Z) (path : string) (rbody : option Reader)
    (st : World) :
  fault (db st) = None ->
  Atoi (TrimPrefix path "/tasks/") = Some id ->
  let r := mkRequest "DELETE" path rbody in
  let first := Server.DeleteTask r st in
  let second := Server.DeleteTask r (world first) in
  ((forall t, In t (rows (db st)) -> ID t <> id) ->
     fst (Database.DeleteTask id (db st)) = Some ErrNoRows /\
     status (respond first) = Some 404) /\
  ((exists t, In t (rows (db st)) /\ ID t = id) ->
     fst (Database.DeleteTask id (db st)) = None /\
     status (respond first) = Some 204 /\
     (forall t, In t (rows (db (world first))) -> ID t <> id) /\
     fst (Database.DeleteTask id (db (world first))) = Some ErrNoRows /\
     status (respond second) = Some 404).
Proof.
  intros Hf Hid r first second.
  destruct (DeleteTask_handler id path rbody st Hid) as [Hfirst Hdb].
  fold r in Hfirst, Hdb. fold first in Hfirst, Hdb.
  destruct (DeleteTask_handler id path rbody (world first) Hid) as [Hsecond _].
  fold r in Hsecond. fold second in Hsecond.
  unfold status_and_body in Hfirst, Hsecond.
  split.
  - intros Hno. rewrite (DeleteTask_missing id (db st) Hf Hno) in *.
    cbn [fst] in *. split; [reflexivity|]. now inversion Hfirst.
  - intros Hex. rewrite (DeleteTask_present id (db st) Hf Hex) in *.
    cbn [fst snd] in *. split; [reflexivity|].
    split; [now inversion Hfirst|].
    assert (Hgone : forall t, In t (rows (db (world first))) -> ID t <> id).
    { rewrite Hdb. cbn [set_rows rows]. apply deleted_is_gone. }
    split; [exact Hgone|].
    assert (Hf' : fault (db (world first)) = None) by (rewrite Hdb; exact Hf).
    rewrite (DeleteTask_missing id _ Hf' Hgone) in *.
    cbn [fst] in *. split; [reflexivity|]. now inversion Hsecond.
Qed.

End HandlerProperties.

Lemma C9_witness :
  Database.fault two_tasks = None /\
  exists tasks c',
    Database.GetAllTasks two_tasks = ((tasks, None), c') /\
    StronglySorted Database.not_newer (elems tasks) /\
    status_and_body (Server.GetTasks Database.Title
                       (mkRequest "GET" "/tasks" None) two_tasks_world)
      = (Some 200, Server.encodeTasks Database.Title (Slice (elems tasks))).
Proof.
  split; [reflexivity|].
  destruct (C9_list_newest_first Database.Title two_tasks eq_refl)
    as (tasks & c' & Hget & _ & Hsorted & _ & _ & Hserve).
  exists tasks, c'. split; [exact Hget|]. split; [exact Hsorted|].
  exact (proj1 (Hserve None two_tasks_world eq_refl)).
Defined.

Example GetTasks_two_tasks :
  status_and_body (Server.GetTasks Database.Title
                     (mkRequest "GET" "/tasks" None) two_tasks_world)
  = (Some 200, "[Walk dog,Buy milk]" ++ Server.newline).
Proof. reflexivity. Qed.

Lemma C1_witness :
  title_of_body [Data ""] = Some "" /\
  metrics (world (Server.CreateTask Database.Title title_of_body
                    (mkRequest "POST" "/tasks" (Some [Data ""])) empty_world))
    = metrics empty_world.
Proof.
  split; [reflexivity|].
  exact (proj2 (proj1 (C1_metrics_not_once_per_request Database.Title title_of_body
                         [Data ""] empty_world) (or_intror eq_refl))).
Defined.

Lemma C5_witness :
  "Buy milk" <> "" /\ "Buy milk" <> "errorTest" /\
  Database.fault empty_conn = None /\
  Database.next_id empty_conn <= MaxInt /\
  exists task c',
    Database.CreateTask "Buy milk" empty_conn = (inl task, c') /\
    Database.ID task = 1 /\
    fst (fst (Database.GetAllTasks c')) = Slice [task].
Proof.
  assert (H1 : "Buy milk" <> "") by discriminate.
  assert (H2 : "Buy milk" <> "errorTest") by discriminate.
  assert (H3 : Database.fault empty_conn = None) by reflexivity.
  assert (H4 : Database.next_id empty_conn <= MaxInt) by (vm_compute; discriminate).
  split; [exact H1|]. split; [exact H2|]. split; [exact H3|]. split; [exact H4|].
  destruct (proj1 (C5_create_then_list Database.Title title_of_body
                     "Buy milk" empty_conn) H1 H2 H3 H4) as (task & c' & Hcreate & _).
  exists task, c'. split; [exact Hcreate|].
  vm_compute in Hcreate. inversion Hcreate; subst. split; reflexivity.
Defined.

Lemma C7_witness :
  Database.fault (db two_tasks_world) = None /\
  Atoi (TrimPrefix "/tasks/2" "/tasks/") = Some 2 /\
  let r := mkRequest "DELETE" "/tasks/2" None in
  status (respond (Server.DeleteTask r two_tasks_world)) = Some 204 /\
  status (respond (Server.DeleteTask r (world (Server.DeleteTask r two_tasks_world))))
    = Some 404.
Proof.
  assert (Hf : Database.fault (db two_tasks_world) = None) by reflexivity.
  assert (Hid : Atoi (TrimPrefix "/tasks/2" "/tasks/") = Some 2) by reflexivity.
  split; [exact Hf|]. split; [exact Hid|].
  destruct (proj2 (C7_delete_not_found 2 "/tasks/2" None two_tasks_world Hf Hid))
    as (_ & H204 & _ & _ & H404).
  - exists (Database.mkTask 2 "Walk dog" false 160).
    split; [right; left; reflexivity | reflexivity].
  - split; assumption.
Defined.

(** ** middleware.go *)

Section MiddlewareProperties.
Import Middleware.
Context {W : Type} `{ResponseWriter W}.

(** Every call on the wrapper reaches the wrapped writer, in order. *)
Lemma inner_calls (cs : list WriterCall) (rw : responseWriter W) :
  inner (calls cs rw) = calls cs (inner rw).
Proof.
  revert rw. induction cs as [|c cs IH]; intros rw; [reflexivity|].
  unfold calls in *. cbn [fold_left]. rewrite IH.
  now destruct c.
Qed.

(** The buffer holds the bytes of the [Write] calls, in order. *)
Lemma body_calls (cs : list WriterCall) (rw : responseWriter W) :
  body (calls cs rw) =
  fold_left (fun buf c => match c with CallWrite b => buf ++ b | _ => buf end)
            cs (body rw).
Proof.
  revert rw. induction cs as [|c cs IH]; intros rw; [reflexivity|].
  unfold calls in *. cbn [fold_left]. rewrite IH.
  now destruct c.
Qed.

Lemma middleware_runs_next (next : Handler) (w : W) (r : Request) (st : World) :
  let r1 := fst (capture_request r st) in
  let st1 := snd (capture_request r st) in
  fst (fst (BodyTracingMiddleware next w r st)) = calls (written (next r1 st1)) w /\
  snd (BodyTracingMiddleware next w r st) = panicked (next r1 st1) /\
  db (snd (fst (BodyTracingMiddleware next w r st))) = db (world (next r1 st1)) /\
  metrics (snd (fst (BodyTracingMiddleware next w r st))) = metrics (world (next r1 st1)).
Proof.
  intros r1 st1. unfold BodyTracingMiddleware.
  subst r1 st1. destruct (capture_request r st) as [r1 st1]. cbn [fst snd].
  destruct (panicked (next r1 st1)) eqn:Hp.
  - cbn [fst snd]. now rewrite inner_calls.
  - destruct (0 <? len _); cbn [fst snd]; now rewrite inner_calls.
Qed.

Lemma capture_request_frame (r : Request) (st : World) :
  Method (fst (capture_request r st)) = Method r /\
  Path (fst (capture_request r st)) = Path r /\
  db (snd (capture_request r st)) = db st /\
  metrics (snd (capture_request r st)) = metrics st.
Proof.
  unfold capture_request. destruct (Body r) as [rbody|]; [|now repeat split].
  destruct (negb _ && negb _); [|now repeat split].
  destruct (ReadAll rbody) as [[bytes [e|]] rest]; now repeat split.
Qed.

Lemma append_empty (s : string) : (s ++ "")%string = s.
Proof. induction s as [|c s IH]; cbn; [reflexivity | now rewrite IH]. Qed.

(** C3, amended: the response is never changed: on every request, the
    wrapped writer gets exactly the calls [next] makes (header, status and
    bytes), in order, and the store and the metrics are those [next]
    leaves. The request handed to [next] has the method and the path of the
    original; it is the original itself when the body is nil or the method
    is GET or DELETE; and when the original body reads to its end without
    an error, the body handed to [next] reads the same bytes, without an
    error. *)
Theorem C3_middleware_transparent (next : Handler) (w : W) (r : Request) (st : World) :
  let r1 := fst (capture_request r st) in
  let st1 := snd (capture_request r st) in
  fst (fst (BodyTracingMiddleware next w r st)) = calls (written (next r1 st1)) w /\
  db (snd (fst (BodyTracingMiddleware next w r st))) = db (world (next r1 st1)) /\
  metrics (snd (fst (BodyTracingMiddleware next w r st))) = metrics (world (next r1 st1)) /\
  Method r1 = Method r /\ Path r1 = Path r /\
  (Body r = None \/ Method r = "GET" \/ Method r = "DELETE" -> r1 = r) /\
  (forall rbody bytes rest,
     Body r = Some rbody -> ReadAll rbody = ((bytes, None), rest) ->
     exists rbody1, Body r1 = Some rbody1 /\ fst (ReadAll rbody1) = (bytes, None)).
Proof.
  intros r1 st1.
  destruct (middleware_runs_next next w r st) as (Hw & _ & Hdb & Hm).
  destruct (capture_request_frame r st) as (Hmeth & Hpath & _ & _).
  split; [exact Hw|]. split; [exact Hdb|]. split; [exact Hm|].
  split; [exact Hmeth|]. split; [exact Hpath|].
  subst r1 st1. unfold capture_request. split.
  - intros [Hnil | [Hget | Hdel]].
    + now rewrite Hnil.
    + rewrite Hget. now destruct (Body r).
    + rewrite Hdel. now destruct (Body r).
  - intros rbody bytes rest Hbody Hread. rewrite Hbody.
    destruct (negb _ && negb _).
    + rewrite Hread. cbn [fst Body with_body].
      eexists. split; [reflexivity|]. cbn. now rewrite append_empty.
    + cbn [fst]. exists rbody. split; [exact Hbody | now rewrite Hread].
Qed.

(** C2, amended: when the method is neither GET nor DELETE and reading the
    body fails, no [http.request.body] event is added and the world is left
    as it was; [next] is still called, its calls reach the wrapped writer,
    and the middleware ends as [next] does. The body [next] gets is the
    original reader as the failed read left it: the bytes read before the
    failure are not given back, and it is empty when the reader has nothing
    after the failure. *)
Theorem C2_failed_read_skips_event (next : Handler) (w : W) (r : Request)
    (st : World) (rbody : Reader) (bytes : string) (e : error) (rest : Reader) :
  Body r = Some rbody ->
  Method r <> "GET" -> Method r <> "DELETE" ->
  ReadAll rbody = ((bytes, Some e), rest) ->
  capture_request r st = (with_body r rest, st) /\
  fst (fst (BodyTracingMiddleware next w r st))
    = calls (written (next (with_body r rest) st)) w /\
  snd (BodyTracingMiddleware next w r st) = panicked (next (with_body r rest) st) /\
  (rest = [] -> ReadAll rest = (("", None), [])).
Proof.
  intros Hbody Hget Hdel Hread.
  assert (Hcap : capture_request r st = (with_body r rest, st)).
  { unfold capture_request. rewrite Hbody.
    apply String.eqb_neq in Hget, Hdel. rewrite Hget, Hdel. cbn [negb andb].
    now rewrite Hread. }
  destruct (middleware_runs_next next w r st) as (Hw & Hp & _).
  rewrite Hcap in Hw, Hp. cbn [fst snd] in Hw, Hp.
  split; [exact Hcap|]. split; [exact Hw|]. split; [exact Hp|].
  now intros ->.
Qed.

End MiddlewareProperties.

(** C2, against the claim as stated: a body whose reader fails after ["ab"]
    and has ["cd"] left is handed on with ["cd"] still to read, not empty. *)
Lemma C2_not_empty_counterexample :
  let rbody := [Data "ab"; Failure "timeout"; Data "cd"] in
  let r := mkRequest "POST" "/tasks" (Some rbody) in
  fst (ReadAll rbody) = ("ab", Some (Errorf "timeout")) /\
  Body (fst (Middleware.capture_request r empty_world)) = Some [Data "cd"] /\
  fst (ReadAll [Data "cd"]) = ("cd", None) /\
  fst (ReadAll [Data "cd"]) <> fst (ReadAll []).
Proof. repeat split; try reflexivity. discriminate. Qed.

(** C3, against the claim as stated: when the read fails after ["ab"], the
    handler behind the middleware finds nothing to read where the handler
    alone reads ["ab"], and the client of [echo] gets other bytes. *)
Lemma C3_failed_read_counterexample :
  let rbody := [Data "ab"; Failure "connection reset"] in
  let r := mkRequest "POST" "/tasks" (Some rbody) in
  fst (fst (ReadAll rbody)) = "ab" /\
  Body (fst (Middleware.capture_request r empty_world)) = Some [] /\
  fst (fst (ReadAll [])) = "" /\
  sent (respond (echo r empty_world)) = "ab" /\
  sent (fst (fst (Middleware.BodyTracingMiddleware echo no_response r empty_world))) = "".
Proof. repeat split; reflexivity. Qed.

Lemma C3_witness :
  let r := mkRequest "POST" "/tasks" (Some [Data "{"; Data "}"]) in
  ReadAll [Data "{"; Data "}"] = (("{}", None), []) /\
  fst (fst (Middleware.BodyTracingMiddleware echo no_response r empty_world))
    = respond (echo (fst (Middleware.capture_request r empty_world)) empty_world) /\
  exists rbody1,
    Body (fst (Middleware.capture_request r empty_world)) = Some rbody1 /\
    fst (ReadAll rbody1) = ("{}", None).
Proof.
  intros r. split; [reflexivity|].
  pose proof (C3_middleware_transparent echo no_response r empty_world)
    as (Hw & _ & _ & _ & _ & _ & Hbody).
  split.
  - exact Hw.
  - exact (Hbody [Data "{"; Data "}"] "{}" [] eq_refl eq_refl).
Defined.

Lemma C2_witness :
  let rbody := [Data "ab"; Failure "timeout"] in
  let r := mkRequest "POST" "/tasks" (Some rbody) in
  ReadAll rbody = (("ab", Some (Errorf "timeout")), []) /\
  Middleware.capture_request r empty_world = (with_body r [], empty_world) /\
  snd (Middleware.BodyTracingMiddleware echo no_response r empty_world) = false.
Proof.
  intros rbody r.
  assert (Hread : ReadAll rbody = (("ab", Some (Errorf "timeout")), [])) by reflexivity.
  split; [exact Hread|].
  destruct (C2_failed_read_skips_event echo no_response r empty_world rbody "ab"
              (Errorf "timeout") [] eq_refl) as (Hcap & _ & Hp & _).
  - discriminate.
  - discriminate.
  - exact Hread.
  - split; [exact Hcap | exact Hp].
Defined.

(** ** The scenarios of the interface, end to end *)

Example scenario_create :
  option_map fst (exchange "POST" "/tasks" "Buy milk" empty_world)
  = Some (Some 201, "Buy milk" ++ Server.newline).
Proof. reflexivity. Qed.

Example scenario_empty_title :
  option_map fst (exchange "POST" "/tasks" "" empty_world)
  = Some (Some 400, "Title is required" ++ Server.newline).
Proof. reflexivity. Qed.

Example scenario_errorTest :
  option_map fst (exchange "POST" "/tasks" "errorTest" empty_world)
  = Some (Some 500, "Internal server error" ++ Server.newline).
Proof. reflexivity. Qed.

Example scenario_complete :
  option_map fst
    (then_exchange "POST" "/tasks/1/complete" ""
       (exchange "POST" "/tasks" "Buy milk" empty_world))
  = Some (Some 200, "Buy milk" ++ Server.newline).
Proof. reflexivity. Qed.

Example scenario_delete_twice :
  let created := exchange "POST" "/tasks" "Buy milk" empty_world in
  let first := then_exchange "DELETE" "/tasks/1" "" created in
  let second := then_exchange "DELETE" "/tasks/1" "" first in
  option_map fst first = Some (Some 204, "") /\
  option_map fst second = Some (Some 404, "Task not found" ++ Server.newline).
Proof. split; reflexivity. Qed.

Example scenario_list_empty :
  option_map fst (exchange "GET" "/tasks" "" empty_world)
  = Some (Some 200, "[]" ++ Server.newline).
Proof. reflexivity. Qed.

Example scenario_short_complete_path :
  exchange "POST" "/tasks/12" "" empty_world = None.
Proof. reflexivity. Qed.

Example post_not_canonical_is_redirected :
  Server.serve Database.Title title_of_body "/tasks//a"
    (mkRequest "POST" "/tasks//a" (Some [])) empty_world
  = Some (Server.MovedPermanently "/tasks/a") /\
  Server.serve Database.Title title_of_body "/tasks/.."
    (mkRequest "POST" "/tasks/.." (Some [])) empty_world
  = Some (Server.MovedPermanently "/").
Proof. split; reflexivity. Qed.

Example head_tasks_gets_no_body :
  match Server.serve Database.Title title_of_body "/tasks"
          (mkRequest "HEAD" "/tasks" None) empty_world with
  | Some (Server.Routed ((resp, st), false)) =>
      status resp = Some 405 /\ sent resp = "" /\
      span st = [response_body_event ("Method not allowed" ++ Server.newline) 405]
  | _ => False
  end.
Proof. repeat split; reflexivity. Qed.

Example scenario_span_events :
  option_map (fun x => span (snd x)) (exchange "POST" "/tasks" "Buy milk" empty_world)
  = Some
      [ AddEvent "http.request.body" [("body", AString "Buy milk"); ("size", AInt 8)];
        SetAttributes [("operation", AString "create_task");
                       ("task.title", AString "Buy milk")];
        AddEvent "http.response.body"
          [("body", AString ("Buy milk" ++ Server.newline)); ("size", AInt 9);
           ("status_code", AInt 201)] ].
Proof. reflexivity. Qed.

(** ** database.go: invariants and how the operations compose *)

Section Histories.
Import Database.

Lemma rows_happen (c : conn) (ev : Event) :
  rows (happen c ev) = rows c \/
  (exists task, rows (happen c ev) = (rows c ++ [task])%list /\ ID task = next_id c /\
                autoinc (happen c ev) = next_id c) \/
  (exists id, rows (happen c ev) = filter (fun t => negb (has_id id t)) (rows c)) \/
  (exists id, rows (happen c ev) = map (complete id) (rows c)).
Proof.
  destruct ev as [|title|id|id|dt|f]; cbn [happen].
  - left. unfold GetAllTasks. now destruct (fault c).
  - unfold CreateTask. destruct (String.eqb title "errorTest"); [now left|].
    destruct (fault c); [now left|].
    destruct (MaxInt <? next_id c); [now left|].
    right; left. eexists. cbn. repeat split.
  - unfold DeleteTask. destruct (fault c); [now left|].
    right; right; left. exists id. now destruct (_ =? 0).
  - unfold CompleteTask. destruct (fault c); [now left|].
    right; right; right. exists id. now destruct (filter _ _).
  - now left.
  - now left.
Qed.

Lemma autoinc_happen (c : conn) (ev : Event) :
  autoinc (happen c ev) = autoinc c \/
  (autoinc (happen c ev) = next_id c /\
   exists task, rows (happen c ev) = (rows c ++ [task])%list).
Proof.
  destruct ev as [|title|id|id|dt|f]; cbn [happen].
  - left. unfold GetAllTasks. now destruct (fault c).
  - unfold CreateTask. destruct (String.eqb title "errorTest"); [now left|].
    destruct (fault c); [now left|].
    destruct (MaxInt <? next_id c); [now left|].
    right. split; [reflexivity|]. now eexists.
  - left. unfold DeleteTask. destruct (fault c); [reflexivity|]. now destruct (_ =? 0).
  - left. unfold CompleteTask. destruct (fault c); [reflexivity|].
    now destruct (filter _ _).
  - now left.
  - now left.
Qed.

Lemma next_id_above (c : conn) : autoinc c < next_id c.
Proof. unfold next_id. lia. Qed.

Lemma autoinc_monotone (c : conn) (ev : Event) : autoinc c <= autoinc (happen c ev).
Proof.
  destruct (autoinc_happen c ev) as [-> | [-> _]]; [lia|].
  pose proof (next_id_above c). lia.
Qed.

Lemma autoinc_history (evs : list Event) (c : conn) :
  autoinc c <= autoinc (history evs c).
Proof.
  revert c. induction evs as [|ev evs IH]; intros c; cbn; [lia|].
  fold (history evs (happen c ev)).
  pose proof (autoinc_monotone c ev). specialize (IH (happen c ev)). lia.
Qed.

Lemma map_ID_complete (id : Z) (l : list Task) :
  map ID (map (complete id) l) = map ID l.
Proof.
  rewrite map_map. apply map_ext. intros t. unfold complete.
  now destruct (has_id id t).
Qed.

Lemma kept_rows_keep_their_keys (keep : Task -> bool) (table : list Task) :
  NoDup (map ID table) -> NoDup (map ID (filter keep table)).
Proof.
  intros Hkeys. induction table as [|row table IH]; [constructor|].
  cbn [map] in Hkeys. apply NoDup_cons_iff in Hkeys. destruct Hkeys as [Hfresh Hkeys].
  cbn [filter]. destruct (keep row); [|now apply IH].
  cbn [map]. apply NoDup_cons_iff. split; [|now apply IH].
  intros Hin. apply Hfresh. apply in_map_iff in Hin.
  destruct Hin as (other & Hid & Hin). apply filter_In in Hin.
  apply in_map_iff. exists other. now split.
Qed.

Lemma NoDup_snoc {A} (l : list A) (x : A) :
  NoDup l -> ~ In x l -> NoDup (l ++ [x]).
Proof.
  induction l as [|y l IH]; intros Hnd Hx; cbn [app].
  - constructor; [intros [] | constructor].
  - inversion Hnd as [|? ? Hy Hnd']; subst. constructor.
    + intros Hin. apply in_app_or in Hin. destruct Hin as [Hin | [-> | []]].
      * now apply Hy.
      * apply Hx. now left.
    + apply IH; [exact Hnd'|]. intros Hin. apply Hx. now right.
Qed.

Lemma well_keyed_happen (c : conn) (ev : Event) :
  well_keyed c -> well_keyed (happen c ev).
Proof.
  intros [Hnd Hle]. unfold well_keyed.
  destruct (rows_happen c ev) as [-> | [(task & -> & Hid & Hauto) | [(id & ->) | (id & ->)]]].
  - split; [exact Hnd|].
    eapply Forall_impl; [|exact Hle]. intros t Ht. cbn beta in *.
    pose proof (autoinc_monotone c ev). lia.
  - split.
    + rewrite map_app. cbn [map]. apply NoDup_snoc.
      * exact Hnd.
      * intros Hin. apply in_map_iff in Hin. destruct Hin as (t & Ht & Hin).
        apply next_id_fresh in Hin. lia.
    + rewrite Hauto. apply Forall_app. split.
      * apply Forall_forall. intros t Hin. apply next_id_fresh in Hin. lia.
      * constructor; [lia | constructor].
  - split; [now apply kept_rows_keep_their_keys|].
    apply Forall_forall. intros t Hin. apply filter_In in Hin.
    rewrite Forall_forall in Hle. pose proof (Hle t (proj1 Hin)).
    pose proof (autoinc_monotone c ev). lia.
  - split; [now rewrite map_ID_complete|].
    apply Forall_forall. intros t Hin. apply in_map_iff in Hin.
    destruct Hin as (u & <- & Hin).
    rewrite Forall_forall in Hle. pose proof (Hle u Hin).
    pose proof (autoinc_monotone c ev).
    replace (ID (complete id u)) with (ID u); [lia|].
    unfold complete. now destruct (has_id id u).
Qed.

Lemma empty_conn_well_keyed : well_keyed empty_conn.
Proof. split; constructor. Qed.

(** X1: the primary key is an invariant of the store: from a state in which
    no two rows share an identifier and no identifier exceeds the sequence
    counter, every history of operations, failing or not, leads to such a
    state. *)
Theorem X1_primary_key_invariant (evs : list Event) (c : conn) :
  well_keyed c -> well_keyed (history evs c).
Proof.
  revert c. induction evs as [|ev evs IH]; intros c Hc; [exact Hc|].
  cbn. fold (history evs (happen c ev)). apply IH. now apply well_keyed_happen.
Qed.

Lemma CreateTask_id (title : string) (c c' : conn) (task : Task) :
  CreateTask title c = (inl task, c') -> ID task = next_id c.
Proof.
  unfold CreateTask. destruct (String.eqb title "errorTest"); [discriminate|].
  destruct (fault c); [discriminate|].
  destruct (MaxInt <? next_id c); [discriminate|]. intros Heq. now inversion Heq.
Qed.

(** X2: identifiers are never reused: a task created after any history gets
    an identifier greater than that of every row the table held before the
    history, whether that row is still there or was deleted meanwhile. *)
Theorem X2_identifiers_never_reused (evs : list Event) (c c' : conn)
    (t task : Task) (title : string) :
  well_keyed c ->
  In t (rows c) ->
  CreateTask title (history evs c) = (inl task, c') ->
  ID t < ID task.
Proof.
  intros [_ Hle] Hin Hcreate.
  rewrite (CreateTask_id _ _ _ _ Hcreate).
  rewrite Forall_forall in Hle. pose proof (Hle t Hin).
  pose proof (autoinc_history evs c).
  pose proof (next_id_above (history evs c)). lia.
Qed.

Lemma filter_lengths {A} (p : A -> bool) (l : list A) :
  (List.length (filter p l) + List.length (filter (fun x => negb (p x)) l)
   = List.length l)%nat.
Proof.
  induction l as [|x l IH]; [reflexivity|].
  cbn [filter]. destruct (p x); cbn [negb List.length]; lia.
Qed.

Lemma one_row_per_id (id : Z) (l : list Task) :
  NoDup (map ID l) -> (List.length (filter (has_id id) l) <= 1)%nat.
Proof.
  induction l as [|x l IH]; intros Hnd; [cbn; lia|].
  cbn [map] in Hnd. inversion Hnd as [|? ? Hx Hnd']; subst.
  cbn [filter]. destruct (has_id id x) eqn:Hid; [|now apply IH].
  rewrite filter_none; [cbn; lia|].
  intros y Hy. apply has_id_false. intros Heq. apply Hx.
  apply has_id_true in Hid. apply in_map_iff. exists y. split; [congruence | exact Hy].
Qed.

(** X3: on a store that works and keeps its primary key, deleting an
    identifier that is in the table removes exactly one row: the table is
    one row shorter, the rows left are exactly the rows with another
    identifier, and the sequence counter is not moved. *)
Theorem X3_delete_removes_exactly_one_row (id : Z) (c : conn) :
  well_keyed c -> fault c = None ->
  (exists t, In t (rows c) /\ ID t = id) ->
  let c' := snd (DeleteTask id c) in
  (List.length (rows c') + 1 = List.length (rows c))%nat /\
  (forall u, In u (rows c') <-> In u (rows c) /\ ID u <> id) /\
  autoinc c' = autoinc c.
Proof.
  intros [Hnd _] Hf Hex c'. subst c'.
  rewrite (DeleteTask_present id c Hf Hex). cbn [snd set_rows rows autoinc send].
  split; [|split; [|reflexivity]].
  - pose proof (filter_lengths (has_id id) (rows c)) as Hlen.
    pose proof (one_row_per_id id (rows c) Hnd) as Hone.
    destruct Hex as (t & Hin & Hid).
    assert (Hin' : In t (filter (has_id id) (rows c)))
      by (apply filter_In; split; [exact Hin | now apply has_id_true]).
    destruct (filter (has_id id) (rows c)) as [|x l]; [contradiction|].
    cbn [List.length] in *. lia.
  - intros u. rewrite filter_In. rewrite negb_true_iff, has_id_false. tauto.
Qed.

Lemma filter_map_complete (id : Z) (l : list Task) :
  filter (has_id id) (map (complete id) l) = map (complete id) (filter (has_id id) l).
Proof.
  induction l as [|x l IH]; [reflexivity|].
  cbn [map filter]. rewrite complete_has_id.
  destruct (has_id id x); cbn [map]; now rewrite IH.
Qed.


(** X5: completion is final: on a store that keeps its primary key, once a
    row is completed, every row with its identifier in any later state is
    that very row; no history of operations reopens or rewrites it, it can
    only be deleted. *)
Theorem X5_completed_task_is_final (evs : list Event) (c : conn) (t u : Task) :
  well_keyed c ->
  In t (rows c) -> Completed t = true ->
  In u (rows (history evs c)) -> ID u = ID t ->
  u = t.
Proof.
  intros Hwk Hin Hdone.
  assert (Hstart : ID t <= autoinc c /\ forall v, In v (rows c) -> ID v = ID t -> v = t).
  { destruct Hwk as [Hnd Hle]. split.
    - rewrite Forall_forall in Hle. now apply Hle.
    - intros v Hv Hid. clear Hle.
      induction (rows c) as [|x l IH]; [contradiction|].
      cbn [map] in Hnd. inversion Hnd as [|? ? Hx Hnd']; subst.
      destruct Hin as [-> | Hin], Hv as [-> | Hv]; try reflexivity.
      + exfalso. apply Hx. apply in_map_iff. exists v. now split.
      + exfalso. apply Hx. apply in_map_iff. exists t. now split.
      + now apply IH. }
  clear Hin Hwk. revert c Hstart u.
  induction evs as [|ev evs IH]; intros c [Hle Hsame] u Hu Hid; [now apply Hsame|].
  cbn in Hu. fold (history evs (happen c ev)) in Hu.
  apply (IH (happen c ev)); [|exact Hu | exact Hid].
  split; [pose proof (autoinc_monotone c ev); lia|].
  intros v Hv Hvid.
  destruct (rows_happen c ev)
    as [Heq | [(task & Heq & Htask & _) | [(id & Heq) | (id & Heq)]]];
    rewrite Heq in Hv.
  - now apply Hsame.
  - apply in_app_or in Hv. destruct Hv as [Hv | [<- | []]]; [now apply Hsame|].
    pose proof (next_id_above c). lia.
  - apply filter_In in Hv. now apply Hsame.
  - apply in_map_iff in Hv. destruct Hv as (v0 & <- & Hv0).
    assert (Hv0id : ID v0 = ID t).
    { rewrite <- Hvid. unfold complete. now destruct (has_id id v0). }
    rewrite (Hsame v0 Hv0 Hv0id). now apply complete_done.
Qed.

Lemma insert_desc_map (f : Task -> Task) (t : Task) (l : list Task) :
  (forall x, CreatedAt (f x) = CreatedAt x) ->
  insert_desc (f t) (map f l) = map f (insert_desc t l).
Proof.
  intros Hf. induction l as [|u l IH]; [reflexivity|].
  cbn [map insert_desc]. rewrite !Hf.
  destruct (CreatedAt u <=? CreatedAt t); [reflexivity|].
  cbn [map]. now rewrite IH.
Qed.

Lemma order_by_map (f : Task -> Task) (l : list Task) :
  (forall x, CreatedAt (f x) = CreatedAt x) ->
  order_by_created_at_desc (map f l) = map f (order_by_created_at_desc l).
Proof.
  intros Hf. induction l as [|t l IH]; [reflexivity|].
  cbn [map order_by_created_at_desc]. rewrite IH. now apply insert_desc_map.
Qed.

Lemma insert_desc_filter (p : Task -> bool) (t : Task) (l : list Task) :
  StronglySorted not_newer l ->
  filter p (insert_desc t l) =
  if p t then insert_desc t (filter p l) else filter p l.
Proof.
  induction l as [|u l IH]; intros Hs.
  - cbn. now destruct (p t).
  - inversion Hs as [|? ? Hl Hu]; subst. cbn [insert_desc].
    destruct (Z.leb_spec (CreatedAt u) (CreatedAt t)) as [Hle | Hlt].
    + cbn [filter]. destruct (p t) eqn:Hpt; [|reflexivity].
      destruct (p u) eqn:Hpu.
      * cbn [insert_desc]. now rewrite (proj2 (Z.leb_le _ _) Hle).
      * (* the rows after [u] are not newer than [u], hence than [t] *)
        clear IH Hs. induction l as [|v l IHl]; [reflexivity|].
        inversion Hu as [|? ? Hv Hu']; subst. inversion Hl as [|? ? Hl' Hv']; subst.
        cbn [filter]. destruct (p v); [|now apply IHl].
        cbn [insert_desc]. unfold not_newer in Hv.
        now rewrite (proj2 (Z.leb_le (CreatedAt v) (CreatedAt t)) ltac:(lia)).
    + cbn [filter]. rewrite (IH Hl). destruct (p u) eqn:Hpu, (p t) eqn:Hpt;
        try reflexivity.
      cbn [insert_desc]. now rewrite (proj2 (Z.leb_gt _ _) Hlt).
Qed.

Lemma order_by_filter (p : Task -> bool) (l : list Task) :
  order_by_created_at_desc (filter p l) = filter p (order_by_created_at_desc l).
Proof.
  induction l as [|t l IH]; [reflexivity|].
  cbn [filter order_by_created_at_desc].
  rewrite (insert_desc_filter p t _ (order_by_sorted l)).
  destruct (p t); [|exact IH].
  cbn [order_by_created_at_desc]. now rewrite IH.
Qed.

Lemma listing_ok (c : conn) :
  fault c = None -> listing c = order_by_created_at_desc (rows c).
Proof.
  intros Hf. unfold listing. rewrite (GetAllTasks_ok c Hf). cbn [fst].
  now rewrite elems_fold_append.
Qed.

(** X6: on a store that works, completing and deleting leave the order of
    the list alone: the list after a completion is the list before with the
    flag of that identifier set, and the list after a deletion is the list
    before without the rows of that identifier. *)
Theorem X6_complete_and_delete_keep_list_order (id : Z) (c : conn) :
  fault c = None ->
  listing (snd (CompleteTask id c)) = map (complete id) (listing c) /\
  listing (snd (DeleteTask id c)) =
    filter (fun t => negb (has_id id t)) (listing c).
Proof.
  intros Hf. rewrite (listing_ok c Hf). split.
  - assert (Hrows : rows (snd (CompleteTask id c)) = map (complete id) (rows c) /\
                    fault (snd (CompleteTask id c)) = None).
    { unfold CompleteTask. rewrite Hf. now destruct (filter _ _). }
    destruct Hrows as [Hrows Hf']. rewrite (listing_ok _ Hf'), Hrows.
    apply order_by_map. intros x. unfold complete. now destruct (has_id id x).
  - assert (Hrows : rows (snd (DeleteTask id c)) =
                      filter (fun t => negb (has_id id t)) (rows c) /\
                    fault (snd (DeleteTask id c)) = None).
    { unfold DeleteTask. rewrite Hf. now destruct (_ =? 0). }
    destruct Hrows as [Hrows Hf']. rewrite (listing_ok _ Hf'), Hrows.
    apply order_by_filter.
Qed.

End Histories.

Lemma two_tasks_well_keyed : well_keyed two_tasks.
Proof.
  split.
  - cbn. constructor; [intros [H | []]; discriminate|].
    constructor; [intros [] | constructor].
  - repeat constructor; cbn; lia.
Qed.

Lemma X1_witness :
  well_keyed two_tasks /\
  well_keyed (history [DoCreate "Call mum"; DoDelete 1; Break (Some "disk full");
                       DoComplete 2; DoCreate "errorTest"] two_tasks).
Proof.
  split; [exact two_tasks_well_keyed|].
  exact (X1_primary_key_invariant _ two_tasks two_tasks_well_keyed).
Defined.

Lemma X2_witness :
  well_keyed two_tasks /\
  In (Database.mkTask 2 "Walk dog" false 160) (Database.rows two_tasks) /\
  Database.ID (Database.mkTask 2 "Walk dog" false 160)
    < Database.ID (Database.mkTask 3 "Call mum" false 200).
Proof.
  assert (Hin : In (Database.mkTask 2 "Walk dog" false 160) (Database.rows two_tasks))
    by (right; left; reflexivity).
  split; [exact two_tasks_well_keyed|]. split; [exact Hin|].
  exact (X2_identifiers_never_reused [DoDelete 2] two_tasks _ _ _ "Call mum"
           two_tasks_well_keyed Hin eq_refl).
Defined.

Lemma X3_witness :
  well_keyed two_tasks /\ Database.fault two_tasks = None /\
  (List.length (Database.rows (snd (Database.DeleteTask 2 two_tasks))) + 1
   = List.length (Database.rows two_tasks))%nat.
Proof.
  split; [exact two_tasks_well_keyed|]. split; [reflexivity|].
  refine (proj1 (X3_delete_removes_exactly_one_row 2 two_tasks
                   two_tasks_well_keyed eq_refl _)).
  exists (Database.mkTask 2 "Walk dog" false 160).
  split; [right; left; reflexivity | reflexivity].
Defined.


Lemma X5_witness :
  let done := Database.mkTask 1 "Buy milk" true 100 in
  let later := history [DoComplete 1; DoCreate "Call mum"; DoComplete 2] two_tasks in
  well_keyed two_tasks /\ In done (Database.rows two_tasks) /\
  In done (Database.rows later) /\
  forall u, In u (Database.rows later) -> Database.ID u = 1 -> u = done.
Proof.
  intros done later.
  assert (Hin : In done (Database.rows two_tasks)) by (left; reflexivity).
  split; [exact two_tasks_well_keyed|]. split; [exact Hin|].
  split; [left; reflexivity|].
  intros u Hu Hid.
  exact (X5_completed_task_is_final _ two_tasks done u two_tasks_well_keyed Hin
           eq_refl Hu Hid).
Defined.

Lemma X6_witness :
  Database.fault two_tasks = None /\
  listing (snd (Database.CompleteTask 2 two_tasks))
    = [Database.mkTask 2 "Walk dog" true 160; Database.mkTask 1 "Buy milk" true 100] /\
  listing (snd (Database.DeleteTask 2 two_tasks))
    = [Database.mkTask 1 "Buy milk" true 100].
Proof.
  split; [reflexivity|].
  destruct (X6_complete_and_delete_keep_list_order 2 two_tasks eq_refl) as [H1 H2].
  split; [rewrite H1 | rewrite H2]; reflexivity.
Defined.

(** ** database.go: when the formatter is right, and what it does otherwise *)

Section Placeholders.
Import Database.

Lemma prefix_char (ch c : ascii) (s : string) :
  String.prefix (String ch "") (String c s) = if ascii_dec ch c then true else false.
Proof.
  cbn [String.prefix]. destruct (ascii_dec ch c); [now destruct s | reflexivity].
Qed.

Lemma Contains_char_cons (ch c : ascii) (s : string) :
  Contains (String c s) (String ch "") =
  if ascii_dec ch c then true else Contains s (String ch "").
Proof.
  cbn [Contains]. rewrite prefix_char. now destruct (ascii_dec ch c).
Qed.

Lemma Contains_char_app (ch : ascii) (a b : string) :
  Contains (a ++ b) (String ch "") =
  Contains a (String ch "") || Contains b (String ch "").
Proof.
  induction a as [|c a IH].
  - reflexivity.
  - cbn [String.append]. rewrite !Contains_char_cons.
    destruct (ascii_dec ch c); [reflexivity | exact IH].
Qed.

(** [strings.Replace(s, "?", new, 1)] on a text without ["?"]. *)
Lemma ReplaceFirst_absent (ch : ascii) (s new : string) :
  Contains s (String ch "") = false -> ReplaceFirst s (String ch "") new = s.
Proof.
  induction s as [|c s IH]; intros Hno.
  - reflexivity.
  - rewrite Contains_char_cons in Hno. cbn [ReplaceFirst]. rewrite prefix_char.
    destruct (ascii_dec ch c); [discriminate|]. now rewrite IH.
Qed.

(** ... and on a text whose first ["?"] comes after [pre]. *)
Lemma ReplaceFirst_first (ch : ascii) (pre rest new : string) :
  Contains pre (String ch "") = false ->
  ReplaceFirst (pre ++ String ch rest) (String ch "") new = pre ++ new ++ rest.
Proof.
  induction pre as [|c pre IH]; intros Hno.
  - cbn [String.append ReplaceFirst]. rewrite prefix_char.
    destruct (ascii_dec ch ch); [reflexivity | congruence].
  - rewrite Contains_char_cons in Hno. cbn [String.append ReplaceFirst].
    rewrite prefix_char.
    destruct (ascii_dec ch c); [discriminate|]. now rewrite IH.
Qed.

Lemma substitute_none (args : list Value) (s : string) :
  no_question_mark s ->
  fold_left (fun f arg => ReplaceFirst f "?" (render arg)) args s = s.
Proof.
  intros Hno. induction args as [|arg args IH]; [reflexivity|].
  cbn [fold_left]. now rewrite ReplaceFirst_absent.
Qed.

Lemma substitute_all (args : list Value) (pieces : list string) (pre : string) :
  no_question_mark pre ->
  Forall no_question_mark pieces ->
  Forall (fun arg => no_question_mark (render arg)) args ->
  fold_left (fun f arg => ReplaceFirst f "?" (render arg)) args
            (pre ++ placeholders pieces)
  = pre ++ filled args pieces.
Proof.
  revert pieces pre. induction args as [|arg args IH]; intros pieces pre Hpre Hps Hargs.
  - now destruct pieces.
  - destruct pieces as [|p ps].
    + cbn [placeholders filled]. rewrite append_empty.
      now apply substitute_none.
    + cbn [placeholders filled fold_left].
      change ("?" ++ p ++ placeholders ps) with (String "?" (p ++ placeholders ps)).
      rewrite ReplaceFirst_first by exact Hpre.
      inversion Hps; subst. inversion Hargs; subst.
      rewrite <- !append_assoc.
      rewrite IH; try assumption.
      * now rewrite !append_assoc.
      * unfold no_question_mark in *. rewrite !Contains_char_app.
        now rewrite Hpre, H3, H1.
Qed.

(** X7: on a statement without ["$"] whose pieces between the placeholders
    hold no ["?"], and with arguments whose printed values hold no ["?"], the
    formatter puts the i-th value at the i-th placeholder: arguments beyond
    the last placeholder are dropped and placeholders beyond the last
    argument are left in the text. *)
Theorem X7_formatter_fills_placeholders_in_order
    (pre : string) (pieces : list string) (args : list Value) :
  Contains (pre ++ placeholders pieces) "$" = false ->
  no_question_mark pre ->
  Forall no_question_mark pieces ->
  Forall (fun arg => no_question_mark (render arg)) args ->
  formatQueryWithArgs (pre ++ placeholders pieces) args = pre ++ filled args pieces.
Proof.
  intros Hdollar Hpre Hps Hargs.
  destruct args as [|arg args].
  - cbn [formatQueryWithArgs]. now destruct pieces.
  - unfold formatQueryWithArgs.
    rewrite (format_loop_question _ (arg :: args) Hdollar).
    now apply substitute_all.
Qed.

(** X8: when the printed value of an argument holds a ["?"], the next
    argument is put inside that value and not at its own placeholder: with
    the first value [v1 ? v2], the text after two substitutions is
    [pre v1 <second value> v2 tail], whatever [tail] holds. *)
Theorem X8_question_mark_in_value_takes_next_argument
    (pre tail v1 v2 : string) (a1 a2 : Value) (rest : list Value) :
  Contains (pre ++ "?" ++ tail) "$" = false ->
  no_question_mark pre -> no_question_mark v1 ->
  render a1 = v1 ++ "?" ++ v2 ->
  formatQueryWithArgs (pre ++ "?" ++ tail) (a1 :: a2 :: rest) =
  fold_left (fun f arg => ReplaceFirst f "?" (render arg)) rest
            (pre ++ v1 ++ render a2 ++ v2 ++ tail).
Proof.
  intros Hdollar Hpre Hv1 Ha1. unfold formatQueryWithArgs.
  rewrite (format_loop_question _ (a1 :: a2 :: rest) Hdollar).
  cbn [fold_left]. f_equal.
  change (pre ++ "?" ++ tail) with (pre ++ String "?" tail).
  rewrite (ReplaceFirst_first "?" pre tail (render a1) Hpre), Ha1.
  replace (pre ++ (v1 ++ "?" ++ v2) ++ tail)
    with ((pre ++ v1) ++ String "?" (v2 ++ tail)).
  - rewrite ReplaceFirst_first.
    + now rewrite !append_assoc.
    + unfold no_question_mark in *. rewrite Contains_char_app. now rewrite Hpre, Hv1.
  - rewrite !append_assoc. reflexivity.
Qed.

End Placeholders.

Lemma X7_witness :
  Database.formatQueryWithArgs Database.update_query [Database.VInt 12; Database.VNil]
  = "UPDATE tasks SET completed = 1 WHERE id = 12 RETURNING id, title, completed, created_at".
Proof.
  refine (X7_formatter_fills_placeholders_in_order
            "UPDATE tasks SET completed = 1 WHERE id = "
            [" RETURNING id, title, completed, created_at"]
            [Database.VInt 12; Database.VNil] eq_refl eq_refl _ _).
  - repeat constructor.
  - repeat constructor.
Defined.

Lemma X8_witness :
  Database.formatQueryWithArgs "UPDATE notes SET body = ?, stars = ? WHERE id = ?"
    [Database.VString "why?"; Database.VInt 5; Database.VInt 9]
  = "UPDATE notes SET body = 'why5', stars = 9 WHERE id = ?".
Proof.
  exact (X8_question_mark_in_value_takes_next_argument
           "UPDATE notes SET body = " ", stars = ? WHERE id = ?" "'why" "'"
           (Database.VString "why?") (Database.VInt 5) [Database.VInt 9]
           eq_refl eq_refl eq_refl eq_refl).
Defined.

(** ** telemetry.go: what the shutdown closure runs *)

Section ShutdownProperties.
Import Telemetry.

(** The loop calls every function, and the error it holds in the end is the
    one the last call returned. *)
Lemma shutdown_loop_pipelines (init : list Pipeline) (p : Pipeline)
    (err : option error) (st : Providers) :
  shutdown_loop (map Shutdown (init ++ [p])) err st =
    (outcome st (shut st ++ init) p,
     mkProviders (outcome st) (shut st ++ init ++ [p])).
Proof.
  revert err st. induction init as [|q init IH]; intros err st.
  - cbn. now rewrite app_nil_r.
  - cbn [app map shutdown_loop]. unfold Shutdown at 1. rewrite IH.
    cbn [outcome shut]. now rewrite <- !app_assoc.
Qed.

(** X9: with no pipeline registered the closure returns no error. Otherwise
    one call shuts every registered pipeline down once, in the order of
    registration, and returns what the last of them returned, whatever the
    others did. The closure keeps its list and has no guard: a second call
    shuts all of them down again, and returns what the last pipeline answers
    to its second shutdown. The two results can differ: with the trace and
    the metric pipelines registered and a meter provider that refuses a
    second shutdown, the first call returns no error and the second one
    does. *)
Theorem X9_shutdown_runs_every_registered_function
    (init : list Pipeline) (p : Pipeline) (st : Providers) :
  let ps := (init ++ [p])%list in
  let once := shutdown (map Shutdown ps) st in
  let twice := shutdown (map Shutdown ps) (snd once) in
  shutdown [] st = (None, st) /\
  once = (outcome st (shut st ++ init) p,
          mkProviders (outcome st) (shut st ++ ps)) /\
  twice = (outcome st (shut st ++ ps ++ init) p,
           mkProviders (outcome st) (shut st ++ ps ++ ps)) /\
  (let fns := map Shutdown [TracerProvider; MeterProvider] in
   let start := mkProviders meter_refuses_second [] in
   fst (shutdown fns start) = None /\
   fst (shutdown fns (snd (shutdown fns start))) =
     Some (Errorf "reader is shutdown")).
Proof.
  intros ps once twice. subst ps once twice. unfold shutdown.
  split; [reflexivity|].
  rewrite !shutdown_loop_pipelines. cbn [snd outcome shut].
  split; [reflexivity|]. split; [now rewrite <- !app_assoc|].
  split; reflexivity.
Qed.


End ShutdownProperties.

(** ** middleware.go: the two events *)

Section Events.
Import Middleware.
Context {W : Type} `{ResponseWriter W}.

Lemma body_calls_from (cs : list WriterCall) (rw : responseWriter W) :
  body (calls cs rw) =
  fold_left (fun buf c => match c with CallWrite b => buf ++ b | _ => buf end)
            cs (body rw).
Proof.
  revert rw. induction cs as [|c cs IH]; intros rw; [reflexivity|].
  unfold calls in *. cbn [fold_left]. rewrite IH. now destruct c.
Qed.

Lemma statusCode_calls (cs : list WriterCall) (rw : responseWriter W) :
  statusCode (calls cs rw) = last_WriteHeader cs (statusCode rw).
Proof.
  revert rw. induction cs as [|c cs IH]; intros rw; [reflexivity|].
  unfold calls, last_WriteHeader in *. cbn [fold_left]. rewrite IH. now destruct c.
Qed.

Lemma middleware_span (next : Handler) (w : W) (r : Request) (st : World) :
  let run := next (fst (capture_request r st)) (snd (capture_request r st)) in
  span (snd (fst (BodyTracingMiddleware next w r st))) =
    if panicked run then span (world run)
    else if 0 <? len (written_bytes (written run))
         then (span (world run) ++
               [response_body_event (written_bytes (written run))
                  (last_WriteHeader (written run) 200)])%list
         else span (world run).
Proof.
  intros run. subst run. unfold BodyTracingMiddleware.
  destruct (capture_request r st) as [r1 st1]. cbn [fst snd].
  rewrite body_calls_from, statusCode_calls. cbn [body statusCode].
  fold (written_bytes (written (next r1 st1))).
  destruct (panicked (next r1 st1)); [reflexivity|].
  now destruct (0 <? len _).
Qed.

(** X11: after a handler that returns, the middleware adds one
    [http.response.body] event to what the handler left on the span exactly
    when the handler wrote at least one byte; the event carries all the bytes
    of the handler's [Write] calls in order, their number, and the code of
    its last [WriteHeader] call, 200 when it made none. After a handler that
    panics nothing is added. *)
Theorem X11_response_body_event (next : Handler) (w : W) (r : Request) (st : World) :
  let run := next (fst (capture_request r st)) (snd (capture_request r st)) in
  let buffered := written_bytes (written run) in
  span (snd (fst (BodyTracingMiddleware next w r st))) =
    if panicked run then span (world run)
    else if 0 <? len buffered
         then (span (world run) ++
               [response_body_event buffered (last_WriteHeader (written run) 200)])%list
         else span (world run).
Proof.
  intros run buffered. subst run buffered. unfold BodyTracingMiddleware.
  destruct (capture_request r st) as [r1 st1]. cbn [fst snd].
  rewrite body_calls_from, statusCode_calls. cbn [body statusCode].
  fold (written_bytes (written (next r1 st1))).
  destruct (panicked (next r1 st1)); [reflexivity|].
  now destruct (0 <? len _).
Qed.

End Events.

Section RequestEvent.
Import Middleware.

(** X12: before the handler runs, the middleware adds one
    [http.request.body] event, with the whole body and its length, exactly
    when the body is not nil, the method is neither GET nor DELETE and the
    body reads to its end without error; in every other case the span is
    left as it was. The store and the metrics are never touched. *)
Theorem X12_request_body_event (r : Request) (st : World) :
  let st1 := snd (capture_request r st) in
  db st1 = db st /\ metrics st1 = metrics st /\
  (forall rbody bodyBytes rest,
     Body r = Some rbody -> Method r <> "GET" -> Method r <> "DELETE" ->
     ReadAll rbody = ((bodyBytes, None), rest) ->
     span st1 = (span st ++ [request_body_event bodyBytes])%list) /\
  (Body r = None \/ Method r = "GET" \/ Method r = "DELETE" \/
   (exists rbody e, Body r = Some rbody /\ snd (fst (ReadAll rbody)) = Some e) ->
   st1 = st).
Proof.
  intros st1. subst st1.
  destruct (capture_request_frame r st) as (_ & _ & Hdb & Hm).
  split; [exact Hdb|]. split; [exact Hm|]. unfold capture_request. split.
  - intros rbody bodyBytes rest Hbody Hget Hdel Hread. rewrite Hbody.
    apply String.eqb_neq in Hget, Hdel. rewrite Hget, Hdel. cbn [negb andb].
    now rewrite Hread.
  - intros [Hnil | [Hget | [Hdel | (rbody & e & Hbody & Herr)]]].
    + now rewrite Hnil.
    + rewrite Hget. now destruct (Body r).
    + rewrite Hdel. now destruct (Body r).
    + rewrite Hbody. destruct (negb _ && negb _); [|reflexivity].
      destruct (ReadAll rbody) as [[bs err] rest]. cbn [fst snd] in Herr.
      now rewrite Herr.
Qed.

End RequestEvent.

(** ** handlers.go and main.go: every answer of the server *)

Section Answers.
Variable encodeTask : Database.Task -> string.
Variable decodeTitle : Reader -> option string.

Let GetTasks := Server.GetTasks encodeTask.
Let CreateTask := Server.CreateTask encodeTask decodeTitle.
Let CompleteTask := Server.CompleteTask encodeTask.
Let tasks_route := Server.tasks_route encodeTask decodeTitle.
Let task_route := Server.task_route encodeTask.

Ltac split_run :=
  repeat match goal with
         | |- context [let '(_, _) := ?x in _] => destruct x
         | |- context [match ?x with _ => _ end] => destruct x eqn:?
         | |- context [if ?b then _ else _] => destruct b eqn:?
         end.

Ltac one_of_the_codes :=
  cbn; solve [repeat (first [left; reflexivity | right])].

Ltac name_reply :=
  first
    [ exists Preflight; split; [reflexivity | split; [reflexivity | exact I]]
    | exists NoContent; split; [reflexivity | split; [reflexivity | exact I]]
    | eexists (Refusal true _ _);
      split; [reflexivity | split; [reflexivity | one_of_the_codes]]
    | eexists (Document true _); split; [reflexivity | split; [reflexivity | exact I]]
    | eexists (Document false _); split; [reflexivity | split; [reflexivity | exact I]] ].

Lemma GetTasks_replies (r : Request) (st : World) :
  panicked (GetTasks r st) = false -> replies (GetTasks r st).
Proof.
  unfold replies, GetTasks, Server.GetTasks. split_run; intros Hp;
    try discriminate; name_reply.
Qed.

Lemma CreateTask_replies (r : Request) (st : World) :
  panicked (CreateTask r st) = false -> replies (CreateTask r st).
Proof.
  unfold replies, CreateTask, Server.CreateTask. split_run; intros Hp;
    try discriminate; name_reply.
Qed.

Lemma DeleteTask_replies (r : Request) (st : World) :
  panicked (Server.DeleteTask r st) = false -> replies (Server.DeleteTask r st).
Proof.
  unfold replies, Server.DeleteTask. split_run; intros Hp;
    try discriminate; name_reply.
Qed.

Lemma CompleteTask_replies (r : Request) (st : World) :
  panicked (CompleteTask r st) = false -> replies (CompleteTask r st).
Proof.
  unfold replies, CompleteTask, Server.CompleteTask. split_run; intros Hp;
    try discriminate; name_reply.
Qed.

(** A route answers as one of its handlers, or refuses by itself. *)
Lemma tasks_route_replies (r : Request) (st : World) :
  panicked (tasks_route r st) = false ->
  exists a, written (tasks_route r st) = reply_calls a /\ reply_ok a.
Proof.
  unfold tasks_route, Server.tasks_route.
  destruct (_ || _).
  - intros Hp. destruct (GetTasks_replies r st Hp) as (a & Hw & _ & Hok). now exists a.
  - destruct (String.eqb (Method r) "POST").
    + intros Hp. destruct (CreateTask_replies r st Hp) as (a & Hw & _ & Hok).
      now exists a.
    + intros _. eexists (Refusal false _ _). split; [reflexivity | one_of_the_codes].
Qed.

Lemma task_route_replies (r : Request) (st : World) :
  panicked (task_route r st) = false ->
  exists a, written (task_route r st) = reply_calls a /\ reply_ok a.
Proof.
  unfold task_route, Server.task_route.
  destruct (_ || _).
  - intros Hp. destruct (DeleteTask_replies r st Hp) as (a & Hw & _ & Hok). now exists a.
  - destruct (_ && _).
    + destruct (slice_from (Path r) (len "/tasks/")) as [pathSuffix|]; [|discriminate].
      destruct (0 <? len pathSuffix).
      * destruct (slice_from pathSuffix (len pathSuffix - 9)) as [tail|]; [|discriminate].
        destruct (String.eqb tail "/complete").
        -- intros Hp. destruct (CompleteTask_replies r st Hp) as (a & Hw & _ & Hok).
           now exists a.
        -- intros _. eexists (Refusal false _ _). split; [reflexivity | one_of_the_codes].
      * intros _. eexists (Refusal false _ _). split; [reflexivity | one_of_the_codes].
    + intros _. eexists (Refusal false _ _). split; [reflexivity | one_of_the_codes].
Qed.

(** What each shape of answer gives the client and the wrapper. *)
Lemma reply_received (a : Reply) :
  reply_ok a ->
  status (calls (reply_calls a) no_response) = Some (reply_status a) /\
  sent (calls (reply_calls a) no_response) = reply_body a /\
  last_WriteHeader (reply_calls a) 200 = reply_status a /\
  written_bytes (reply_calls a) = reply_body a /\
  (reply_cors a = true -> has_CORS (calls (reply_calls a) no_response)).
Proof.
  destruct a as [|cors msg code|created text|]; intros Hok.
  - repeat split; cbn; tauto.
  - assert (Hallowed : bodyAllowedForStatus code = true).
    { cbn in Hok. destruct Hok as [<- | [<- | [<- | [<- | []]]]]; reflexivity. }
    destruct cors; unfold reply_calls, calls; cbn;
      unfold response_Write, response_WriteHeader; cbn; rewrite Hallowed;
      repeat split; cbn; try tauto; try discriminate.
  - destruct created; unfold reply_calls, calls; cbn;
      unfold response_Write, response_WriteHeader; cbn; repeat split; cbn; tauto.
  - repeat split; cbn; tauto.
Qed.

(** To a HEAD request the server's writer sends the status line and the
    header it sends to any other request, and no body. *)
Lemma call_to_HEAD (c : WriterCall) (w w' : Response) :
  head w = true /\ head w' = false /\ sent w = "" /\
  header w = header w' /\ status w = status w' /\ sent_header w = sent_header w' ->
  head (call w c) = true /\ head (call w' c) = false /\ sent (call w c) = "" /\
  header (call w c) = header (call w' c) /\ status (call w c) = status (call w' c) /\
  sent_header (call w c) = sent_header (call w' c).
Proof.
  destruct w as [h hd st sh body], w' as [h' hd' st' sh' body'].
  cbn [head header status sent_header sent].
  intros (-> & -> & -> & <- & <- & <-).
  destruct c as [k v | code | b]; cbn; unfold response_Write, response_WriteHeader;
    cbn [head header status sent_header sent].
  - now repeat split.
  - destruct st; cbn; now repeat split.
  - destruct st as [code|]; cbn [head header status sent_header sent].
    + rewrite andb_false_r, andb_true_r.
      destruct (bodyAllowedForStatus code); cbn; now repeat split.
    + cbn. now repeat split.
Qed.

Lemma calls_to_HEAD (cs : list WriterCall) (w w' : Response) :
  head w = true /\ head w' = false /\ sent w = "" /\
  header w = header w' /\ status w = status w' /\ sent_header w = sent_header w' ->
  sent (calls cs w) = "" /\
  status (calls cs w) = status (calls cs w') /\
  sent_header (calls cs w) = sent_header (calls cs w').
Proof.
  revert w w'. induction cs as [|c cs IH]; intros w w' Hsame.
  - tauto.
  - unfold calls in *. cbn [fold_left]. apply IH. now apply call_to_HEAD.
Qed.

Lemma respond_to_any_method (r : Request) (run : Run) :
  status (respond_to r run) = status (respond run) /\
  sent_header (respond_to r run) = sent_header (respond run) /\
  sent (respond_to r run) =
    if String.eqb (Method r) "HEAD" then "" else sent (respond run).
Proof.
  unfold respond_to, respond, response_to.
  destruct (String.eqb (Method r) "HEAD"); [|now repeat split].
  destruct (calls_to_HEAD (written run) no_response_to_HEAD no_response)
    as (Hsent & Hstatus & Hheader); [now repeat split|].
  now repeat split.
Qed.

Lemma middleware_on_reply (route : Handler) (r : Request) (st : World) :
  (forall r' st', panicked (route r' st') = false ->
                  exists a, written (route r' st') = reply_calls a /\ reply_ok a) ->
  let run := route (fst (Middleware.capture_request r st))
                   (snd (Middleware.capture_request r st)) in
  let out := Middleware.BodyTracingMiddleware route (response_to r) r st in
  panicked run = false ->
  exists code,
    In code [200; 201; 204; 400; 404; 405; 500] /\
    status (fst (fst out)) = Some code /\
    sent (fst (fst out)) =
      (if String.eqb (Method r) "HEAD" then "" else written_bytes (written run)) /\
    span (snd (fst out)) =
      if 0 <? len (written_bytes (written run))
      then (span (world run) ++
            [response_body_event (written_bytes (written run)) code])%list
      else span (world run).
Proof.
  intros Hroute run out Hp.
  destruct (Hroute _ _ Hp) as (a & Hw & Hok). fold run in Hw.
  destruct (reply_received a Hok) as (Hstatus & Hsent & Hlast & Hbytes & _).
  pose proof (middleware_span route (response_to r) r st) as Hspan.
  cbn zeta in Hspan. fold run in Hspan. fold out in Hspan. rewrite Hp in Hspan.
  destruct (middleware_runs_next route (response_to r) r st) as (Hout & _).
  fold run in Hout. fold out in Hout.
  destruct (respond_to_any_method r run) as (Hst & _ & Hbody).
  unfold respond_to, respond in Hst, Hbody.
  exists (reply_status a).
  rewrite Hout, Hspan, Hst, Hbody, Hw, Hstatus, Hsent, Hlast, Hbytes.
  repeat split.
  destruct a as [|cors msg code|[|] text|]; cbn in *; tauto.
Qed.

(** X13: every request that the routes under ["/tasks"] and ["/tasks/"]
    answer gets one of the status codes 200, 201, 204, 400, 404, 405 and
    500. The body sent is the bytes the route wrote, except that a HEAD
    request is sent no body. The [http.response.body] event is added
    exactly when the route wrote a body, sent or not, and it records the
    bytes written and the status code sent. *)
Theorem X13_answer_and_event_agree (r : Request) (st : World) :
  let r1 := fst (Middleware.capture_request r st) in
  let st1 := snd (Middleware.capture_request r st) in
  (let run := tasks_route r1 st1 in
   let out := Middleware.BodyTracingMiddleware tasks_route (response_to r) r st in
   panicked run = false ->
   exists code,
     In code [200; 201; 204; 400; 404; 405; 500] /\
     status (fst (fst out)) = Some code /\
     sent (fst (fst out)) =
       (if String.eqb (Method r) "HEAD" then "" else written_bytes (written run)) /\
     span (snd (fst out)) =
       if 0 <? len (written_bytes (written run))
       then (span (world run) ++
             [response_body_event (written_bytes (written run)) code])%list
       else span (world run)) /\
  (let run := task_route r1 st1 in
   let out := Middleware.BodyTracingMiddleware task_route (response_to r) r st in
   panicked run = false ->
   exists code,
     In code [200; 201; 204; 400; 404; 405; 500] /\
     status (fst (fst out)) = Some code /\
     sent (fst (fst out)) =
       (if String.eqb (Method r) "HEAD" then "" else written_bytes (written run)) /\
     span (snd (fst out)) =
       if 0 <? len (written_bytes (written run))
       then (span (world run) ++
             [response_body_event (written_bytes (written run)) code])%list
       else span (world run)).
Proof.
  intros r1 st1. split.
  - apply (middleware_on_reply tasks_route r st). apply tasks_route_replies.
  - apply (middleware_on_reply task_route r st). apply task_route_replies.
Qed.

Lemma handler_has_CORS (run : Run) : replies run -> has_CORS (respond run).
Proof.
  intros (a & Hw & Hcors & Hok). unfold respond. rewrite Hw.
  now apply reply_received.
Qed.

(** X14: whatever the request, the answer of each of the four handlers
    carries the three CORS headers of [enableCORS] (unless [CreateTask]
    panics on a nil body). The 405 that the router under ["/tasks"] writes by
    itself, for a method other than GET, OPTIONS and POST, carries none of
    them. *)
Theorem X14_CORS_headers (r : Request) (st : World) :
  has_CORS (respond (GetTasks r st)) /\
  (panicked (CreateTask r st) = false -> has_CORS (respond (CreateTask r st))) /\
  has_CORS (respond (Server.DeleteTask r st)) /\
  has_CORS (respond (CompleteTask r st)) /\
  (Method r <> "GET" -> Method r <> "OPTIONS" -> Method r <> "POST" ->
   status (respond (tasks_route r st)) = Some 405 /\
   sent_header (respond (tasks_route r st)) =
     [("Content-Type", "text/plain; charset=utf-8");
      ("X-Content-Type-Options", "nosniff")]).
Proof.
  assert (Hget : panicked (GetTasks r st) = false).
  { unfold GetTasks, Server.GetTasks. split_run; reflexivity. }
  assert (Hdel : panicked (Server.DeleteTask r st) = false).
  { unfold Server.DeleteTask. split_run; reflexivity. }
  assert (Hcomp : panicked (CompleteTask r st) = false).
  { unfold CompleteTask, Server.CompleteTask. split_run; reflexivity. }
  split; [apply handler_has_CORS, GetTasks_replies, Hget|].
  split; [intros Hp; apply handler_has_CORS, CreateTask_replies, Hp|].
  split; [apply handler_has_CORS, DeleteTask_replies, Hdel|].
  split; [apply handler_has_CORS, CompleteTask_replies, Hcomp|].
  intros H1 H2 H3. apply String.eqb_neq in H1, H2, H3.
  unfold tasks_route, Server.tasks_route. rewrite H1, H2, H3. cbn [orb].
  split; reflexivity.
Qed.

Lemma status_Error (msg : string) (code : Z) (st : World) :
  status (respond (returns (Server.enableCORS ++ Http.Error msg code) st)) = Some code.
Proof. exact (f_equal fst (respond_Error msg code st)). Qed.

Lemma status_JSON (code : Z) (text : string) (st : World) :
  bodyAllowedForStatus code = true ->
  status (respond (returns (Server.enableCORS ++
                            [ CallHeaderSet "Content-Type" "application/json";
                              CallWriteHeader code; CallWrite text ]) st)) = Some code.
Proof. intros Hb. exact (f_equal fst (respond_JSON code text st Hb)). Qed.

(** X15: a request that gets past validation is counted once and timed
    once, whatever the store does: a POST /tasks with a non-empty title, a
    DELETE with a numeric identifier and a completion with a numeric
    identifier each record exactly one increment and one duration, tagged
    with the method, the endpoint template (not the path of the request) and
    the status code that was sent. *)
Theorem X15_store_requests_recorded_once (r : Request) (st : World) :
  (forall rbody title,
     Method r = "POST" -> Body r = Some rbody ->
     decodeTitle rbody = Some title -> title <> "" ->
     recorded_once "POST" "/tasks" st (CreateTask r st)) /\
  (forall id,
     Method r = "DELETE" -> Atoi (TrimPrefix (Path r) "/tasks/") = Some id ->
     recorded_once "DELETE" "/tasks/:id" st (Server.DeleteTask r st)) /\
  (forall id,
     Method r = "POST" ->
     Atoi (TrimSuffix (TrimPrefix (Path r) "/tasks/") "/complete") = Some id ->
     recorded_once "POST" "/tasks/:id/complete" st (CompleteTask r st)).
Proof.
  unfold recorded_once, request_attrs. split; [|split].
  - intros rbody title Hm Hb Hdec Hne.
    unfold CreateTask, Server.CreateTask. rewrite Hm, Hb, Hdec.
    apply String.eqb_neq in Hne. rewrite Hne.
    change (String.eqb "POST" "OPTIONS") with false.
    change (String.eqb "POST" "POST") with true. cbn [negb].
    destruct (Database.CreateTask title _) as [[task | e] c].
    + eexists. split; [now apply status_JSON|].
      cbn. now rewrite <- ?app_assoc.
    + eexists. split; [apply status_Error|].
      cbn. now rewrite <- ?app_assoc.
  - intros id Hm Hid. unfold Server.DeleteTask. rewrite Hm, Hid.
    change (String.eqb "DELETE" "OPTIONS") with false.
    change (String.eqb "DELETE" "DELETE") with true. cbn [negb].
    destruct (Database.DeleteTask id _) as [[[|msg]|] c]; cbn [is_ErrNoRows].
    + eexists. split; [apply status_Error|].
      cbn. now rewrite <- ?app_assoc.
    + eexists. split; [apply status_Error|].
      cbn. now rewrite <- ?app_assoc.
    + eexists. split; [reflexivity|]. cbn. now rewrite <- ?app_assoc.
  - intros id Hm Hid. unfold CompleteTask, Server.CompleteTask. rewrite Hm, Hid.
    change (String.eqb "POST" "OPTIONS") with false.
    change (String.eqb "POST" "POST") with true. cbn [negb].
    destruct (Database.CompleteTask id _) as [[task | [|msg]] c]; cbn [is_ErrNoRows].
    + eexists. split; [|cbn; now rewrite <- ?app_assoc].
      unfold respond. cbn. unfold response_Write, response_WriteHeader. now cbn.
    + eexists. split; [apply status_Error|].
      cbn. now rewrite <- ?app_assoc.
    + eexists. split; [apply status_Error|].
      cbn. now rewrite <- ?app_assoc.
Qed.

Ltac untouched :=
  split_run; intros [Hs | [Hs | Hs]];
  first [ reflexivity
        | vm_compute in Hs; discriminate
        | match goal with
          | Hm : String.eqb (Method _) "OPTIONS" = false |- _ =>
              rewrite Hs in Hm; discriminate
          end ].

(** X16: a request answered 400 or 405 by a handler, and every preflight
    (OPTIONS), leaves the world as it was: no statement is sent to the
    store, nothing is put on the span and nothing is recorded. *)
Theorem X16_refusals_leave_the_world_untouched (r : Request) (st : World) :
  (forall run, In run [GetTasks r st; CreateTask r st;
                       Server.DeleteTask r st; CompleteTask r st] ->
     status (respond run) = Some 400 \/ status (respond run) = Some 405 \/
     Method r = "OPTIONS" ->
     world run = st).
Proof.
  intros run [<- | [<- | [<- | [<- | []]]]].
  - unfold GetTasks, Server.GetTasks. untouched.
  - unfold CreateTask, Server.CreateTask. untouched.
  - unfold Server.DeleteTask. untouched.
  - unfold CompleteTask, Server.CompleteTask. untouched.
Qed.

Lemma drop_app (s t : string) : drop (String.length s) (s ++ t) = t.
Proof. induction s as [|c s IH]; cbn; [now destruct t | exact IH]. Qed.

Lemma length_drop (n : nat) (s : string) :
  String.length (drop n s) = (String.length s - n)%nat.
Proof.
  revert s. induction n as [|n IH]; intros s; cbn [drop].
  - now rewrite Nat.sub_0_r.
  - destruct s as [|c s]; [reflexivity|]. cbn [String.length]. now rewrite IH.
Qed.

Lemma substring_app (s t : string) : String.substring 0 (String.length s) (s ++ t) = s.
Proof.
  induction s as [|c s IH]; cbn.
  - now destruct t.
  - now rewrite IH.
Qed.

Lemma prefix_app (s t : string) : String.prefix s (s ++ t) = true.
Proof.
  induction s as [|c s IH]; cbn.
  - now destruct t.
  - destruct (ascii_dec c c); [exact IH | congruence].
Qed.

Lemma TrimPrefix_app (p s : string) : TrimPrefix (p ++ s) p = s.
Proof. unfold TrimPrefix. now rewrite prefix_app, drop_app. Qed.

Lemma TrimSuffix_app (s suf : string) : TrimSuffix (s ++ suf) suf = s.
Proof.
  unfold TrimSuffix, HasSuffix. rewrite length_app.
  replace (String.length s + String.length suf - String.length suf)%nat
    with (String.length s) by lia.
  rewrite drop_app, String.eqb_refl.
  replace (String.length suf <=? String.length s + String.length suf)%nat with true
    by (symmetry; apply Nat.leb_le; lia).
  cbn [andb]. apply substring_app.
Qed.

Lemma slice_from_tail (s t : string) :
  slice_from (s ++ t) (len (s ++ t) - len t) = Some t.
Proof.
  unfold slice_from. rewrite len_app.
  replace (len s + len t - len t) with (len s) by lia.
  pose proof (len_nonneg s). pose proof (len_nonneg t).
  replace (len s <? 0) with false by (symmetry; apply Z.ltb_ge; lia).
  replace (len s + len t <? len s) with false by (symmetry; apply Z.ltb_ge; lia).
  cbn [orb]. unfold len. rewrite Nat2Z.id. now rewrite drop_app.
Qed.

(** X17: the route under ["/tasks/"] and the handler agree on a completion
    path: for a POST to [/tasks/<s>/complete] where [s] is a decimal
    identifier, the route runs [CompleteTask], which asks the store to
    complete that identifier and answers 200 with the record returned, 404
    when no row has that identifier (not 500), and 500 on any other error. *)
Theorem X17_complete_route (s : string) (id : Z) (rbody : option Reader) (st : World) :
  Atoi s = Some id ->
  let r := mkRequest "POST" ("/tasks/" ++ s ++ "/complete") rbody in
  task_route r st = CompleteTask r st /\
  status_and_body (task_route r st) =
    match fst (Database.CompleteTask id (db st)) with
    | inl task => (Some 200, encodeTask task ++ Server.newline)
    | inr ErrNoRows => (Some 404, "Task not found" ++ Server.newline)
    | inr (Errorf _) => (Some 500, "Internal server error" ++ Server.newline)
    end /\
  db (world (task_route r st)) = snd (Database.CompleteTask id (db st)).
Proof.
  intros Hid r.
  assert (Hroute : task_route r st = CompleteTask r st).
  { unfold task_route, Server.task_route. subst r. cbn [Method Path].
    change (String.eqb "POST" "DELETE") with false.
    change (String.eqb "POST" "OPTIONS") with false.
    change (String.eqb "POST" "POST") with true. cbn [orb andb].
    pose proof (len_nonneg s) as Hs.
    assert (Hlen : len (s ++ "/complete") = len s + 9) by (rewrite len_app; reflexivity).
    replace (len "/tasks/" <? len ("/tasks/" ++ s ++ "/complete")) with true
      by (symmetry; apply Z.ltb_lt; rewrite len_app, Hlen;
          change (len "/tasks/") with 7; lia).
    rewrite slice_from_tasks.
    replace (0 <? len (s ++ "/complete")) with true
      by (symmetry; apply Z.ltb_lt; lia).
    change 9 with (len "/complete"). rewrite slice_from_tail.
    reflexivity. }
  rewrite Hroute. unfold CompleteTask, Server.CompleteTask. subst r. cbn [Method Path].
  change (String.eqb "POST" "OPTIONS") with false.
  change (String.eqb "POST" "POST") with true. cbn [negb].
  rewrite TrimPrefix_app, TrimSuffix_app, Hid. cbn [db on_span].
  split; [reflexivity|].
  destruct (Database.CompleteTask id (db st)) as [[task | [|msg]] c];
    cbn [fst snd is_ErrNoRows].
  - split; [|reflexivity]. unfold status_and_body, respond. cbn.
    unfold response_Write, response_WriteHeader. now cbn.
  - split; [apply respond_Error | reflexivity].
  - split; [apply respond_Error | reflexivity].
Qed.

Lemma GetTasks_returns (r : Request) (st : World) : panicked (GetTasks r st) = false.
Proof. unfold GetTasks, Server.GetTasks. split_run; reflexivity. Qed.

Lemma DeleteTask_returns (r : Request) (st : World) :
  panicked (Server.DeleteTask r st) = false.
Proof. unfold Server.DeleteTask. split_run; reflexivity. Qed.

Lemma CompleteTask_returns (r : Request) (st : World) :
  panicked (CompleteTask r st) = false.
Proof. unfold CompleteTask, Server.CompleteTask. split_run; reflexivity. Qed.

Lemma CreateTask_panics (r : Request) (st : World) :
  Method r = "POST" ->
  (panicked (CreateTask r st) = true <-> Body r = None).
Proof.
  intros Hm. unfold CreateTask, Server.CreateTask. rewrite Hm.
  change (String.eqb "POST" "OPTIONS") with false.
  change (String.eqb "POST" "POST") with true. cbn [negb].
  destruct (Body r) as [rbody|].
  - split; [|discriminate]. split_run; discriminate.
  - split; reflexivity.
Qed.

Lemma capture_request_nil (r : Request) (st : World) :
  Body (fst (Middleware.capture_request r st)) = None <-> Body r = None.
Proof.
  unfold Middleware.capture_request. destruct (Body r) as [rbody|] eqn:Hb.
  - destruct (negb _ && negb _).
    + destruct (ReadAll rbody) as [[bs [e|]] rest]; cbn; split; discriminate.
    + cbn [fst]. rewrite Hb. split; discriminate.
  - cbn [fst]. now rewrite Hb.
Qed.

Lemma slice_from_some (s : string) (i : Z) :
  0 <= i <= len s -> slice_from s i = Some (drop (Z.to_nat i) s).
Proof.
  intros [H0 Hi]. unfold slice_from.
  replace (i <? 0) with false by (symmetry; apply Z.ltb_ge; lia).
  replace (len s <? i) with false by (symmetry; apply Z.ltb_ge; lia).
  reflexivity.
Qed.

Lemma len_drop (n : nat) (s : string) :
  (n <= String.length s)%nat -> len (drop n s) = len s - Z.of_nat n.
Proof. intros Hn. unfold len. rewrite length_drop. lia. Qed.

Lemma task_route_panics (r : Request) (st : World) :
  panicked (task_route r st) = true <->
  Method r = "POST" /\ len "/tasks/" < len (Path r) < len "/tasks/" + 9.
Proof.
  unfold task_route, Server.task_route. change (len "/tasks/") with 7.
  destruct (String.eqb_spec (Method r) "DELETE") as [Hd | Hd].
  { cbn [orb]. rewrite DeleteTask_returns. split; [discriminate|].
    intros [Hm _]. rewrite Hm in Hd. discriminate. }
  destruct (String.eqb_spec (Method r) "OPTIONS") as [Ho | Ho].
  { cbn [orb]. rewrite DeleteTask_returns. split; [discriminate|].
    intros [Hm _]. rewrite Hm in Ho. discriminate. }
  cbn [orb].
  destruct (String.eqb_spec (Method r) "POST") as [Hm | Hm];
    [|cbn [andb]; split; [discriminate | intros [Hm' _]; contradiction]].
  cbn [andb]. destruct (Z.ltb_spec 7 (len (Path r))) as [Hlong | Hshort];
    [|split; [discriminate | intros [_ [Hl _]]; lia]].
  rewrite slice_from_some by lia.
  assert (Hlen : len (drop (Z.to_nat 7) (Path r)) = len (Path r) - 7).
  { rewrite len_drop; [lia|]. unfold len in Hlong. lia. }
  set (pathSuffix := drop (Z.to_nat 7) (Path r)) in *.
  replace (0 <? len pathSuffix) with true by (symmetry; apply Z.ltb_lt; lia).
  destruct (Z.ltb_spec (len pathSuffix) 9) as [Hs | Hs].
  - rewrite slice_from_negative by lia. cbn. split; [intros _; split; [exact Hm | lia] | reflexivity].
  - rewrite slice_from_some by lia.
    destruct (String.eqb _ "/complete").
    + rewrite CompleteTask_returns. split; [discriminate | intros [_ [_ Hl]]; lia].
    + cbn. split; [discriminate | intros [_ [_ Hl]]; lia].
Qed.

Lemma tasks_served_panics (w : Response) (r : Request) (st : World) :
  snd (Middleware.BodyTracingMiddleware tasks_route w r st) = true <->
  Method r = "POST" /\ Body r = None.
Proof.
  destruct (capture_request_frame r st) as (Hmeth & _ & _ & _).
  pose proof (middleware_runs_next (Server.tasks_route encodeTask decodeTitle)
                w r st) as (_ & Hsnd & _).
  cbn zeta in Hsnd. fold tasks_route in Hsnd. rewrite Hsnd.
  unfold tasks_route, Server.tasks_route. rewrite Hmeth.
  destruct (String.eqb_spec (Method r) "GET") as [Hg | Hg].
  { cbn [orb]. fold GetTasks. rewrite GetTasks_returns.
    split; [discriminate | intros [Hm _]; rewrite Hm in Hg; discriminate]. }
  destruct (String.eqb_spec (Method r) "OPTIONS") as [Ho | Ho].
  { cbn [orb]. fold GetTasks. rewrite GetTasks_returns.
    split; [discriminate | intros [Hm _]; rewrite Hm in Ho; discriminate]. }
  cbn [orb]. destruct (String.eqb_spec (Method r) "POST") as [Hm | Hm].
  - fold CreateTask. rewrite CreateTask_panics by (now rewrite Hmeth).
    rewrite capture_request_nil. tauto.
  - cbn. split; [discriminate | intros [Hm' _]; contradiction].
Qed.

Lemma task_served_panics (w : Response) (r : Request) (st : World) :
  snd (Middleware.BodyTracingMiddleware task_route w r st) = true <->
  Method r = "POST" /\ len "/tasks/" < len (Path r) < len "/tasks/" + 9.
Proof.
  destruct (capture_request_frame r st) as (Hmeth & Hpath & _ & _).
  pose proof (middleware_runs_next (Server.task_route encodeTask) w r st)
    as (_ & Hsnd & _).
  cbn zeta in Hsnd. fold task_route in Hsnd.
  now rewrite Hsnd, task_route_panics, Hmeth, Hpath.
Qed.

(** X18: when the server fails to answer. For a request in origin form
    whose path is spelt without percent-encoding, the served request ends in
    a panic exactly when it is a POST whose path is in canonical form (the
    mux does not redirect it) and either the path is ["/tasks"] and the body
    is nil, or the path has between 1 and 8 bytes after ["/tasks/"]. Every
    other request that reaches one of the two routes is answered with a
    status code. *)
Theorem X18_when_the_server_panics (r : Request) (st : World)
    (d : Server.Dispatch) :
  Server.serve encodeTask decodeTitle (Path r) r st = Some d ->
  ((exists out, d = Server.Routed out /\ snd out = true) <->
   Method r = "POST" /\ cleanPath (Path r) = Path r /\
   ((Path r = "/tasks" /\ Body r = None) \/
    (String.prefix "/tasks/" (Path r) = true /\
     len "/tasks/" < len (Path r) < len "/tasks/" + 9))) /\
  (forall out, d = Server.Routed out -> snd out = false ->
     exists code, In code [200; 201; 204; 400; 404; 405; 500] /\
                  status (fst (fst out)) = Some code).
Proof.
  unfold Server.serve. rewrite String.eqb_refl. cbn [negb orb].
  destruct (String.prefix "/" (Path r)); [|discriminate]. cbn [negb].
  assert (Hredirect :
    negb (String.eqb (Method r) "CONNECT") &&
    negb (String.eqb (cleanPath (Path r)) (Path r)) = true ->
    ~ (Method r = "POST" /\ cleanPath (Path r) = Path r)).
  { intros Hb [Hm Hc]. rewrite Hc, String.eqb_refl, andb_false_r in Hb.
    discriminate. }
  assert (Hclean :
    negb (String.eqb (Method r) "CONNECT") &&
    negb (String.eqb (cleanPath (Path r)) (Path r)) = false ->
    Method r = "POST" -> cleanPath (Path r) = Path r).
  { intros Hb Hm. rewrite Hm in Hb.
    change (String.eqb "POST" "CONNECT") with false in Hb. cbn [negb andb] in Hb.
    apply negb_false_iff in Hb. now apply String.eqb_eq. }
  destruct (negb _ && negb _) eqn:Hmux.
  { intros [= <-]. split.
    - split.
      + intros (out & Heq & _). discriminate.
      + intros (Hm & Hc & _). exfalso. now apply (Hredirect eq_refl).
    - intros out Heq. discriminate. }
  specialize (Hclean eq_refl). clear Hredirect.
  destruct (String.eqb_spec (Path r) "/tasks") as [Hp | Hp].
  - intros [= <-]. split.
    + split.
      * intros (out & [= <-] & Hpanic).
        apply tasks_served_panics in Hpanic. destruct Hpanic as [Hm Hb].
        split; [exact Hm|]. split; [now apply Hclean|]. left. now split.
      * intros (Hm & _ & [[_ Hb] | [Hpre _]]).
        -- eexists. split; [reflexivity|]. now apply tasks_served_panics.
        -- rewrite Hp in Hpre. discriminate.
    + intros out [= <-] Hanswered.
      pose proof (middleware_runs_next (Server.tasks_route encodeTask decodeTitle)
                    (response_to r) r st) as (_ & Hsnd & _).
      cbn zeta in Hsnd. rewrite Hsnd in Hanswered.
      destruct (middleware_on_reply tasks_route r st tasks_route_replies Hanswered)
        as (code & Hin & Hstatus & _).
      exists code. now split.
  - destruct (String.prefix "/tasks/" (Path r)) eqn:Hpre.
    + intros [= <-]. split.
      * split.
        -- intros (out & [= <-] & Hpanic).
           apply task_served_panics in Hpanic. destruct Hpanic as [Hm Hl].
           split; [exact Hm|]. split; [now apply Hclean|]. right. now split.
        -- intros (Hm & _ & [[Hp' _] | [_ Hl]]); [contradiction|].
           eexists. split; [reflexivity|]. now apply task_served_panics.
      * intros out [= <-] Hanswered.
        pose proof (middleware_runs_next (Server.task_route encodeTask)
                      (response_to r) r st) as (_ & Hsnd & _).
        cbn zeta in Hsnd. rewrite Hsnd in Hanswered.
        destruct (middleware_on_reply task_route r st task_route_replies Hanswered)
          as (code & Hin & Hstatus & _).
        exists code. now split.
    + intros [= <-]. split.
      * split.
        -- intros (out & Heq & _). discriminate.
        -- intros (_ & _ & [[Hp' _] | [Hpre' _]]); [contradiction | discriminate].
      * intros out Heq. discriminate.
Qed.

End Answers.

(** ** http_client.go: the outbound exchange *)

Section Outbound.
Import Client.
Variable Do : OutRequest -> OutResponse + error.
Variable StatusText : Z -> string.
Variable Encode : list (string * string) -> string.

Let DoWithBodyCapture := DoWithBodyCapture Do StatusText.
Let notifyExternalAPI := notifyExternalAPI Do StatusText Encode.

Lemma ReadAll_NewReader (b : string) : ReadAll (NewReader b) = ((b, None), []).
Proof. cbn. now rewrite append_empty. Qed.

(** X19: looking at the bodies does not consume them. When the request has
    no body, or a body that reads to its end without error, the request
    handed to the transport has the method, URL, host and header of the
    original and a body with the same bytes; and when the transport answers
    with a body that reads to its end, the caller gets a response with the
    same status code and a body with the same bytes, still to be read. *)
Theorem X19_capture_does_not_consume (req : OutRequest) (span : list SpanCall) :
  (out_body req = None \/
   exists rbody bodyBytes rest,
     out_body req = Some rbody /\ ReadAll rbody = ((bodyBytes, None), rest)) ->
  let ex := DoWithBodyCapture req span in
  exists req',
    handed_to_Do ex = Some req' /\
    out_method req' = out_method req /\ out_url req' = out_url req /\
    out_host req' = out_host req /\ out_header req' = out_header req /\
    option_map (fun b => fst (ReadAll b)) (out_body req') =
      option_map (fun b => fst (ReadAll b)) (out_body req) /\
    forall resp responseBody rest,
      Do req' = inl resp ->
      ReadAll (resp_body resp) = ((responseBody, None), rest) ->
      exists resp',
        returned ex = inl resp' /\
        StatusCode resp' = StatusCode resp /\
        ReadAll (resp_body resp') = ((responseBody, None), []).
Proof.
  intros Hbody ex.
  assert (Hcap : exists req',
             out_method req' = out_method req /\ out_url req' = out_url req /\
             out_host req' = out_host req /\ out_header req' = out_header req /\
             option_map (fun b => fst (ReadAll b)) (out_body req') =
               option_map (fun b => fst (ReadAll b)) (out_body req) /\
             exists span',
               ex = match Do req' with
                    | inr e => mkExchange (inr e) (span' ++ [RecordError e]) (Some req')
                    | inl resp =>
                        let '((responseBody, err), _) := ReadAll (resp_body resp) in
                        match err with
                        | Some e =>
                            mkExchange (inr (wrap "failed to read response body" e))
                              (span' ++ [RecordError e]) (Some req')
                        | None =>
                            mkExchange
                              (inl (mkOutResponse (StatusCode resp) (NewReader responseBody)))
                              ((span' ++
                                [AddEvent "http.response.body"
                                   [("body", AString responseBody);
                                    ("size", AInt (len responseBody));
                                    ("status_code", AInt (StatusCode resp))]]) ++
                               [SetAttributes
                                  [("http.status_code", AInt (StatusCode resp));
                                   ("http.status_text",
                                    AString (StatusText (StatusCode resp)))]])
                              (Some req')
                        end
                    end).
  { subst ex. unfold DoWithBodyCapture, Client.DoWithBodyCapture.
    destruct Hbody as [Hnil | (rbody & bodyBytes & rest & Hb & Hread)].
    - rewrite Hnil. exists req. repeat (split; [now rewrite ?Hnil|]).
      eexists. reflexivity.
    - rewrite Hb, Hread. exists (with_out_body req (NewReader bodyBytes)).
      repeat (split; [reflexivity|]).
      split; [cbn [with_out_body out_body option_map];
              now rewrite ReadAll_NewReader, Hread|].
      eexists. reflexivity. }
  destruct Hcap as (req' & Hm & Hu & Hh & Hhd & Hcontent & span' & Hex).
  exists req'.
  assert (Hhanded : handed_to_Do ex = Some req').
  { rewrite Hex. destruct (Do req') as [resp | e]; [|reflexivity].
    now destruct (ReadAll (resp_body resp)) as [[responseBody [e|]] rest]. }
  repeat (split; [assumption|]).
  intros resp responseBody rest HDo Hread. rewrite Hex, HDo, Hread.
  eexists. split; [reflexivity|]. split; [reflexivity|]. apply ReadAll_NewReader.
Qed.

(** X20: how the outbound exchange fails. When the request body cannot be
    read, the error is returned wrapped, nothing is handed to the transport
    and the span is left as it was. An error of the transport is returned as
    it is. And whenever an error is returned after the transport was
    reached, the last call on the span is [RecordError], with the error of
    the transport or the read error of the response body. *)
Theorem X20_outbound_failures (req : OutRequest) (span : list SpanCall) :
  let ex := DoWithBodyCapture req span in
  (forall rbody e,
     out_body req = Some rbody -> snd (fst (ReadAll rbody)) = Some e ->
     returned ex = inr (wrap "failed to read request body" e) /\
     handed_to_Do ex = None /\ span_after ex = span) /\
  (forall req' e,
     handed_to_Do ex = Some req' -> Do req' = inr e -> returned ex = inr e) /\
  (forall req' err,
     handed_to_Do ex = Some req' -> returned ex = inr err ->
     exists e before,
       span_after ex = (before ++ [RecordError e])%list /\
       (err = e \/ err = wrap "failed to read response body" e)).
Proof.
  intros ex. subst ex. unfold DoWithBodyCapture, Client.DoWithBodyCapture.
  split; [|split].
  - intros rbody e Hb Herr. rewrite Hb.
    destruct (ReadAll rbody) as [[bs err] rest]. cbn [fst snd] in Herr. subst err.
    repeat split.
  - destruct (out_body req) as [rbody|].
    + destruct (ReadAll rbody) as [[bs [e0|]] rest]; [discriminate|].
      destruct (Do _) as [resp | e1] eqn:HDo.
      * destruct (ReadAll (resp_body resp)) as [[rb [e2|]] rest'];
          intros req' e [= <-] Habs; congruence.
      * intros req' e [= <-] Habs. cbn [returned]. congruence.
    + destruct (Do req) as [resp | e1] eqn:HDo.
      * destruct (ReadAll (resp_body resp)) as [[rb [e2|]] rest'];
          intros req' e [= <-] Habs; congruence.
      * intros req' e [= <-] Habs. cbn [returned]. congruence.
  - destruct (out_body req) as [rbody|].
    + destruct (ReadAll rbody) as [[bs [e0|]] rest]; [discriminate|].
      destruct (Do _) as [resp | e1].
      * destruct (ReadAll (resp_body resp)) as [[rb [e2|]] rest'];
          intros req' err _ [= <-]. do 2 eexists. split; [reflexivity | now right].
      * intros req' err _ [= <-]. do 2 eexists. split; [reflexivity | now left].
    + destruct (Do req) as [resp | e1].
      * destruct (ReadAll (resp_body resp)) as [[rb [e2|]] rest'];
          intros req' err _ [= <-]. do 2 eexists. split; [reflexivity | now right].
      * intros req' err _ [= <-]. do 2 eexists. split; [reflexivity | now left].
Qed.

(** X21: the notification after a creation is a GET without a body to
    httpbin.org, carrying the identifier and the title of the task in the
    query and in the [X-Task-ID] and [X-Task-Title] headers; it is always
    handed to the transport. When the exchange fails, the error is recorded
    twice on the notification span: by the client and again by
    [notifyExternalAPI]. When it succeeds, the span gets the request
    attributes, the response body event and the status attributes, and no
    request body event. *)
Theorem X21_notification (task : Database.Task) :
  let ex := snd (notifyExternalAPI task) in
  handed_to_Do ex =
    Some (mkOutRequest "GET"
            ("https://httpbin.org/get?" ++
             Encode [("task_id", Itoa (Database.ID task));
                     ("task_title", Database.Title task)])
            "httpbin.org"
            [("X-Task-ID", Itoa (Database.ID task));
             ("X-Task-Title", Database.Title task);
             ("User-Agent", "todo-app/1.0")]
            None) /\
  (forall err, returned ex = inr err ->
     exists e before,
       span_after ex = (before ++ [RecordError e; RecordError err])%list /\
       (err = e \/ err = wrap "failed to read response body" e)) /\
  (forall resp, returned ex = inl resp ->
     exists url responseBody,
       span_after ex =
         [ SetAttributes [("http.method", AString "GET"); ("http.url", AString url);
                          ("http.host", AString "httpbin.org")];
           AddEvent "http.response.body"
             [("body", AString responseBody); ("size", AInt (len responseBody));
              ("status_code", AInt (StatusCode resp))];
           SetAttributes [("http.status_code", AInt (StatusCode resp));
                          ("http.status_text", AString (StatusText (StatusCode resp)))] ]).
Proof.
  intros ex. subst ex.
  unfold notifyExternalAPI, Client.notifyExternalAPI, Client.DoWithBodyCapture.
  cbn [out_body out_method out_url out_host].
  destruct (Do _) as [resp | e1].
  - destruct (ReadAll (resp_body resp)) as [[rb [e2|]] rest']; cbn [returned snd].
    + split; [reflexivity|]. split.
      * intros err [= <-]. do 2 eexists. cbn [span_after].
        rewrite <- app_assoc. split; [reflexivity | now right].
      * intros resp0 Habs. discriminate.
    + split; [reflexivity|]. split; [intros err Habs; discriminate|].
      intros resp0 [= <-]. do 2 eexists. reflexivity.
  - cbn [returned snd]. split; [reflexivity|]. split.
    + intros err [= <-]. do 2 eexists. cbn [span_after].
      rewrite <- app_assoc. split; [reflexivity | now left].
    + intros resp0 Habs. discriminate.
Qed.

End Outbound.

(** ** frontend/app.js: the list of the page and the list of the server *)

Section Page.
Import Database.
Variable encodeTask : Task -> string.
Variable decodeTitle : Reader -> option string.

Lemma order_by_newest (l : list Task) (t : Task) :
  Forall (fun r => CreatedAt r < CreatedAt t) l ->
  order_by_created_at_desc (l ++ [t]) = t :: order_by_created_at_desc l.
Proof.
  induction l as [|x l IH]; intros Hold; [reflexivity|].
  inversion Hold as [|? ? Hx Hl]; subst.
  cbn [app order_by_created_at_desc]. rewrite (IH Hl). cbn [insert_desc].
  now rewrite (proj2 (Z.leb_gt (CreatedAt t) (CreatedAt x)) Hx).
Qed.

Lemma assign_first (id : Z) (l : list Task) :
  NoDup (map ID l) ->
  match Frontend.findIndex (fun task => ID task =? id) l with
  | Some i =>
      exists old, find (has_id id) l = Some old /\
                  Frontend.assign i (complete id old) l = map (complete id) l
  | None => map (complete id) l = l /\ find (has_id id) l = None
  end.
Proof.
  induction l as [|x l IH]; intros Hnd; [now split|].
  cbn [map] in Hnd. inversion Hnd as [|? ? Hx Hnd']; subst.
  cbn [Frontend.findIndex find]. fold (has_id id x).
  destruct (has_id id x) eqn:Hid.
  - exists x. split; [reflexivity|]. cbn [Frontend.assign map]. f_equal.
    symmetry. apply map_complete_done_or_absent.
    intros u Hu Hu'. exfalso. apply Hx. apply has_id_true in Hid.
    apply in_map_iff. exists u. split; [congruence | exact Hu].
  - specialize (IH Hnd').
    destruct (Frontend.findIndex _ l) as [i|]; cbn [option_map].
    + destruct IH as (old & Hfind & Hassign). exists old. split; [exact Hfind|].
      cbn [Frontend.assign map]. rewrite Hassign. f_equal.
      unfold complete. now rewrite Hid.
    + destruct IH as [Hmap Hfind]. split; [|exact Hfind].
      cbn [map]. rewrite Hmap. f_equal. unfold complete. now rewrite Hid.
Qed.

Lemma same_id_same_row (l : list Task) (a b : Task) :
  NoDup (map ID l) -> In a l -> In b l -> ID a = ID b -> a = b.
Proof.
  induction l as [|x l IH]; intros Hnd Ha Hb Hid; [contradiction|].
  cbn [map] in Hnd. inversion Hnd as [|? ? Hx Hnd']; subst.
  destruct Ha as [-> | Ha], Hb as [-> | Hb]; try reflexivity.
  - exfalso. apply Hx. apply in_map_iff. exists b. now split.
  - exfalso. apply Hx. apply in_map_iff. exists a. now split.
  - now apply IH.
Qed.

Lemma listing_keys (c : conn) :
  well_keyed c -> NoDup (map ID (order_by_created_at_desc (rows c))).
Proof.
  intros [Hnd _].
  eapply Permutation_NoDup; [|exact Hnd].
  apply Permutation_map. symmetry. apply order_by_perm.
Qed.

Lemma CompleteTask_handler (id : Z) (path : string) (rbody : option Reader) (st : World) :
  Atoi (TrimSuffix (TrimPrefix path "/tasks/") "/complete") = Some id ->
  status_and_body (Server.CompleteTask encodeTask (mkRequest "POST" path rbody) st) =
    match fst (Database.CompleteTask id (db st)) with
    | inl task => (Some 200, encodeTask task ++ Server.newline)
    | inr ErrNoRows => (Some 404, "Task not found" ++ Server.newline)
    | inr (Errorf _) => (Some 500, "Internal server error" ++ Server.newline)
    end /\
  db (world (Server.CompleteTask encodeTask (mkRequest "POST" path rbody) st)) =
    snd (Database.CompleteTask id (db st)).
Proof.
  intros Hid. unfold Server.CompleteTask. cbn [Method Path].
  change (String.eqb "POST" "OPTIONS") with false.
  change (String.eqb "POST" "POST") with true. cbn [negb].
  rewrite Hid. cbn [db on_span].
  destruct (Database.CompleteTask id (db st)) as [[task | [|msg]] c];
    cbn [fst snd is_ErrNoRows].
  - split; [|reflexivity]. unfold status_and_body, respond. cbn.
    unfold response_Write, response_WriteHeader. now cbn.
  - split; [apply respond_Error | reflexivity].
  - split; [apply respond_Error | reflexivity].
Qed.

Lemma CompleteTask_outcome (id : Z) (c : conn) :
  fault c = None ->
  rows (snd (CompleteTask id c)) = map (complete id) (rows c) /\
  fault (snd (CompleteTask id c)) = None /\
  match fst (CompleteTask id c) with
  | inl task => exists old, In old (rows c) /\ ID old = id /\ task = complete id old
  | inr e => e = ErrNoRows /\ forall u, In u (rows c) -> ID u <> id
  end.
Proof.
  intros Hf. unfold CompleteTask. rewrite Hf. rewrite filter_map_complete.
  destruct (filter (has_id id) (rows c)) as [|old l] eqn:Hfil; cbn [map fst snd].
  - repeat split; try assumption. intros u Hu Hid.
    assert (Hin : In u (filter (has_id id) (rows c)))
      by (apply filter_In; split; [exact Hu | now apply has_id_true]).
    now rewrite Hfil in Hin.
  - repeat split; try assumption. exists old.
    assert (Hin : In old (filter (has_id id) (rows c))) by (rewrite Hfil; now left).
    apply filter_In in Hin. destruct Hin as [Hin Hid].
    split; [exact Hin|]. split; [now apply has_id_true | reflexivity].
Qed.

Lemma DeleteTask_outcome (id : Z) (c : conn) :
  fault c = None ->
  rows (snd (DeleteTask id c)) = filter (fun t => negb (has_id id t)) (rows c) /\
  fault (snd (DeleteTask id c)) = None /\
  (fst (DeleteTask id c) = None \/
   fst (DeleteTask id c) = Some ErrNoRows /\ forall u, In u (rows c) -> ID u <> id).
Proof.
  intros Hf. unfold DeleteTask. rewrite Hf.
  destruct (filter (has_id id) (rows c)) as [|old l] eqn:Hfil.
  - cbn. repeat split; try assumption. right. split; [reflexivity|].
    intros u Hu Hid.
    assert (Hin : In u (filter (has_id id) (rows c)))
      by (apply filter_In; split; [exact Hu | now apply has_id_true]).
    now rewrite Hfil in Hin.
  - replace (Z.of_nat (List.length (old :: l)) =? 0) with false
      by (symmetry; apply Z.eqb_neq; cbn [List.length]; lia).
    cbn. repeat split; try assumption. now left.
Qed.

(** X22: the list of the page follows the list of the server. Let the page
    hold the list the server would give, on a store that works and keeps its
    primary key, and let the JSON of an answer parse back to the record the
    store returned. Then after a DELETE, after a completion, and after a
    creation in a store whose rows are all older than its clock, whatever
    the status of the answer, the list the page computes for itself is the
    list the server would give now. *)
Theorem X22_page_list_follows_server (c : conn) (st : World) (id : Z)
    (path : string) (rbody : option Reader) :
  well_keyed c -> fault c = None -> db st = c ->
  (Atoi (TrimPrefix path "/tasks/") = Some id ->
   let run := Server.DeleteTask (mkRequest "DELETE" path rbody) st in
   forall code, status (respond run) = Some code ->
     Frontend.deleteTask id code (listing c) = listing (db (world run))) /\
  (Atoi (TrimSuffix (TrimPrefix path "/tasks/") "/complete") = Some id ->
   let run := Server.CompleteTask encodeTask (mkRequest "POST" path rbody) st in
   forall code updatedTask, status (respond run) = Some code ->
     (Frontend.ok code = true -> fst (CompleteTask id c) = inl updatedTask) ->
     Frontend.completeTask id code updatedTask (listing c) = listing (db (world run))) /\
  (forall rb title, decodeTitle rb = Some title -> title <> "" ->
   Forall (fun r => CreatedAt r < clock c) (rows c) ->
   let run := Server.CreateTask encodeTask decodeTitle
                (mkRequest "POST" "/tasks" (Some rb)) st in
   forall code newTask, status (respond run) = Some code ->
     (Frontend.ok code = true -> fst (CreateTask title c) = inl newTask) ->
     Frontend.createTask code newTask (listing c) = listing (db (world run))).
Proof.
  intros Hwk Hf Hdb. subst c. rewrite (listing_ok (db st) Hf).
  split; [|split].
  - intros Hid run code Hstatus.
    destruct (DeleteTask_handler id path rbody st Hid) as [Hsb Hworld].
    fold run in Hsb, Hworld. unfold status_and_body in Hsb. rewrite Hstatus in Hsb.
    destruct (DeleteTask_outcome id (db st) Hf) as (Hrows & Hf' & Hres).
    rewrite Hworld, (listing_ok _ Hf'), Hrows.
    destruct Hres as [Hnone | [Herr Hno]].
    + rewrite Hnone in Hsb. inversion Hsb; subst. cbn.
      symmetry. apply order_by_filter.
    + rewrite Herr in Hsb. inversion Hsb; subst. cbn.
      rewrite filter_all; [reflexivity|].
      intros u Hu. apply negb_true_iff, has_id_false. now apply Hno.
  - intros Hid run code updatedTask Hstatus Hjson.
    destruct (CompleteTask_handler id path rbody st Hid) as [Hsb Hworld].
    fold run in Hsb, Hworld. unfold status_and_body in Hsb. rewrite Hstatus in Hsb.
    destruct (CompleteTask_outcome id (db st) Hf) as (Hrows & Hf' & Hres).
    rewrite Hworld, (listing_ok _ Hf'), Hrows.
    rewrite (order_by_map (complete id))
      by (intros x; unfold complete; now destruct (has_id id x)).
    destruct (fst (CompleteTask id (db st))) as [task | e] eqn:Hfst.
    + inversion Hsb; subst. specialize (Hjson eq_refl). inversion Hjson; subst.
      destruct Hres as (old & Hold & Hidold & ->). subst id.
      unfold Frontend.completeTask. change (Frontend.ok 200) with true. cbn iota.
      pose proof (assign_first (ID old) _ (listing_keys _ Hwk)) as Hassign.
      destruct (Frontend.findIndex _ _) as [i|].
      * destruct Hassign as (old' & Hfind & Heq).
        apply find_some in Hfind. destruct Hfind as [Hin' Hid'].
        apply has_id_true in Hid'.
        assert (old' = old).
        { apply (same_id_same_row (rows (db st))); [apply Hwk | | exact Hold | exact Hid'].
          eapply Permutation_in; [apply order_by_perm | exact Hin']. }
        subst old'. exact Heq.
      * symmetry. apply Hassign.
    + destruct Hres as [-> Hno]. inversion Hsb; subst. cbn.
      symmetry. apply map_complete_done_or_absent.
      intros u Hu Hidu. apply (Hno u); [|exact Hidu].
      eapply Permutation_in; [apply order_by_perm | exact Hu].
  - intros rb title Hdec Hne Hold run code newTask Hstatus Hjson.
    subst run. rewrite (CreateTask_valid encodeTask decodeTitle title rb st Hdec Hne) in *.
    cbn zeta in *.
    destruct (String.eqb_spec title "errorTest") as [-> | Hnt].
    + change (Database.CreateTask "errorTest" (db st)) with (@inr Task _ simulated_error, db st) in *.
      cbn iota in *. rewrite status_Error in Hstatus. inversion Hstatus; subst.
      cbn. now rewrite (listing_ok _ Hf).
    + destruct (Z.le_gt_cases (next_id (db st)) MaxInt) as [Hroom | Hfull].
      * rewrite (CreateTask_ok title (db st) Hnt Hf Hroom) in *. cbn iota in *.
        rewrite status_JSON in Hstatus by reflexivity. inversion Hstatus; subst.
        specialize (Hjson eq_refl). cbn [fst] in Hjson. inversion Hjson; subst.
        cbn [Frontend.createTask Frontend.ok]. cbn.
        rewrite listing_ok by exact Hf. cbn [rows set_autoinc set_rows].
        symmetry. now apply order_by_newest.
      * rewrite (CreateTask_full title (db st) Hnt Hf Hfull) in *. cbn iota in *.
        rewrite status_Error in Hstatus. inversion Hstatus; subst.
        cbn. now rewrite listing_ok by exact Hf.
Qed.

End Page.

(** ** handlers.go: errors on the span *)

Section SpanErrors.
Variable encodeTask : Database.Task -> string.
Variable decodeTitle : Reader -> option string.

Lemma recorded_errors_app (a b : list SpanCall) :
  recorded_errors (a ++ b) = (recorded_errors a + recorded_errors b)%nat.
Proof. unfold recorded_errors. now rewrite filter_app, List.length_app. Qed.

Ltac status_of_run :=
  repeat match goal with
         | |- context [status (respond ?run)] =>
             let v := eval vm_compute in (status (respond run)) in
             change (status (respond run)) with v
         end.

Ltac count_errors :=
  repeat match goal with
         | |- recorded_errors (span (world ?run)) = _ =>
             match run with
             | context [match ?x with _ => _ end] => destruct x eqn:?
             | context [if ?b then _ else _] => destruct b eqn:?
             end
         end;
  status_of_run; cbn [world returns panics span on_span set_db measure
                      Server.recordRequestMetrics Server.notifyExternalAPI];
  rewrite ?recorded_errors_app; cbn; lia.

(** X23: a handler records an error on the span of the request exactly
    when it answers 500: for each of the four handlers and every request,
    the span gets one [RecordError] more if the status sent is 500, and none
    otherwise; a 404 for an unknown identifier and a 400 are not recorded as
    errors. *)
Theorem X23_span_error_iff_500 (r : Request) (st : World) (run : Run) :
  In run [Server.GetTasks encodeTask r st;
          Server.CreateTask encodeTask decodeTitle r st;
          Server.DeleteTask r st;
          Server.CompleteTask encodeTask r st] ->
  recorded_errors (span (world run)) =
    (recorded_errors (span st) +
     match status (respond run) with
     | Some 500%Z => 1
     | _ => 0
     end)%nat.
Proof.
  intros [<- | [<- | [<- | [<- | []]]]].
  - unfold Server.GetTasks. count_errors.
  - unfold Server.CreateTask. count_errors.
  - unfold Server.DeleteTask. count_errors.
  - unfold Server.CompleteTask. count_errors.
Qed.

End SpanErrors.

(** ** Identifiers in paths: printing and parsing *)

Section Decimal.
Import Decimal.

Ltac next_digit :=
  cbn [NilEmpty.string_of_uint digits Pos.of_uint_acc Pos.of_uint];
  match goal with
  | |- context [digit_of ?c] =>
      let v := eval vm_compute in (digit_of c) in
      change (digit_of c) with v
  end; cbn iota.

Lemma digits_from (d : uint) (acc : positive) :
  digits (Z.pos acc) (NilEmpty.string_of_uint d) = Some (Z.pos (Pos.of_uint_acc d acc)).
Proof.
  revert acc. induction d as [|d IH|d IH|d IH|d IH|d IH|d IH|d IH|d IH|d IH|d IH];
    intros acc; [reflexivity|..]; next_digit;
    match goal with
    | |- digits ?z _ = Some (Z.pos (Pos.of_uint_acc _ ?q)) =>
        replace z with (Z.pos q) by lia
    end; apply IH.
Qed.

Lemma digits_of_uint (d : uint) :
  digits 0 (NilEmpty.string_of_uint d) = Some (Z.of_N (Pos.of_uint d)).
Proof.
  induction d as [|d IH|d IH|d IH|d IH|d IH|d IH|d IH|d IH|d IH|d IH];
    [reflexivity | next_digit; exact IH | ..];
    next_digit; cbn [Z.mul Z.add]; rewrite digits_from; reflexivity.
Qed.

Lemma digits_of_positive (p : positive) :
  digits 0 (NilEmpty.string_of_uint (Pos.to_uint p)) = Some (Z.pos p).
Proof. now rewrite digits_of_uint, DecimalPos.Unsigned.of_to. Qed.

Lemma Atoi_digits (d : uint) (n : Z) :
  d <> Nil ->
  digits 0 (NilEmpty.string_of_uint d) = Some n ->
  MinInt <= n <= MaxInt ->
  Atoi (NilEmpty.string_of_uint d) = Some n.
Proof.
  intros Hd Hdigits Hrange. unfold Atoi.
  destruct d; [congruence|..]; cbn [NilEmpty.string_of_uint] in *;
    rewrite Hdigits;
    replace ((MinInt <=? n) && (n <=? MaxInt)) with true; try reflexivity;
    symmetry; apply andb_true_iff; split; apply Z.leb_le; lia.
Qed.

Lemma Itoa_positive (p : positive) :
  Itoa (Z.pos p) = NilEmpty.string_of_uint (Pos.to_uint p).
Proof.
  unfold Itoa. cbn [Z.to_int NilZero.string_of_int].
  pose proof (DecimalPos.Unsigned.to_uint_nonnil p) as Hnil.
  now destruct (Pos.to_uint p).
Qed.

Lemma Atoi_Itoa (n : Z) : MinInt <= n <= MaxInt -> Atoi (Itoa n) = Some n.
Proof.
  intros Hrange. destruct n as [|p|p].
  - reflexivity.
  - rewrite Itoa_positive. apply Atoi_digits; [|apply digits_of_positive | exact Hrange].
    apply DecimalPos.Unsigned.to_uint_nonnil.
  - assert (Hprint : Itoa (Z.neg p) = String "-" (NilEmpty.string_of_uint (Pos.to_uint p))).
    { change (Itoa (Z.neg p)) with (String "-" (Itoa (Z.pos p))).
      now rewrite Itoa_positive. }
    rewrite Hprint. unfold Atoi.
    pose proof (digits_of_positive p) as Hdigits.
    pose proof (DecimalPos.Unsigned.to_uint_nonnil p) as Hnil.
    destruct (Pos.to_uint p); [congruence|..]; cbn [NilEmpty.string_of_uint] in *;
      rewrite Hdigits; cbn [Z.opp];
      replace ((MinInt <=? Z.neg p) && (Z.neg p <=? MaxInt)) with true;
      try reflexivity;
      symmetry; apply andb_true_iff; split; apply Z.leb_le; lia.
Qed.

End Decimal.

Section PathsWithIdentifiers.
Variable encodeTask : Database.Task -> string.

Lemma complete_path_routed (s : string) (rbody : option Reader) (st : World) :
  Server.task_route encodeTask (mkRequest "POST" ("/tasks/" ++ s ++ "/complete") rbody) st
  = Server.CompleteTask encodeTask
      (mkRequest "POST" ("/tasks/" ++ s ++ "/complete") rbody) st.
Proof.
  unfold Server.task_route. cbn [Method Path].
  change (String.eqb "POST" "DELETE") with false.
  change (String.eqb "POST" "OPTIONS") with false.
  change (String.eqb "POST" "POST") with true. cbn [orb andb].
  pose proof (len_nonneg s) as Hs.
  assert (Hlen : len (s ++ "/complete") = len s + 9) by (rewrite len_app; reflexivity).
  replace (len "/tasks/" <? len ("/tasks/" ++ s ++ "/complete")) with true
    by (symmetry; apply Z.ltb_lt; rewrite len_app, Hlen;
        change (len "/tasks/") with 7; lia).
  rewrite slice_from_tasks.
  replace (0 <? len (s ++ "/complete")) with true
    by (symmetry; apply Z.ltb_lt; lia).
  change 9 with (len "/complete"). rewrite slice_from_tail.
  reflexivity.
Qed.

(** X24: an identifier printed in decimal in the path is the identifier
    the store is asked about: for every identifier of 64 bits, [Atoi] reads
    back what ["%d"] prints; DELETE /tasks/<id> asks the store to delete
    exactly that identifier, and POST /tasks/<id>/complete, through the
    router, asks it to complete exactly that identifier. *)
Theorem X24_identifier_in_path_reaches_store (id : Z) (rbody : option Reader)
    (st : World) :
  MinInt <= id <= MaxInt ->
  Atoi (Itoa id) = Some id /\
  db (world (Server.DeleteTask (mkRequest "DELETE" ("/tasks/" ++ Itoa id) rbody) st))
    = snd (Database.DeleteTask id (db st)) /\
  db (world (Server.task_route encodeTask
               (mkRequest "POST" ("/tasks/" ++ Itoa id ++ "/complete") rbody) st))
    = snd (Database.CompleteTask id (db st)).
Proof.
  intros Hrange. pose proof (Atoi_Itoa id Hrange) as Hparse.
  split; [exact Hparse|]. split.
  - apply (DeleteTask_handler id). now rewrite TrimPrefix_app.
  - rewrite complete_path_routed. apply (CompleteTask_handler encodeTask id).
    cbn [Path]. now rewrite TrimPrefix_app, TrimSuffix_app.
Qed.

End PathsWithIdentifiers.

(** ** Instances of the properties above *)

Lemma X12_witness :
  let r := mkRequest "POST" "/tasks" (Some [Data "{"; Data "}"]) in
  ReadAll [Data "{"; Data "}"] = (("{}", None), []) /\
  span (snd (Middleware.capture_request r empty_world)) = [request_body_event "{}"].
Proof.
  intros r. split; [reflexivity|].
  destruct (X12_request_body_event r empty_world) as (_ & _ & Hevent & _).
  refine (Hevent [Data "{"; Data "}"] "{}" [] eq_refl _ _ eq_refl); discriminate.
Defined.

Lemma X13_witness :
  let r := mkRequest "HEAD" "/tasks" None in
  let out := Middleware.BodyTracingMiddleware
               (Server.tasks_route Database.Title title_of_body)
               (response_to r) r empty_world in
  exists code,
    In code [200; 201; 204; 400; 404; 405; 500] /\
    status (fst (fst out)) = Some code /\
    sent (fst (fst out)) = "" /\
    span (snd (fst out)) =
      [response_body_event ("Method not allowed" ++ Server.newline) code].
Proof.
  intros r out.
  destruct (proj1 (X13_answer_and_event_agree Database.Title title_of_body
                     r empty_world) eq_refl)
    as (code & Hin & Hstatus & Hsent & Hspan).
  exists code. split; [exact Hin|]. split; [exact Hstatus|].
  split; [exact Hsent | exact Hspan].
Defined.

Lemma X14_witness :
  let r := mkRequest "PUT" "/tasks" None in
  has_CORS (respond (Server.DeleteTask r empty_world)) /\
  status (respond (Server.tasks_route Database.Title title_of_body r empty_world))
    = Some 405.
Proof.
  intros r.
  destruct (X14_CORS_headers Database.Title title_of_body r empty_world)
    as (_ & _ & Hdel & _ & Hput).
  split; [exact Hdel|].
  refine (proj1 (Hput _ _ _)); discriminate.
Defined.

Lemma X15_witness :
  Atoi (TrimPrefix "/tasks/2" "/tasks/") = Some 2 /\
  recorded_once "DELETE" "/tasks/:id" two_tasks_world
    (Server.DeleteTask (mkRequest "DELETE" "/tasks/2" None) two_tasks_world).
Proof.
  split; [reflexivity|].
  exact (proj1 (proj2 (X15_store_requests_recorded_once Database.Title title_of_body
                         (mkRequest "DELETE" "/tasks/2" None) two_tasks_world))
           2 eq_refl eq_refl).
Defined.

Lemma X16_witness :
  let r := mkRequest "DELETE" "/tasks/abc" None in
  status (respond (Server.DeleteTask r two_tasks_world)) = Some 400 /\
  world (Server.DeleteTask r two_tasks_world) = two_tasks_world.
Proof.
  intros r. split; [reflexivity|].
  refine (X16_refusals_leave_the_world_untouched Database.Title title_of_body
            r two_tasks_world (Server.DeleteTask r two_tasks_world) _
            (or_introl eq_refl)).
  right; right; left; reflexivity.
Defined.

Lemma X17_witness :
  Atoi "2" = Some 2 /\
  status_and_body (Server.task_route Database.Title
                     (mkRequest "POST" "/tasks/2/complete" None) two_tasks_world)
  = (Some 200, "Walk dog" ++ Server.newline).
Proof.
  split; [reflexivity|].
  exact (proj1 (proj2 (X17_complete_route Database.Title "2" 2 None two_tasks_world
                         eq_refl))).
Defined.

Lemma X18_witness :
  let r := mkRequest "POST" "/tasks/12" (Some []) in
  exists d out,
    Server.serve Database.Title title_of_body "/tasks/12" r empty_world = Some d /\
    d = Server.Routed out /\ snd out = true.
Proof.
  intros r. eexists.
  destruct (proj2 (proj1 (X18_when_the_server_panics Database.Title title_of_body
                            r empty_world _ eq_refl))) as (out & Hd & Hpanic).
  - split; [reflexivity|]. split; [reflexivity|]. right.
    split; [reflexivity|]. vm_compute. split; reflexivity.
  - exists out. split; [reflexivity|]. split; [exact Hd | exact Hpanic].
Defined.

Lemma X19_witness :
  let req := Client.mkOutRequest "POST" "https://httpbin.org/post" "httpbin.org" []
               (Some [Data "a"; Data "b"]) in
  let ex := Client.DoWithBodyCapture remote_up status_text req [] in
  exists req' resp',
    Client.handed_to_Do ex = Some req' /\
    option_map (fun b => fst (ReadAll b)) (Client.out_body req') = Some ("ab", None) /\
    Client.returned ex = inl resp' /\
    ReadAll (Client.resp_body resp') = (("POST https://httpbin.org/post", None), []).
Proof.
  intros req ex.
  destruct (X19_capture_does_not_consume remote_up status_text req [])
    as (req' & Hhanded & _ & _ & _ & _ & Hcontent & Hresp).
  - right. exists [Data "a"; Data "b"], "ab", []. split; reflexivity.
  - assert (Hreq' : req' = Client.with_out_body req (NewReader "ab")).
    { subst ex. vm_compute in Hhanded. now inversion Hhanded. }
    destruct (Hresp (Client.mkOutResponse 200
                       [Data "POST"; Data " "; Data "https://httpbin.org/post"])
                    "POST https://httpbin.org/post" [])
      as (resp' & Hret & _ & Hread).
    + now rewrite Hreq'.
    + reflexivity.
    + exists req', resp'. split; [exact Hhanded|]. split; [exact Hcontent|].
      split; [exact Hret | exact Hread].
Defined.

Lemma X20_witness :
  let req := Client.mkOutRequest "POST" "https://httpbin.org/post" "httpbin.org" []
               (Some [Data "a"; Failure "unexpected EOF"]) in
  let ex := Client.DoWithBodyCapture remote_up status_text req [] in
  Client.returned ex = inr (wrap "failed to read request body" (Errorf "unexpected EOF")) /\
  Client.handed_to_Do ex = None /\ Client.span_after ex = [].
Proof.
  intros req ex.
  exact (proj1 (X20_outbound_failures remote_up status_text req [])
           [Data "a"; Failure "unexpected EOF"] (Errorf "unexpected EOF")
           eq_refl eq_refl).
Defined.

Lemma X21_witness :
  let ex := snd (Client.notifyExternalAPI remote_down status_text encode_params
                   (Database.mkTask 1 "Buy milk" false 100)) in
  Client.returned ex = inr (Errorf "dial tcp: connection refused") /\
  exists e before,
    Client.span_after ex
    = (before ++ [RecordError e; RecordError (Errorf "dial tcp: connection refused")])%list.
Proof.
  intros ex. split; [reflexivity|].
  destruct (proj1 (proj2 (X21_notification remote_down status_text encode_params
                            (Database.mkTask 1 "Buy milk" false 100)))
              (Errorf "dial tcp: connection refused") eq_refl)
    as (e & before & Hspan & _).
  exists e, before. exact Hspan.
Defined.

Lemma X22_witness :
  well_keyed two_tasks /\ Database.fault two_tasks = None /\
  Atoi (TrimPrefix "/tasks/2" "/tasks/") = Some 2 /\
  Frontend.deleteTask 2 204 (listing two_tasks)
  = listing (db (world (Server.DeleteTask (mkRequest "DELETE" "/tasks/2" None)
                          two_tasks_world))).
Proof.
  split; [exact two_tasks_well_keyed|]. split; [reflexivity|]. split; [reflexivity|].
  exact (proj1 (X22_page_list_follows_server Database.Title title_of_body
                  two_tasks two_tasks_world 2 "/tasks/2" None
                  two_tasks_well_keyed eq_refl eq_refl)
           eq_refl 204 eq_refl).
Defined.

Lemma X23_witness :
  let st := mkWorld (Database.mkConn [] 0 0 (Some "disk I/O error") []) [] [] in
  let run := Server.DeleteTask (mkRequest "DELETE" "/tasks/1" None) st in
  status (respond run) = Some 500 /\ recorded_errors (span (world run)) = 1%nat.
Proof.
  intros st run. split; [reflexivity|].
  refine (X23_span_error_iff_500 Database.Title title_of_body
            (mkRequest "DELETE" "/tasks/1" None) st run _).
  right; right; left; reflexivity.
Defined.

Lemma X24_witness :
  MinInt <= -42 <= MaxInt /\
  Itoa (-42) = "-42" /\ Atoi (Itoa (-42)) = Some (-42).
Proof.
  assert (Hrange : MinInt <= -42 <= MaxInt) by (vm_compute; split; discriminate).
  split; [exact Hrange|]. split; [reflexivity|].
  exact (proj1 (X24_identifier_in_path_reaches_store Database.Title (-42) None
                  empty_world Hrange)).
Defined.
